(** * D.C. Glasses Finder: eligibility tiers, recommendations, image resolver

    A shallow embedding of the JavaScript services of the glasses-finder
    application and the proofs of the properties its specification states.

    The embedded sources are
    - the [GlassesService] class (MEDICAID_INCOME_LIMITS, VALID_DC_ZIP_CODES,
      TIER_CONFIG, validateDCZipCode, _validateInputs, _determineTier,
      assessEligibility, _getRelevantResources,
      getPersonalizedRecommendations, the read accessors and statistics),
    - the error classes and [errorHandler.handleError],
    - the [GlassesImageService] class of services/aiImageService.js.

    Conventions of the embedding:
    - a JavaScript string is a [string]: one [ascii] per code unit, so the
      strings covered are those whose code units are below 256;
    - a number that passes [Number.isInteger] is a [Z];
    - the one [Map] held in [this._cache] is a [gmap string Value];
    - a method that reads the clock takes the reading ([now]) as argument;
    - a method that may throw returns a [Completion];
    - a method of the service takes the service and returns the new one. *)

From Stdlib Require Import ZArith List String Ascii Lia Permutation Sorted.
From Stdlib Require Import DecimalString DecimalZ DecimalPos.
From stdpp Require Import gmap strings list fin_maps.

(** ** JavaScript values, strings and completions *)

(** The values a caller can pass for an argument. [JsNonInt] stands for
    every number that [Number.isInteger] rejects (a fraction, NaN, an
    infinity) and carries the text [String(x)] gives for it. *)
Inductive JsValue : Type :=
| JsInt (z : Z)
| JsNonInt (text : string)
| JsString (s : string)
| JsUndefined
| JsNull.

(** Decimal text of an integer, as a template literal renders it. *)
Definition string_of_Z (z : Z) : string :=
  NilEmpty.string_of_int (Z.to_int z).

(** [`${v}`] *)
Definition ToString (v : JsValue) : string :=
  match v with
  | JsInt z => string_of_Z z
  | JsNonInt text => text
  | JsString s => s
  | JsUndefined => "undefined"
  | JsNull => "null"
  end.

(** [Number.isInteger(v)] *)
Definition Number_isInteger (v : JsValue) : bool :=
  match v with
  | JsInt _ => true
  | _ => false
  end.

(** The mathematical value of a number that passed [Number.isInteger]. *)
Definition integer_value (v : JsValue) : Z :=
  match v with
  | JsInt z => z
  | _ => 0%Z
  end.

(** [`${x}`] for a destructured array element, [None] being [undefined]. *)
Definition string_of_element (x : option Z) : string :=
  match x with
  | Some z => string_of_Z z
  | None => "undefined"
  end.

(** White space of [String.prototype.trim] among the code units below 256:
    TAB, LF, VT, FF, CR, SPACE and NBSP. *)
Definition is_whitespace (c : ascii) : bool :=
  let n := N_of_ascii c in
  ((9 <=? n)%N && (n <=? 13)%N) || (n =? 32)%N || (n =? 160)%N.

Fixpoint trimStart (s : string) : string :=
  match s with
  | EmptyString => EmptyString
  | String c rest => if is_whitespace c then trimStart rest else s
  end.

Fixpoint trimEnd (s : string) : string :=
  match s with
  | EmptyString => EmptyString
  | String c rest =>
      match trimEnd rest with
      | EmptyString => if is_whitespace c then EmptyString else String c EmptyString
      | kept => String c kept
      end
  end.

(** [s.trim()] *)
Definition trim (s : string) : string := trimEnd (trimStart s).

(** [l.join(sep)] *)
Fixpoint join (sep : string) (l : list string) : string :=
  match l with
  | [] => ""
  | x :: rest =>
      match rest with
      | [] => x
      | _ => x +:+ sep +:+ join sep rest
      end
  end.

(** [s.toLowerCase()] on a code unit below 256 whose lower case is below
    256 too; only the letters A-Z matter to the callers below. *)
Definition toLowerCase_char (c : ascii) : ascii :=
  let n := N_of_ascii c in
  if ((65 <=? n)%N && (n <=? 90)%N) || ((192 <=? n)%N && (n <=? 222)%N && negb (n =? 215)%N)
  then ascii_of_N (n + 32) else c.

Fixpoint toLowerCase (s : string) : string :=
  match s with
  | EmptyString => EmptyString
  | String c rest => String (toLowerCase_char c) (toLowerCase rest)
  end.

(** Association-list lookup: the own properties of an object literal. *)
Fixpoint assoc {A : Type} (key : string) (obj : list (string * A)) : option A :=
  match obj with
  | [] => None
  | (k, v) :: rest => if String.eqb k key then Some v else assoc key rest
  end.

(** Property names every object literal inherits from [Object.prototype]. *)
Definition Object_prototype : list string :=
  [ "constructor"; "hasOwnProperty"; "isPrototypeOf"; "propertyIsEnumerable";
    "toLocaleString"; "toString"; "valueOf"; "__proto__";
    "__defineGetter__"; "__defineSetter__"; "__lookupGetter__"; "__lookupSetter__" ].

(** What [obj[key]] finds: an own value, or a member inherited from
    [Object.prototype] (a function or the prototype itself, truthy). *)
Inductive Property (A : Type) : Type :=
| Own (a : A)
| Inherited (name : string).
Arguments Own {A} a.
Arguments Inherited {A} name.

(** [obj[key]]; [None] is [undefined]. *)
Definition get_property {A : Type} (obj : list (string * A)) (key : string)
  : option (Property A) :=
  match assoc key obj with
  | Some a => Some (Own a)
  | None =>
      if existsb (String.eqb key) Object_prototype then Some (Inherited key) else None
  end.

(** ** Error classes (errorHandler) *)

Inductive JsError : Type :=
| Error (message : string)
| ValidationError (message : string) (field : option string)
| ServiceError (message : string) (code : option string)
| NetworkError (message : string) (status : option Z).

Definition message (e : JsError) : string :=
  match e with
  | Error m => m
  | ValidationError m _ => m
  | ServiceError m _ => m
  | NetworkError m _ => m
  end.

(** [e instanceof ValidationError] *)
Definition instanceof_ValidationError (e : JsError) : bool :=
  match e with
  | ValidationError _ _ => true
  | _ => false
  end.

(** [e instanceof ServiceError] *)
Definition instanceof_ServiceError (e : JsError) : bool :=
  match e with
  | ServiceError _ _ => true
  | _ => false
  end.

(** [e instanceof NetworkError] *)
Definition instanceof_NetworkError (e : JsError) : bool :=
  match e with
  | NetworkError _ _ => true
  | _ => false
  end.

Module ErrorInfo.
Record t : Type := mk {
    message : string;
    type : string;
    code : string;
    field : option string;
    status : option Z
}.
End ErrorInfo.

(** [errorHandler.handleError(error)] without its console output. *)
Definition handleError (error : JsError) : ErrorInfo.t :=
  match error with
  | ValidationError m f =>
      ErrorInfo.mk m "warning" "VALIDATION_ERROR" f None
  | ServiceError m c =>
      ErrorInfo.mk
        (if String.eqb m "" then "Service temporarily unavailable. Please try again later." else m)
        "error"
        (match c with
         | Some c' => if String.eqb c' "" then "SERVICE_ERROR" else c'
         | None => "SERVICE_ERROR"
         end)
        None None
  | NetworkError _ st =>
      ErrorInfo.mk "Network connection error. Please check your internet connection."
        "error" "NETWORK_ERROR" None st
  | Error m =>
      ErrorInfo.mk
        (if String.eqb m "" then "An unexpected error occurred. Please try again." else m)
        "error" "UNKNOWN_ERROR" None None
  end.

(** The outcome of a call: a value or a thrown error. *)
Inductive Completion (A : Type) : Type :=
| Return (a : A)
| Throw (e : JsError).
Arguments Return {A} a.
Arguments Throw {A} e.

(** ** GlassesService: static tables *)

Local Open Scope Z_scope.

(** [GlassesService.MEDICAID_INCOME_LIMITS], keyed by household size. *)
Definition MEDICAID_INCOME_LIMITS : list (Z * Z) :=
  [ (1, 20783); (2, 28207); (3, 35632); (4, 43056);
    (5, 50481); (6, 57905); (7, 65330); (8, 72754) ].

(** [MEDICAID_INCOME_LIMITS[k]]; [None] is [undefined]. *)
Fixpoint limit_at (k : Z) (table : list (Z * Z)) : option Z :=
  match table with
  | [] => None
  | (size, limit) :: rest => if size =? k then Some limit else limit_at k rest
  end.

(** The elements [GlassesService.VALID_DC_ZIP_CODES] is built from. *)
Definition DC_ZIP_CODES : list string :=
  [ "20001"; "20002"; "20003"; "20004"; "20005"; "20006"; "20007"; "20008";
    "20009"; "20010"; "20011"; "20012"; "20015"; "20016"; "20017"; "20018";
    "20019"; "20020"; "20024"; "20026"; "20027"; "20029"; "20030"; "20032";
    "20036"; "20037"; "20052"; "20053"; "20056"; "20057"; "20064"; "20066";
    "20071"; "20090"; "20091"; "20201"; "20204"; "20228"; "20240"; "20260" ].

(** [GlassesService.VALID_DC_ZIP_CODES = new Set([...])] *)
Definition VALID_DC_ZIP_CODES : gset string := list_to_set DC_ZIP_CODES.

(** The [multiplier] of a tier: a number or [Infinity]. *)
Inductive Multiplier : Type :=
| Times (k : Z)
| Infinity.

Module TierConfig.
Record t : Type := mk {
    multiplier : Multiplier;
    budgetRange : list Z;
    tier : string;
    name : string
}.
End TierConfig.

(** [GlassesService.TIER_CONFIG], in the order [Object.entries] lists it. *)
Definition TIER_CONFIG : list (string * TierConfig.t) :=
  [ ("MEDICAID_ELIGIBLE", TierConfig.mk (Times 1) [0; 50] "medicaid_eligible" "Medicaid Eligible");
    ("LOW_INCOME_GAP", TierConfig.mk (Times 2) [0; 100] "low_income_gap" "Low-Income Gap");
    ("MODERATE_INCOME", TierConfig.mk (Times 3) [50; 200] "moderate_income" "Moderate Income");
    ("ANY_INCOME", TierConfig.mk Infinity [0; 500] "any_income" "Any Income") ].

(** [GlassesService.TIER_CONFIG.ANY_INCOME] *)
Definition TIER_CONFIG_ANY_INCOME : TierConfig.t :=
  TierConfig.mk Infinity [0; 500] "any_income" "Any Income".

(** [GlassesService.FRAME_STYLE_IMAGES] *)
Definition FRAME_STYLE_IMAGES : list (string * string) :=
  [ ("round", "https://via.placeholder.com/300x200/f0f0f0/333333?text=Round+Frame");
    ("square", "https://via.placeholder.com/300x200/e8e8e8/444444?text=Square+Frame");
    ("aviator", "https://via.placeholder.com/300x200/f5f5f5/555555?text=Aviator+Frame");
    ("rectangular", "https://via.placeholder.com/300x200/f2f2f2/666666?text=Rectangular");
    ("classic", "https://via.placeholder.com/300x200/eeeeee/333333?text=Classic+Frame");
    ("cat-eye", "https://via.placeholder.com/300x200/f8f8f8/444444?text=Cat+Eye") ]%string.

(** ** GlassesService: data model *)

(** An entry of [rawData]; an absent property is [None]. *)
Module RawItem.
Record t : Type := mk {
    site : option string;
    name : option string;
    numeric_price : option Z;
    features : option string;
    url : option string;
    frame_style : option string;
    material : option string;
    price : option string;
    image_url : option string
}.
End RawItem.

(** A catalog item as [_createGlassesItem] freezes it. *)
Module GlassesItem.
Record t : Type := mk {
    site : string;
    name : string;
    numeric_price : Z;
    features : string;
    url : string;
    frame_style : string;
    material : string;
    id : string;
    price : string;
    image_url : Property string;
    created_at : string
}.
End GlassesItem.

(** An assistance resource; each property may be absent. *)
Module Resource.
Record t : Type := mk {
    name : string;
    description : option string;
    phone : option string;
    address : option string;
    website : option string;
    eligibility : option string
}.
End Resource.

Module DCResources.
Record t : Type := mk {
    medicaid_providers : list Resource.t;
    discount_programs : list Resource.t;
    local_stores : list Resource.t
}.
End DCResources.

(** The object [assessEligibility] freezes and returns. The three inputs
    are stored as they were passed. *)
Module Eligibility.
Record t : Type := mk {
    tier : string;
    tierName : string;
    budgetRange : list Z;
    householdSize : JsValue;
    annualIncome : JsValue;
    zipCode : JsValue;
    medicaidLimit : option Z;
    resources : list Resource.t;
    assessedAt : string
}.
End Eligibility.

(** The properties [getPersonalizedRecommendations] reads from its
    argument; an absent (or otherwise falsy) [budgetRange] is [None]. *)
Module EligibilityArg.
Record t : Type := mk {
    tier : string;
    tierName : string;
    budgetRange : option (list Z)
}.
End EligibilityArg.

(** The view of an assessment that the form passes on. *)
Definition arg_of_eligibility (e : Eligibility.t) : EligibilityArg.t :=
  EligibilityArg.mk (Eligibility.tier e) (Eligibility.tierName e)
    (Some (Eligibility.budgetRange e)).

(** The object [getPersonalizedRecommendations] freezes and returns. *)
Module Recommendations.
Record t : Type := mk {
    tier : string;
    tierName : string;
    budgetRange : string;
    totalOptions : nat;
    topRecommendations : list GlassesItem.t;
    allRecommendations : list GlassesItem.t;
    priorityMessage : Property string;
    generatedAt : string
}.
End Recommendations.

(** What the cache holds and a cached call returns. *)
Inductive Value : Type :=
| VEligibility (e : Eligibility.t)
| VRecommendations (r : Recommendations.t).

(** The instance state of a [GlassesService]. *)
Record GlassesService : Type := mkService {
  _glassesData : list GlassesItem.t;
  _dcResources : DCResources.t;
  _cache : gmap string Value
}.

(** [this._cache.set(key, v)] *)
Definition cache_set (s : GlassesService) (key : string) (v : Value) : GlassesService :=
  mkService (_glassesData s) (_dcResources s) (<[key := v]> (_cache s)).

(** ** GlassesService: construction *)

(** [str.toLowerCase().replace(/[^a-z0-9]/g, '-')] *)
Definition normalize_char (c : ascii) : ascii :=
  let l := toLowerCase_char c in
  let n := N_of_ascii l in
  if (((97 <=? n) && (n <=? 122)) || ((48 <=? n) && (n <=? 57)))%N then l else "-"%char.

Fixpoint normalize (str : string) : string :=
  match str with
  | EmptyString => EmptyString
  | String c rest => String (normalize_char c) (normalize rest)
  end.

(** [_generateId(site, name)] *)
Definition _generateId (site name : string) : string :=
  normalize site +:+ "-" +:+ normalize name.

(** [a || b] for a looked-up property: [undefined] and the empty string
    are falsy, every other own value and every inherited member is truthy. *)
Definition property_or (a : option (Property string)) (b : Property string)
  : Property string :=
  match a with
  | None => b
  | Some (Own s) => if String.eqb s "" then b else Own s
  | Some (Inherited n) => Inherited n
  end.

(** [_getDefaultImage(frameStyle)] *)
Definition _getDefaultImage (frameStyle : string) : Property string :=
  property_or (get_property FRAME_STYLE_IMAGES frameStyle)
    (property_or (get_property FRAME_STYLE_IMAGES "classic") (Own ""%string)).

(** [!item[field]] for a property holding a string. *)
Definition falsy_string (x : option string) : bool :=
  match x with
  | None => true
  | Some s => String.eqb s ""
  end.

(** [a || b] for a string property and a string. *)
Definition string_or (a : option string) (b : string) : string :=
  match a with
  | None => b
  | Some s => if String.eqb s "" then b else s
  end.

(** [_createGlassesItem(item)]; [now] is the reading of [new Date()]. *)
Definition _createGlassesItem (now : string) (item : RawItem.t)
  : Completion GlassesItem.t :=
  let required :=
    [ ("site", falsy_string (RawItem.site item));
      ("name", falsy_string (RawItem.name item));
      ("numeric_price", bool_decide (RawItem.numeric_price item = None));
      ("features", falsy_string (RawItem.features item));
      ("frame_style", falsy_string (RawItem.frame_style item));
      ("material", falsy_string (RawItem.material item)) ]%string in
  let missing := map fst (List.filter snd required) in
  if (0 <? length missing)%nat then
    Throw (Error ("Missing required fields for glasses item: " +:+ join ", " missing))
  else
    let site := default ""%string (RawItem.site item) in
    let name := default ""%string (RawItem.name item) in
    let numeric_price := default 0 (RawItem.numeric_price item) in
    let frame_style := default ""%string (RawItem.frame_style item) in
    if numeric_price <? 0 then
      Throw (Error ("Invalid numeric_price for " +:+ name +:+ ": must be a positive number"))
    else
      Return (GlassesItem.mk
        site name numeric_price
        (default ""%string (RawItem.features item))
        (string_or (RawItem.url item) "#")
        frame_style
        (default ""%string (RawItem.material item))
        (_generateId site name)
        (string_or (RawItem.price item) ("$" +:+ string_of_Z numeric_price))
        (match RawItem.image_url item with
         | Some u => if String.eqb u "" then _getDefaultImage frame_style else Own u
         | None => _getDefaultImage frame_style
         end)
        now).

(** An entry of [rawData] as the source writes them: seven properties. *)
Definition raw (site name : string) (numeric_price : Z)
  (features url frame_style material : string) : RawItem.t :=
  RawItem.mk (Some site) (Some name) (Some numeric_price) (Some features)
    (Some url) (Some frame_style) (Some material) None None.

(** [rawData] of [_initializeGlassesData]. *)
Definition rawData : list RawItem.t :=
  [ raw "Warby Parker" "Felix" 95
      "Square acetate frame, modern design, comfortable fit"
      "https://www.warbyparker.com/eyeglasses/felix/jet-black" "square" "Acetate";
    raw "Warby Parker" "Hardy" 95
      "Rectangular acetate frame, classic styling, durable construction"
      "https://www.warbyparker.com/eyeglasses/hardy/whiskey-tortoise" "rectangular" "Acetate";
    raw "Warby Parker" "Percey" 95
      "Metal frame, blue light filtering, adjustable nose pads"
      "https://www.warbyparker.com/eyeglasses/percey/polished-gold" "round" "Metal";
    raw "Warby Parker" "Chamberlain" 145
      "Titanium frame, progressive lenses, lightweight design"
      "https://www.warbyparker.com/eyeglasses/chamberlain/brushed-navy" "rectangular" "Titanium";
    raw "Warby Parker" "Rafael" 145
      "Rounded lenses, slender-yet-sturdy construction, endlessly versatile pairing"
      "https://www.warbyparker.com/eyeglasses/rafael/jet-black" "round" "Stainless Steel";
    raw "Warby Parker" "Durand" 45
      "Basic acetate frame, single vision, durable construction"
      "https://www.warbyparker.com/eyeglasses/durand/jet-black" "square" "Acetate";
    raw "Warby Parker" "Burke" 35
      "Simple plastic frame, reading glasses, comfortable fit"
      "https://www.warbyparker.com/eyeglasses/burke/matte-black" "rectangular" "Plastic";
    raw "Warby Parker" "Caldwell" 25
      "Ultra-budget frame, basic lenses, essential eyewear"
      "https://www.warbyparker.com/eyeglasses/caldwell/crystal-clear" "round" "Plastic" ].

(** [data.map(item => this._createGlassesItem(item))]: the first throw
    ends the loop; [clock i] is the reading of the clock at entry [i]. *)
Fixpoint create_all (clock : nat -> string) (i : nat) (data : list RawItem.t)
  : Completion (list GlassesItem.t) :=
  match data with
  | [] => Return []
  | item :: rest =>
      match _createGlassesItem (clock i) item with
      | Throw e => Throw e
      | Return g =>
          match create_all clock (S i) rest with
          | Throw e => Throw e
          | Return gs => Return (g :: gs)
          end
      end
  end.

(** [_initializeGlassesData()] *)
Definition _initializeGlassesData (clock : nat -> string)
  : Completion (list GlassesItem.t) :=
  create_all clock 0%nat rawData.

(** [_initializeDCResources()] *)
Definition _initializeDCResources : DCResources.t :=
  DCResources.mk
    [ Resource.mk "DC Medicaid Vision Benefits"
        (Some "Covers eye exams and glasses for Medicaid recipients")
        (Some "1-800-635-1663") None (Some "https://dhcf.dc.gov") None;
      Resource.mk "Martha's Table Eye Care"
        (Some "Free eye exams and glasses for low-income families")
        (Some "(202) 328-6608") (Some "2114 14th St NW, Washington, DC 20009") None None ]%string
    [ Resource.mk "Warby Parker Pupils Project"
        (Some "Provides glasses to students and low-income individuals")
        None None None (Some "Students and income-qualified individuals");
      Resource.mk "OneSight"
        (Some "Mobile clinics providing free eye care in D.C.")
        None None (Some "https://onesight.org") None ]%string
    [ Resource.mk "LensCrafters - Dupont Circle" None
        (Some "(202) 822-2020") (Some "1150 Connecticut Ave NW, Washington, DC 20036") None None;
      Resource.mk "Pearle Vision - Columbia Heights" None
        (Some "(202) 387-7327") (Some "3100 14th St NW, Washington, DC 20010") None None ]%string.

(** [new GlassesService()] *)
Definition new_GlassesService (clock : nat -> string) : Completion GlassesService :=
  match _initializeGlassesData clock with
  | Throw e => Throw e
  | Return data => Return (mkService data _initializeDCResources ∅)
  end.

(** ** GlassesService: eligibility assessment *)

(** [validateDCZipCode(zipCode)] *)
Definition validateDCZipCode (zipCode : JsValue) : bool :=
  match zipCode with
  | JsString s => bool_decide (trim s ∈ VALID_DC_ZIP_CODES)
  | _ => false
  end.

Definition HOUSEHOLD_SIZE_MESSAGE : string :=
  "Household size must be between 1 and 15 people".

Definition ANNUAL_INCOME_MESSAGE : string :=
  "Annual income must be a positive number".

Definition zip_code_message (zipCode : JsValue) : string :=
  "Invalid D.C. zip code: " +:+ ToString zipCode +:+
  ". Must be a valid D.C. zip code (e.g., 20001, 20009, 20036)".

(** The three guards of [_validateInputs]: true when the input is refused. *)
Definition householdSize_refused (householdSize : JsValue) : bool :=
  negb (Number_isInteger householdSize)
  || (integer_value householdSize <? 1) || (15 <? integer_value householdSize).

Definition annualIncome_refused (annualIncome : JsValue) : bool :=
  negb (Number_isInteger annualIncome) || (integer_value annualIncome <? 0).

Definition zipCode_refused (zipCode : JsValue) : bool :=
  negb (validateDCZipCode zipCode).

(** The [errors] array of [_validateInputs] once the three guards ran. *)
Definition validation_errors (householdSize annualIncome zipCode : JsValue)
  : list string :=
  let errors := [] in
  let errors :=
    if householdSize_refused householdSize
    then errors ++ [HOUSEHOLD_SIZE_MESSAGE] else errors in
  let errors :=
    if annualIncome_refused annualIncome
    then errors ++ [ANNUAL_INCOME_MESSAGE] else errors in
  let errors :=
    if zipCode_refused zipCode
    then errors ++ [zip_code_message zipCode] else errors in
  errors.

(** [_validateInputs(householdSize, annualIncome, zipCode)] *)
Definition _validateInputs (householdSize annualIncome zipCode : JsValue)
  : Completion unit :=
  let errors := validation_errors householdSize annualIncome zipCode in
  if (0 <? length errors)%nat then Throw (Error (join "; " errors))
  else Return tt.

(** The number [medicaidLimit * config.multiplier]. *)
Inductive Limit : Type :=
| Finite (z : Z)
| PlusInfinity
| MinusInfinity
| NaN.

Definition times (medicaidLimit : option Z) (m : Multiplier) : Limit :=
  match medicaidLimit, m with
  | None, _ => NaN
  | Some l, Times k => Finite (l * k)
  | Some l, Infinity =>
      if 0 <? l then PlusInfinity else if l <? 0 then MinusInfinity else NaN
  end.

(** [annualIncome <= limit] *)
Definition at_most (annualIncome : Z) (limit : Limit) : bool :=
  match limit with
  | Finite z => annualIncome <=? z
  | PlusInfinity => true
  | MinusInfinity => false
  | NaN => false
  end.

(** [{ ...config, medicaidLimit }] *)
Module TierResult.
Record t : Type := mk {
  config : TierConfig.t;
  medicaidLimit : option Z
}.
End TierResult.

(** The [for ... of Object.entries(TIER_CONFIG)] loop of [_determineTier]:
    the configuration it returns from, if any. *)
Fixpoint first_tier (entries : list (string * TierConfig.t))
  (annualIncome : Z) (medicaidLimit : option Z) : option TierConfig.t :=
  match entries with
  | [] => None
  | (tierKey, config) :: rest =>
      if String.eqb tierKey "ANY_INCOME" then first_tier rest annualIncome medicaidLimit
      else
        let limit := times medicaidLimit (TierConfig.multiplier config) in
        if at_most annualIncome limit then Some config
        else first_tier rest annualIncome medicaidLimit
  end.

(** [_determineTier(annualIncome, householdSize)] *)
Definition _determineTier (annualIncome householdSize : Z) : TierResult.t :=
  let medicaidLimit := limit_at (Z.min householdSize 8) MEDICAID_INCOME_LIMITS in
  match first_tier TIER_CONFIG annualIncome medicaidLimit with
  | Some config => TierResult.mk config medicaidLimit
  | None => TierResult.mk TIER_CONFIG_ANY_INCOME medicaidLimit
  end.

(** [_getRelevantResources(tier)] *)
Definition _getRelevantResources (s : GlassesService) (tier : string)
  : list Resource.t :=
  let allResources :=
    DCResources.discount_programs (_dcResources s)
    ++ DCResources.local_stores (_dcResources s) in
  if String.eqb tier "medicaid_eligible" then
    DCResources.medicaid_providers (_dcResources s) ++ allResources
  else allResources.

(** [`eligibility-${householdSize}-${annualIncome}-${zipCode}`] *)
Definition eligibility_key (householdSize annualIncome zipCode : JsValue) : string :=
  "eligibility-" +:+ ToString householdSize +:+ "-" +:+ ToString annualIncome
  +:+ "-" +:+ ToString zipCode.

(** [assessEligibility(householdSize, annualIncome, zipCode)] *)
Definition assessEligibility (now : string) (s : GlassesService)
  (householdSize annualIncome zipCode : JsValue)
  : Completion Value * GlassesService :=
  let cacheKey := eligibility_key householdSize annualIncome zipCode in
  match _cache s !! cacheKey with
  | Some cached => (Return cached, s)
  | None =>
      match _validateInputs householdSize annualIncome zipCode with
      | Throw e => (Throw e, s)
      | Return _ =>
          let tierConfig :=
            _determineTier (integer_value annualIncome) (integer_value householdSize) in
          let resources :=
            _getRelevantResources s (TierConfig.tier (TierResult.config tierConfig)) in
          let eligibility :=
            Eligibility.mk
              (TierConfig.tier (TierResult.config tierConfig))
              (TierConfig.name (TierResult.config tierConfig))
              (TierConfig.budgetRange (TierResult.config tierConfig))
              householdSize annualIncome zipCode
              (TierResult.medicaidLimit tierConfig)
              resources
              now in
          (Return (VEligibility eligibility),
           cache_set s cacheKey (VEligibility eligibility))
      end
  end.

(** [clearCache()] *)
Definition clearCache (s : GlassesService) : GlassesService :=
  mkService (_glassesData s) (_dcResources s) ∅.

(** ** GlassesService: recommendations *)

(** [Array.prototype.sort(comparefn)]: a stable sort (ECMAScript 2019),
    written as the insertion sort that keeps equal elements in order. An
    element moves behind those it compares greater than. *)
Fixpoint sort_insert {A : Type} (comparefn : A -> A -> Z) (x : A) (sorted : list A)
  : list A :=
  match sorted with
  | [] => [x]
  | y :: rest =>
      if 0 <? comparefn x y then y :: sort_insert comparefn x rest
      else x :: sorted
  end.

Fixpoint sort {A : Type} (comparefn : A -> A -> Z) (l : list A) : list A :=
  match l with
  | [] => []
  | x :: rest => sort_insert comparefn x (sort comparefn rest)
  end.

(** [price >= bound] and [price <= bound], false against [undefined]. *)
Definition at_least_bound (price : Z) (bound : option Z) : bool :=
  match bound with
  | Some b => b <=? price
  | None => false
  end.

Definition at_most_bound (price : Z) (bound : option Z) : bool :=
  match bound with
  | Some b => price <=? b
  | None => false
  end.

(** [glasses.numeric_price >= budgetMin && glasses.numeric_price <= budgetMax] *)
Definition within_budget (budgetMin budgetMax : option Z) (glasses : GlassesItem.t) : bool :=
  at_least_bound (GlassesItem.numeric_price glasses) budgetMin
  && at_most_bound (GlassesItem.numeric_price glasses) budgetMax.

(** [(a, b) => a.numeric_price - b.numeric_price] *)
Definition by_price (a b : GlassesItem.t) : Z :=
  GlassesItem.numeric_price a - GlassesItem.numeric_price b.

(** [this._glassesData.filter(...).sort(...)] of
    [getPersonalizedRecommendations]. *)
Definition suitableGlasses (glassesData : list GlassesItem.t)
  (budgetMin budgetMax : option Z) : list GlassesItem.t :=
  sort by_price (List.filter (within_budget budgetMin budgetMax) glassesData).

(** The [messages] table of [_getPriorityMessage]; the symbols that open
    the texts are kept as the bytes of their UTF-8 form. *)
Definition messages : list (string * string) :=
  [ ("medicaid_eligible",
     "🏥 You may qualify for free glasses through D.C. Medicaid! Contact the providers listed below first.");
    ("low_income_gap",
     "💙 You're in the coverage gap - check discount programs and consider the most affordable options below.");
    ("moderate_income",
     "💚 You have moderate income flexibility - focus on value and quality.");
    ("any_income",
     "✨ You have budget flexibility - explore all options for the best fit!") ]%string.

(** [_getPriorityMessage(tier)] *)
Definition _getPriorityMessage (tier : string) : Property string :=
  property_or (get_property messages tier)
    (property_or (get_property messages "any_income") (Own ""%string)).

(** [`recommendations-${eligibility.tier}-${eligibility.budgetRange.join('-')}`] *)
Definition recommendations_key (tier : string) (budgetRange : list Z) : string :=
  "recommendations-" +:+ tier +:+ "-" +:+ join "-" (map string_of_Z budgetRange).

(** [getPersonalizedRecommendations(eligibility)]; a [null] or [undefined]
    argument is [None]. *)
Definition getPersonalizedRecommendations (now : string) (s : GlassesService)
  (eligibility : option EligibilityArg.t)
  : Completion Value * GlassesService :=
  match eligibility with
  | None => (Throw (Error "Invalid eligibility data provided"), s)
  | Some eligibility =>
      match EligibilityArg.budgetRange eligibility with
      | None => (Throw (Error "Invalid eligibility data provided"), s)
      | Some budgetRange =>
          let cacheKey :=
            recommendations_key (EligibilityArg.tier eligibility) budgetRange in
          match _cache s !! cacheKey with
          | Some cached => (Return cached, s)
          | None =>
              let budgetMin := budgetRange !! 0%nat in
              let budgetMax := budgetRange !! 1%nat in
              let tier := EligibilityArg.tier eligibility in
              let suitable := suitableGlasses (_glassesData s) budgetMin budgetMax in
              let recommendations :=
                Recommendations.mk
                  tier
                  (EligibilityArg.tierName eligibility)
                  ("$" +:+ string_of_element budgetMin +:+ "-$" +:+ string_of_element budgetMax)
                  (length suitable)
                  (take 10 suitable)
                  suitable
                  (_getPriorityMessage tier)
                  now in
              (Return (VRecommendations recommendations),
               cache_set s cacheKey (VRecommendations recommendations))
          end
      end
  end.

(** ** GlassesService: read accessors and statistics *)

(** [getAllGlasses()]: the elements of a new array. *)
Definition getAllGlasses (s : GlassesService) : list GlassesItem.t :=
  _glassesData s.

(** [getGlassesByPriceRange(minPrice, maxPrice)], called with integers
    (the two [typeof] guards then pass). *)
Definition getGlassesByPriceRange (s : GlassesService) (minPrice maxPrice : Z)
  : Completion (list GlassesItem.t) :=
  if (minPrice <? 0) || (maxPrice <? minPrice) then
    Throw (Error "Invalid price range provided")
  else
    Return (List.filter (within_budget (Some minPrice) (Some maxPrice)) (_glassesData s)).

(** [glasses.frame_style.toLowerCase() === frameStyle.toLowerCase()] *)
Definition same_frame_style (frameStyle : string) (glasses : GlassesItem.t) : bool :=
  String.eqb (toLowerCase (GlassesItem.frame_style glasses)) (toLowerCase frameStyle).

(** [getGlassesByFrameStyle(frameStyle)] *)
Definition getGlassesByFrameStyle (s : GlassesService) (frameStyle : JsValue)
  : Completion (list GlassesItem.t) :=
  match frameStyle with
  | JsString style =>
      if String.eqb style "all" then Return (getAllGlasses s)
      else Return (List.filter (same_frame_style style) (_glassesData s))
  | _ => Throw (Error "Frame style must be a string")
  end.

(** The object [getPriceStatistics] returns. [avgPriceCents] is
    [avgPrice] in hundredths, [Math.round(avgPrice * 100)], computed on
    exact quotients. *)
Module PriceStatistics.
Record t : Type := mk {
  minPrice : Z;
  maxPrice : Z;
  avgPriceCents : Z;
  totalGlasses : nat;
  medicaidEligibleOptions : nat;
  lowIncomeOptions : nat;
  moderateIncomeOptions : nat
}.
End PriceStatistics.

(** [Math.min(...prices)] and [Math.max(...prices)] on a non-empty array. *)
Definition minimum (first : Z) (rest : list Z) : Z := fold_left Z.min rest first.
Definition maximum (first : Z) (rest : list Z) : Z := fold_left Z.max rest first.

(** The body of [getPriceStatistics()] on the elements of
    [this._glassesData]. *)
Definition price_statistics (glassesData : list GlassesItem.t) : PriceStatistics.t :=
  let prices := map GlassesItem.numeric_price glassesData in
  match prices with
  | [] => PriceStatistics.mk 0 0 0 0 0 0 0
  | first :: rest =>
      let total := fold_left Z.add prices 0 in
      let count := Z.of_nat (length prices) in
      PriceStatistics.mk
        (minimum first rest)
        (maximum first rest)
        ((200 * total + count) / (2 * count))
        (length glassesData)
        (length (List.filter (fun p => p <=? 50) prices))
        (length (List.filter (fun p => p <=? 100) prices))
        (length (List.filter (fun p => (50 <? p) && (p <=? 200)) prices))
  end.

(** [getPriceStatistics()] *)
Definition getPriceStatistics (s : GlassesService) : PriceStatistics.t :=
  price_statistics (_glassesData s).

(** [styleCounts[style] = (styleCounts[style] || 0) + 1], for a style that
    names no member of [Object.prototype]. *)
Fixpoint count_style (style : string) (styleCounts : list (string * nat))
  : list (string * nat) :=
  match styleCounts with
  | [] => [(style, 1%nat)]
  | (k, n) :: rest =>
      if String.eqb k style then (k, S n) :: rest
      else (k, n) :: count_style style rest
  end.

(** The body of [getFrameStyleStatistics()]: the counts in insertion
    order. *)
Definition frame_style_statistics (glassesData : list GlassesItem.t)
  : list (string * nat) :=
  fold_left (fun styleCounts glasses => count_style (GlassesItem.frame_style glasses) styleCounts)
    glassesData [].

(** [getFrameStyleStatistics()] *)
Definition getFrameStyleStatistics (s : GlassesService) : list (string * nat) :=
  frame_style_statistics (_glassesData s).

(** ** GlassesImageService (services/aiImageService.js) *)

(** The properties [generateImage] reads from its argument; an absent
    [frame_style] is [None]. *)
Module Glasses.
Record t : Type := mk {
  name : string;
  frame_style : option string;
  material : string
}.
End Glasses.

(** The instance state of a [GlassesImageService]: [this.cache]. *)
Record GlassesImageService : Type := mkImageService {
  cache : gmap string string
}.

(** [new GlassesImageService()] *)
Definition new_GlassesImageService : GlassesImageService := mkImageService ∅.

(** The signed 32-bit integer a bitwise operator makes of its operand. *)
Definition ToInt32 (z : Z) : Z := (z + 2 ^ 31) mod 2 ^ 32 - 2 ^ 31.

(** [hash << 5] *)
Definition shift_left_5 (hash : Z) : Z := ToInt32 (Z.shiftl (ToInt32 hash) 5).

(** [hash & hash] *)
Definition and_self (hash : Z) : Z := Z.land (ToInt32 hash) (ToInt32 hash).

(** [str.charCodeAt(i)] *)
Definition charCode (c : ascii) : Z := Z.of_N (N_of_ascii c).

(** The loop of [hashString], from the character at hand on. *)
Fixpoint hash_from (str : string) (hash : Z) : Z :=
  match str with
  | EmptyString => hash
  | String c rest =>
      let char := charCode c in
      let hash := (shift_left_5 hash - hash) + char in
      let hash := and_self hash in
      hash_from rest hash
  end.

(** [hashString(str)] *)
Definition hashString (str : string) : Z := Z.abs (hash_from str 0).

(** [queryMap] of [getGlassesSearchQueries]. *)
Definition queryMap : list (string * list string) :=
  [ ("Round", ["round eyeglasses"; "round glasses frames"; "circular glasses"; "round spectacles"]);
    ("Square", ["square glasses"; "rectangular eyeglasses"; "geometric frames"; "angular glasses"]);
    ("Rectangular", ["rectangular glasses"; "classic eyeglasses"; "office glasses"; "professional frames"]);
    ("Aviator", ["aviator glasses"; "pilot glasses"; "aviator frames"; "metal aviators"]);
    ("Cat-Eye", ["cat eye glasses"; "vintage eyeglasses"; "retro frames"; "cat eye frames"]);
    ("Classic", ["classic glasses"; "traditional eyeglasses"; "timeless frames"; "vintage glasses"]);
    ("default", ["eyeglasses"; "glasses frames"; "spectacles"; "optical glasses"]) ]%string.

(** [queryMap.default] *)
Definition queryMap_default : list string :=
  ["eyeglasses"; "glasses frames"; "spectacles"; "optical glasses"]%string.

(** [getGlassesSearchQueries(frameStyle)]: [queryMap[frameStyle] ||
    queryMap.default]; every array is truthy, and so is an inherited member. *)
Definition getGlassesSearchQueries (frameStyle : string) : Property (list string) :=
  match get_property queryMap frameStyle with
  | Some found => found
  | None => Own queryMap_default
  end.

(** [queries[hash % queries.length]]; [None] is [undefined]. An inherited
    member is a function or the prototype object: it has no indexed
    property. *)
Definition pick_query (queries : Property (list string)) (hash : Z) : option string :=
  match queries with
  | Own l =>
      match l with
      | [] => None
      | _ => l !! Z.to_nat (hash mod Z.of_nat (length l))
      end
  | Inherited _ => None
  end.

(** Characters [encodeURIComponent] leaves alone:
    [A-Z a-z 0-9 - _ . ! ~ * ' ( )]. *)
Definition unreserved (c : ascii) : bool :=
  let n := N_of_ascii c in
  (((65 <=? n) && (n <=? 90)) || ((97 <=? n) && (n <=? 122)) || ((48 <=? n) && (n <=? 57))
   || (n =? 45) || (n =? 95) || (n =? 46) || (n =? 33) || (n =? 126) || (n =? 42)
   || (n =? 39) || (n =? 40) || (n =? 41))%N.

Definition hex_digit (n : N) : ascii :=
  if (n <? 10)%N then ascii_of_N (48 + n) else ascii_of_N (55 + n).

(** [%XX] for one byte. *)
Definition percent_byte (b : N) : string :=
  String "%" (String (hex_digit (b / 16)) (String (hex_digit (b mod 16)) EmptyString)).

(** The escape of one code unit below 256: the bytes of its UTF-8 form. *)
Definition encode_char (c : ascii) : string :=
  let n := N_of_ascii c in
  if unreserved c then String c EmptyString
  else if (n <? 128)%N then percent_byte n
  else percent_byte (192 + n / 64) +:+ percent_byte (128 + n mod 64).

Fixpoint encode_string (s : string) : string :=
  match s with
  | EmptyString => EmptyString
  | String c rest => encode_char c +:+ encode_string rest
  end.

(** [encodeURIComponent(query)] *)
Definition encodeURIComponent (query : option string) : string :=
  match query with
  | Some q => encode_string q
  | None => "undefined"
  end.

(** [`${glasses.name}-${glasses.frame_style}-${glasses.material}`] *)
Definition image_key (glasses : Glasses.t) : string :=
  Glasses.name glasses +:+ "-"
  +:+ match Glasses.frame_style glasses with Some f => f | None => "undefined" end
  +:+ "-" +:+ Glasses.material glasses.

(** The URL [generateImage] builds when the cache has none. *)
Definition build_image_url (glasses : Glasses.t) : string :=
  let frameStyle := string_or (Glasses.frame_style glasses) "Classic" in
  let queries := getGlassesSearchQueries frameStyle in
  let hash :=
    hashString (Glasses.name glasses +:+ "-" +:+ frameStyle +:+ "-" +:+ Glasses.material glasses) in
  let query := pick_query queries hash in
  let encodedQuery := encodeURIComponent query in
  let seed := hash mod 1000 in
  "https://source.unsplash.com/768x512/?" +:+ encodedQuery +:+ "&" +:+ string_of_Z seed.

(** [generateImage(glasses)]: the value its promise resolves to. *)
Definition generateImage (svc : GlassesImageService) (glasses : Glasses.t)
  : string * GlassesImageService :=
  let cacheKey := image_key glasses in
  match cache svc !! cacheKey with
  | Some cached => (cached, svc)
  | None =>
      let imageUrl := build_image_url glasses in
      (imageUrl, mkImageService (<[cacheKey := imageUrl]> (cache svc)))
  end.

(** [clearCache()] of the image service; no cached URL is a blob. *)
Definition clearImageCache (svc : GlassesImageService) : GlassesImageService :=
  mkImageService ∅.

(** ** Catalog ownership: the arrays of catalog items as references

    The definitions above pass arrays by value. Who can write to the
    array behind [this._glassesData] depends on which array objects are
    shared, so this module keeps every array of catalog items in a store
    and follows the references. A catalog item is a frozen object whose
    properties are primitive: it is a value here as well. *)
Module Heap.

Definition loc : Type := positive.

(** An array object: its elements, and whether [Object.freeze] was
    applied to it. *)
Record ArrayObject : Type := mkArray {
  elements : list GlassesItem.t;
  frozen : bool
}.

(** The arrays alive, the reference held in [this._glassesData], and the
    references that were returned to a caller. *)
Record State : Type := mkState {
  arrays : gmap loc ArrayObject;
  glassesData_ref : loc;
  handed_out : gset loc
}.

(** A new array object. *)
Definition alloc (st : State) (a : ArrayObject) : loc * State :=
  let l := fresh (dom (arrays st)) in
  (l, mkState (<[l := a]> (arrays st)) (glassesData_ref st) (handed_out st)).

(** The elements behind a reference. *)
Definition read (st : State) (l : loc) : list GlassesItem.t :=
  match arrays st !! l with
  | Some a => elements a
  | None => []
  end.

(** A write through a reference: it changes the elements of an array that
    is not frozen, and nothing of a frozen one. *)
Definition write (st : State) (l : loc)
  (f : list GlassesItem.t -> list GlassesItem.t) : State :=
  match arrays st !! l with
  | Some a =>
      if frozen a then st
      else mkState (<[l := mkArray (f (elements a)) false]> (arrays st))
             (glassesData_ref st) (handed_out st)
  | None => st
  end.

(** The caller receives the reference. *)
Definition hand_out (st : State) (l : loc) : State :=
  mkState (arrays st) (glassesData_ref st) ({[l]} ∪ handed_out st).

(** The constructor: [this._glassesData = rawData.map(...)], the one
    array alive. *)
Definition new_service (glassesData : list GlassesItem.t) : State :=
  let l := fresh (∅ : gset loc) in
  mkState {[l := mkArray glassesData false]} l ∅.

(** [getAllGlasses()]: [[...this._glassesData]] *)
Definition getAllGlasses (st : State) : loc * State :=
  let (copy, st) := alloc st (mkArray (read st (glassesData_ref st)) false) in
  (copy, hand_out st copy).

(** [getGlassesByPriceRange(minPrice, maxPrice)]: [this._glassesData.filter(...)] *)
Definition getGlassesByPriceRange (st : State) (minPrice maxPrice : Z)
  : Completion loc * State :=
  if (minPrice <? 0) || (maxPrice <? minPrice) then
    (Throw (Error "Invalid price range provided"), st)
  else
    let (found, st) :=
      alloc st (mkArray
        (List.filter (within_budget (Some minPrice) (Some maxPrice))
           (read st (glassesData_ref st))) false) in
    (Return found, hand_out st found).

(** [getGlassesByFrameStyle(frameStyle)] *)
Definition getGlassesByFrameStyle (st : State) (frameStyle : JsValue)
  : Completion loc * State :=
  match frameStyle with
  | JsString style =>
      if String.eqb style "all" then
        let (copy, st) := getAllGlasses st in (Return copy, st)
      else
        let (found, st) :=
          alloc st (mkArray
            (List.filter (same_frame_style style) (read st (glassesData_ref st))) false) in
        (Return found, hand_out st found)
  | _ => (Throw (Error "Frame style must be a string"), st)
  end.

(** The arrays of [getPersonalizedRecommendations] when the cache has no
    entry: [.filter(...)] makes a new array, [.sort(...)] sorts that array
    in place, [Object.freeze(suitableGlasses.slice(0, 10))] and
    [Object.freeze([...suitableGlasses])] make the two frozen arrays of
    the result. A cached result holds two such arrays made earlier. *)
Definition recommendation_arrays (st : State) (budgetMin budgetMax : option Z)
  : (loc * loc) * State :=
  let (suitable, st) :=
    alloc st (mkArray
      (List.filter (within_budget budgetMin budgetMax) (read st (glassesData_ref st)))
      false) in
  let st := write st suitable (sort by_price) in
  let (top, st) := alloc st (mkArray (take 10 (read st suitable)) true) in
  let (all, st) := alloc st (mkArray (read st suitable) true) in
  ((top, all), hand_out (hand_out st top) all).

(** [getPriceStatistics()] and [getFrameStyleStatistics()] read
    [this._glassesData] and make arrays of numbers only. *)
Definition getPriceStatistics (st : State) : PriceStatistics.t * State :=
  (price_statistics (read st (glassesData_ref st)), st).

Definition getFrameStyleStatistics (st : State) : list (string * nat) * State :=
  (frame_style_statistics (read st (glassesData_ref st)), st).

(** What a caller can do to an array: any rewriting of the elements
    ([a[i] = x], [push], [sort], [length = 0], ...), through a reference it
    was given. *)
Definition caller_write (st : State) (l : loc)
  (f : list GlassesItem.t -> list GlassesItem.t) : State :=
  if bool_decide (l ∈ handed_out st) then write st l f else st.

(** The states a service goes through, from its construction on the
    catalog [glassesData]: calls of the operations that create arrays of
    items, and writes of the callers in between. The operations that
    create no such array (assessEligibility, a cached or refused call,
    clearCache) leave the state as it is. *)
Inductive reachable (glassesData : list GlassesItem.t) : State -> Prop :=
| after_new :
    reachable glassesData (new_service glassesData)
| after_getAllGlasses st :
    reachable glassesData st ->
    reachable glassesData (snd (getAllGlasses st))
| after_getGlassesByPriceRange st minPrice maxPrice :
    reachable glassesData st ->
    reachable glassesData (snd (getGlassesByPriceRange st minPrice maxPrice))
| after_getGlassesByFrameStyle st frameStyle :
    reachable glassesData st ->
    reachable glassesData (snd (getGlassesByFrameStyle st frameStyle))
| after_recommendation_arrays st budgetMin budgetMax :
    reachable glassesData st ->
    reachable glassesData (snd (recommendation_arrays st budgetMin budgetMax))
| after_getPriceStatistics st :
    reachable glassesData st ->
    reachable glassesData (snd (getPriceStatistics st))
| after_getFrameStyleStatistics st :
    reachable glassesData st ->
    reachable glassesData (snd (getFrameStyleStatistics st))
| after_caller_write st l f :
    reachable glassesData st ->
    reachable glassesData (caller_write st l f).

End Heap.

(** ** States of a service in use *)

(** The four tier names of [TIER_CONFIG]. *)
Definition TIERS : list string := map (fun entry => TierConfig.tier (snd entry)) TIER_CONFIG.

(** An argument of [getPersonalizedRecommendations] shaped like an
    assessment: one of the four tiers and a range of two integers. *)
Definition well_formed (e : EligibilityArg.t) : Prop :=
  In (EligibilityArg.tier e) TIERS /\
  exists budgetMin budgetMax, EligibilityArg.budgetRange e = Some [budgetMin; budgetMax].

(** An argument [getPersonalizedRecommendations] refuses, or one that
    satisfies [P]. *)
Definition refused_or (P : EligibilityArg.t -> Prop) (e : option EligibilityArg.t) : Prop :=
  match e with
  | None => True
  | Some e' => EligibilityArg.budgetRange e' = None \/ P e'
  end.

(** The states a service goes through from its construction on a catalog
    and a resource table, when the arguments it gets for
    [getPersonalizedRecommendations] are refused or satisfy [P]. *)
Inductive reachable_with (P : EligibilityArg.t -> Prop)
  (glassesData : list GlassesItem.t) (resources : DCResources.t)
  : GlassesService -> Prop :=
| reach_new :
    reachable_with P glassesData resources (mkService glassesData resources ∅)
| reach_assessEligibility s now householdSize annualIncome zipCode :
    reachable_with P glassesData resources s ->
    reachable_with P glassesData resources
      (snd (assessEligibility now s householdSize annualIncome zipCode))
| reach_getPersonalizedRecommendations s now e :
    reachable_with P glassesData resources s ->
    refused_or P e ->
    reachable_with P glassesData resources
      (snd (getPersonalizedRecommendations now s e))
| reach_clearCache s :
    reachable_with P glassesData resources s ->
    reachable_with P glassesData resources (clearCache s).

(** Any use of the service. *)
Definition reachable := reachable_with (fun _ => True).

(** Use with arguments shaped like assessments. *)
Definition used_as_designed := reachable_with well_formed.

(** The three inputs pass [_validateInputs]. *)
Definition valid_inputs (householdSize annualIncome zipCode : JsValue) : Prop :=
  validation_errors householdSize annualIncome zipCode = [].

(** The order of the tiers: medicaid_eligible, low_income_gap,
    moderate_income, any_income; any other text has no rank. *)
Definition tier_rank (tier : string) : option nat :=
  if String.eqb tier "medicaid_eligible" then Some 0%nat
  else if String.eqb tier "low_income_gap" then Some 1%nat
  else if String.eqb tier "moderate_income" then Some 2%nat
  else if String.eqb tier "any_income" then Some 3%nat
  else None.

(** A string of white space only. *)
Fixpoint all_whitespace (s : string) : bool :=
  match s with
  | EmptyString => true
  | String c rest => is_whitespace c && all_whitespace rest
  end.

(** [needle] occurs in [text]. *)
Definition occurs_in (needle text : string) : Prop :=
  exists before after, text = before +:+ needle +:+ after.

(** The object [assessEligibility] builds from inputs that passed
    [_validateInputs]. *)
Definition assessment (s : GlassesService) (now : string)
  (householdSize annualIncome zipCode : JsValue) : Eligibility.t :=
  let tierConfig :=
    _determineTier (integer_value annualIncome) (integer_value householdSize) in
  Eligibility.mk
    (TierConfig.tier (TierResult.config tierConfig))
    (TierConfig.name (TierResult.config tierConfig))
    (TierConfig.budgetRange (TierResult.config tierConfig))
    householdSize annualIncome zipCode
    (TierResult.medicaidLimit tierConfig)
    (_getRelevantResources s (TierConfig.tier (TierResult.config tierConfig)))
    now.

(** The object [getPersonalizedRecommendations] builds for a tier, a tier
    name and a range. *)
Definition recommendation (s : GlassesService) (now : string)
  (tier tierName : string) (budgetRange : list Z) : Recommendations.t :=
  let budgetMin := budgetRange !! 0%nat in
  let budgetMax := budgetRange !! 1%nat in
  let suitable := suitableGlasses (_glassesData s) budgetMin budgetMax in
  Recommendations.mk tier tierName
    ("$" +:+ string_of_element budgetMin +:+ "-$" +:+ string_of_element budgetMax)
    (length suitable) (take 10 suitable) suitable
    (_getPriorityMessage tier) now.

(** Every assessment the cache holds under the key of valid inputs is the
    one these inputs produce, at some reading of the clock. *)
Definition eligibility_cache_ok (s : GlassesService) : Prop :=
  forall householdSize annualIncome zipCode v,
    valid_inputs householdSize annualIncome zipCode ->
    _cache s !! eligibility_key householdSize annualIncome zipCode = Some v ->
    exists now, v = VEligibility (assessment s now householdSize annualIncome zipCode).

(** Every entry the cache holds under the key of a tier and a range of two
    integers is the recommendation for them, at some reading of the clock
    and with some tier name. *)
Definition recommendations_cache_ok (s : GlassesService) : Prop :=
  forall tier budgetMin budgetMax v,
    In tier TIERS ->
    _cache s !! recommendations_key tier [budgetMin; budgetMax] = Some v ->
    exists now tierName,
      v = VRecommendations (recommendation s now tier tierName [budgetMin; budgetMax]).

(** Every key of the cache is the key of valid inputs of
    [assessEligibility] or a key of [getPersonalizedRecommendations]. *)
Definition cache_keys_ok (s : GlassesService) : Prop :=
  forall key v,
    _cache s !! key = Some v ->
    (exists householdSize annualIncome zipCode,
        valid_inputs householdSize annualIncome zipCode /\
        key = eligibility_key householdSize annualIncome zipCode)
    \/ (exists tier budgetRange, key = recommendations_key tier budgetRange).

(** At least one of the three guards of [_validateInputs] refuses. *)
Definition some_input_refused (householdSize annualIncome zipCode : JsValue) : Prop :=
  householdSize_refused householdSize = true
  \/ annualIncome_refused annualIncome = true
  \/ zipCode_refused zipCode = true.


(** The three ways an input violates its constraint: the household size
    is not an integer from 1 to 15, the income is not a non-negative
    integer, the zip code is not a string that trims to a listed code. *)
Definition householdSize_violated (householdSize : JsValue) : Prop :=
  forall h, householdSize = JsInt h -> h < 1 \/ 15 < h.

Definition annualIncome_violated (annualIncome : JsValue) : Prop :=
  forall i, annualIncome = JsInt i -> i < 0.

Definition zipCode_violated (zipCode : JsValue) : Prop :=
  forall z, zipCode = JsString z -> trim z ∉ VALID_DC_ZIP_CODES.

(** Ascending by price. *)
Definition price_le (a b : GlassesItem.t) : Prop :=
  GlassesItem.numeric_price a <= GlassesItem.numeric_price b.

(** The data set of the earlier version of the service: eight items
    priced 95, 95, 145, 45, 35, 25, 65 and 85, each with its own [price]
    and [image_url]. *)
Definition earlier_rawData : list RawItem.t :=
  [ RawItem.mk (Some "Warby Parker") (Some "Griffin") (Some 95)
      (Some "Acetate frame, prescription lenses available, anti-reflective coating")
      (Some "https://www.warbyparker.com/eyeglasses/griffin/whiskey-tortoise")
      (Some "round") (Some "Acetate") (Some "$95")
      (Some "https://via.placeholder.com/300x200/f0f0f0/333333?text=Round+Frame");
    RawItem.mk (Some "Warby Parker") (Some "Percey") (Some 95)
      (Some "Metal frame, blue light filtering, adjustable nose pads")
      (Some "https://www.warbyparker.com/eyeglasses/percey/polished-gold")
      (Some "square") (Some "Metal") (Some "$95")
      (Some "https://via.placeholder.com/300x200/e8e8e8/444444?text=Square+Frame");
    RawItem.mk (Some "Warby Parker") (Some "Chamberlain") (Some 145)
      (Some "Titanium frame, progressive lenses, lightweight design")
      (Some "https://www.warbyparker.com/eyeglasses/chamberlain/brushed-navy")
      (Some "aviator") (Some "Titanium") (Some "$145")
      (Some "https://via.placeholder.com/300x200/f5f5f5/555555?text=Aviator+Frame");
    RawItem.mk (Some "Warby Parker") (Some "Durand") (Some 45)
      (Some "Basic acetate frame, single vision, durable construction")
      (Some "https://www.warbyparker.com/eyeglasses/durand/jet-black")
      (Some "rectangular") (Some "Acetate") (Some "$45")
      (Some "https://via.placeholder.com/300x200/f2f2f2/666666?text=Rectangular");
    RawItem.mk (Some "Warby Parker") (Some "Burke") (Some 35)
      (Some "Simple plastic frame, reading glasses, comfortable fit")
      (Some "https://www.warbyparker.com/eyeglasses/burke/matte-black")
      (Some "round") (Some "Plastic") (Some "$35")
      (Some "https://via.placeholder.com/300x200/f0f0f0/333333?text=Round+Frame");
    RawItem.mk (Some "Warby Parker") (Some "Caldwell") (Some 25)
      (Some "Ultra-budget frame, basic lenses, essential eyewear")
      (Some "https://www.warbyparker.com/eyeglasses/caldwell/crystal-clear")
      (Some "classic") (Some "Plastic") (Some "$25")
      (Some "https://via.placeholder.com/300x200/eeeeee/333333?text=Classic+Frame");
    RawItem.mk (Some "Warby Parker") (Some "Haskell") (Some 65)
      (Some "Mid-range acetate, anti-scratch coating, stylish design")
      (Some "https://www.warbyparker.com/eyeglasses/haskell/rosewater")
      (Some "cat-eye") (Some "Acetate") (Some "$65")
      (Some "https://via.placeholder.com/300x200/f8f8f8/444444?text=Cat+Eye");
    RawItem.mk (Some "Warby Parker") (Some "Welty") (Some 85)
      (Some "Premium acetate frame, prescription ready, modern style")
      (Some "https://www.warbyparker.com/eyeglasses/welty/eastern-bluebird-fade")
      (Some "square") (Some "Acetate") (Some "$85")
      (Some "https://via.placeholder.com/300x200/e8e8e8/444444?text=Square+Frame") ]%string.

(** The items [_createGlassesItem] makes of a data set, all at one
    reading of the clock; no item when an entry is refused. *)
Definition catalog_of (data : list RawItem.t) : list GlassesItem.t :=
  match create_all (fun _ => "2024-01-01T00:00:00.000Z"%string) 0%nat data with
  | Return items => items
  | Throw _ => []
  end.

(** The price lies in the range, both bounds included. *)
Definition in_range (budgetMin budgetMax : Z) (g : GlassesItem.t) : Prop :=
  budgetMin <= GlassesItem.numeric_price g <= budgetMax.

(** The string [generateImage] hashes: name, frame style (or "Classic")
    and material. *)
Definition image_hash (glasses : Glasses.t) : Z :=
  hashString (Glasses.name glasses +:+ "-"
              +:+ string_or (Glasses.frame_style glasses) "Classic"
              +:+ "-" +:+ Glasses.material glasses).

(** [url] is the URL of [glasses] with a query of [bucket]. *)
Definition url_from_bucket (bucket : list string) (glasses : Glasses.t) (url : string)
  : Prop :=
  exists query,
    In query bucket /\
    url = "https://source.unsplash.com/768x512/?" +:+ encode_string query
          +:+ "&" +:+ string_of_Z (image_hash glasses mod 1000).

(** The service after [generateImage] was called on each item of a list. *)
Definition after_images (svc : GlassesImageService) (items : list Glasses.t)
  : GlassesImageService :=
  fold_left (fun svc glasses => snd (generateImage svc glasses)) items svc.

(** The states of an image service that is asked to resolve items
    satisfying [P], with calls of [clearCache] in between. *)
Inductive in_use_on (P : Glasses.t -> Prop) : GlassesImageService -> Prop :=
| in_use_new :
    in_use_on P new_GlassesImageService
| in_use_generateImage svc glasses :
    in_use_on P svc -> P glasses ->
    in_use_on P (snd (generateImage svc glasses))
| in_use_clearCache svc :
    in_use_on P svc ->
    in_use_on P (clearImageCache svc).

(** No two items satisfying [P] share a cache key. *)
Definition distinct_keys (P : Glasses.t -> Prop) : Prop :=
  forall a b, P a -> P b -> image_key a = image_key b -> a = b.

(** [queryMap.Classic] *)
Definition queryMap_Classic : list string :=
  ["classic glasses"; "traditional eyeglasses"; "timeless frames"; "vintage glasses"]%string.

(** The array behind [this._glassesData] holds the catalog, and no
    caller has a reference to it. *)
Definition catalog_intact (glassesData : list GlassesItem.t) (st : Heap.State) : Prop :=
  Heap.arrays st !! Heap.glassesData_ref st = Some (Heap.mkArray glassesData false)
  /\ Heap.glassesData_ref st ∉ Heap.handed_out st.

(** The reference [l] is to an array made by the call that led from [st]
    to [st']: it did not exist in [st], the caller has it in [st'], and it
    is not the array behind [this._glassesData]. *)
Definition new_array (st st' : Heap.State) (l : Heap.loc) : Prop :=
  Heap.arrays st !! l = None
  /\ l ∈ Heap.handed_out st'
  /\ l <> Heap.glassesData_ref st'.


(** ** Further operations of the services *)

(** The object [getServiceInfo()] freezes and returns. *)
Module ServiceInfo.
Record t : Type := mk {
  name : string;
  version : string;
  totalGlasses : nat;
  cacheSize : nat;
  supportedZipCodes : nat;
  lastInitialized : string
}.
End ServiceInfo.


(** [a % b] on integers: the sign of the dividend, [None] (NaN) for a
    zero divisor. *)
Definition remainder (a b : Z) : option Z :=
  if b =? 0 then None else Some (Z.rem a b).

(** [queries[hash % queries.length]] for any [hash]: a negative index
    names no element. *)
Definition query_at (queries : Property (list string)) (hash : Z) : option string :=
  match queries with
  | Own l =>
      match remainder hash (Z.of_nat (length l)) with
      | Some index => if index <? 0 then None else l !! Z.to_nat index
      | None => None
      end
  | Inherited _ => None
  end.

(** [getUnsplashGlassesPhoto(queries, hash)]; its [page] is computed and
    not used. *)
Definition getUnsplashGlassesPhoto (queries : Property (list string)) (hash : Z) : string :=
  let query := query_at queries hash in
  let encodedQuery := encodeURIComponent query in
  let seed := Z.rem hash 1000 in
  "https://source.unsplash.com/768x512/?" +:+ encodedQuery +:+ "&" +:+ string_of_Z seed.

(** [photoIdRanges] of [getPexelsGlassesPhoto]: start and range. *)
Definition photoIdRanges : list (string * (Z * Z)) :=
  [ ("round eyeglasses", (1000000, 50000));
    ("square glasses", (1100000, 50000));
    ("rectangular glasses", (1200000, 50000));
    ("aviator glasses", (1300000, 50000));
    ("cat eye glasses", (1400000, 50000));
    ("classic glasses", (1500000, 50000));
    ("default", (1600000, 50000)) ]%string.

(** [range.start + (hash % range.range)] for
    [range = photoIdRanges[query] || photoIdRanges.default]; [None] is NaN,
    the sum over an inherited member. *)
Definition pexels_photo_id (query : option string) (hash : Z) : option Z :=
  let key := match query with Some q => q | None => "undefined"%string end in
  match get_property photoIdRanges key with
  | Some (Own (start, range)) => option_map (Z.add start) (remainder hash range)
  | Some (Inherited _) => None
  | None => option_map (Z.add 1600000) (remainder hash 50000)
  end.

(** [`${photoId}`] *)
Definition string_of_number (x : option Z) : string :=
  match x with
  | Some z => string_of_Z z
  | None => "NaN"
  end.

(** [getPexelsGlassesPhoto(queries, hash)] *)
Definition getPexelsGlassesPhoto (queries : Property (list string)) (hash : Z) : string :=
  let query := query_at queries hash in
  let photoId := pexels_photo_id query hash in
  "https://images.pexels.com/photos/" +:+ string_of_number photoId
  +:+ "/pexels-photo-" +:+ string_of_number photoId
  +:+ ".jpeg?auto=compress&cs=tinysrgb&w=768&h=512&fit=crop".

(** [searchGlassesPhotos(frameStyle, name, material)] *)
Definition searchGlassesPhotos (frameStyle name material : string) : string :=
  let styleQueries := getGlassesSearchQueries frameStyle in
  let hash := hashString (name +:+ "-" +:+ frameStyle +:+ "-" +:+ material) in
  let useUnsplash := Z.rem hash 2 =? 0 in
  if useUnsplash then getUnsplashGlassesPhoto styleQueries hash
  else getPexelsGlassesPhoto styleQueries hash.

(** [imageId] of [createPicsumPlaceholder]. *)
Definition picsum_image_id (name style : string) : Z :=
  let seed := hashString (name +:+ "-" +:+ style) in
  200 + Z.rem seed 800.

(** [createPicsumPlaceholder(name, style, material)] *)
Definition createPicsumPlaceholder (name style material : string) : string :=
  let imageId := picsum_image_id name style in
  "https://picsum.photos/768/512?random=" +:+ string_of_Z imageId +:+ "&grayscale&blur=1".

(** ** errorHandler: retries and sanitizers *)

(** How the promise of [withRetry] settles: with a value, with a thrown
    error, or with [undefined] thrown. *)
Inductive Settled (A : Type) : Type :=
| Resolved (a : A)
| Rejected (e : JsError)
| RejectedUndefined.
Arguments Resolved {A} a.
Arguments Rejected {A} e.
Arguments RejectedUndefined {A}.

(** What a run of [withRetry] did: how it settled, how many times it
    called the operation, and the delays it waited, in milliseconds. *)
Module Retry.
Record t (A : Type) : Type := mk {
  settled : Settled A;
  calls : nat;
  waits : list Z
}.
Arguments mk {A} settled calls waits.
Arguments settled {A} t.
Arguments calls {A} t.
Arguments waits {A} t.
End Retry.

(** The loop of [withRetry] from [attempt] on, with [remaining] rounds
    to go; [operation k] is the outcome of the [k]-th call. *)
Fixpoint retry_from {A : Type} (operation : nat -> Completion A)
  (maxRetries : nat) (delay : Z) (attempt remaining : nat)
  (lastError : option JsError) (waited : list Z) : Retry.t A :=
  match remaining with
  | O =>
      Retry.mk
        (match lastError with
         | Some e => Rejected e
         | None => RejectedUndefined
         end)
        (attempt - 1) waited
  | S remaining' =>
      match operation attempt with
      | Return a => Retry.mk (Resolved a) attempt waited
      | Throw error =>
          if instanceof_ValidationError error then
            Retry.mk (Rejected error) attempt waited
          else if (attempt =? maxRetries)%nat then
            Retry.mk (Rejected error) attempt waited
          else
            retry_from operation maxRetries delay (S attempt) remaining'
              (Some error) (waited ++ [delay * Z.of_nat attempt])
      end
  end.

(** [errorHandler.withRetry(operation, maxRetries, delay)] for a whole
    number of retries. *)
Definition withRetry {A : Type} (operation : nat -> Completion A)
  (maxRetries : nat) (delay : Z) : Retry.t A :=
  retry_from operation maxRetries delay 1 maxRetries None [].

(** [s.replace(/[<>]/g, '')] *)
Fixpoint remove_angle_brackets (s : string) : string :=
  match s with
  | EmptyString => EmptyString
  | String c rest =>
      if (Ascii.eqb c "<" || Ascii.eqb c ">")%char then remove_angle_brackets rest
      else String c (remove_angle_brackets rest)
  end.

(** [sanitizer.sanitizeString(input)] *)
Definition sanitizeString (input : JsValue) : string :=
  match input with
  | JsString s => substring 0 1000 (remove_angle_brackets (trim s))
  | _ => ""
  end.

(** Every character of [s] satisfies [p]. *)
Fixpoint all_chars (p : ascii -> bool) (s : string) : bool :=
  match s with
  | EmptyString => true
  | String c rest => p c && all_chars p rest
  end.

(** [\d]: an ASCII digit. *)
Definition is_digit (c : ascii) : bool :=
  let n := N_of_ascii c in ((48 <=? n) && (n <=? 57))%N.

(** [s.replace(/\D/g, '')] *)
Fixpoint keep_digits (s : string) : string :=
  match s with
  | EmptyString => EmptyString
  | String c rest =>
      if is_digit c then String c (keep_digits rest) else keep_digits rest
  end.

(** [sanitizer.sanitizeZipCode(input)] *)
Definition sanitizeZipCode (input : JsValue) : string :=
  match input with
  | JsString s => substring 0 5 (keep_digits s)
  | _ => ""
  end.

(** ** GlassesFinder: the filters of the results screen *)

(** The [filters] state of the component. *)
Module Filters.
Record t : Type := mk {
  priceRange : string;
  frameStyle : string
}.
End Filters.

(** [priceMatch] of [filteredGlasses]. *)
Definition priceMatch (filters : Filters.t) (glasses : GlassesItem.t) : bool :=
  let price := GlassesItem.numeric_price glasses in
  String.eqb (Filters.priceRange filters) "all"
  || (String.eqb (Filters.priceRange filters) "under50" && (price <? 50))
  || (String.eqb (Filters.priceRange filters) "50-100" && (50 <=? price) && (price <=? 100))
  || (String.eqb (Filters.priceRange filters) "over100" && (100 <? price)).

(** [styleMatch] of [filteredGlasses]. *)
Definition styleMatch (filters : Filters.t) (glasses : GlassesItem.t) : bool :=
  String.eqb (Filters.frameStyle filters) "all"
  || String.eqb (toLowerCase (GlassesItem.frame_style glasses))
       (toLowerCase (Filters.frameStyle filters)).

(** [filteredGlasses]: the recommended items if there is a
    recommendation, the whole catalog otherwise, through both filters. *)
Definition filteredGlasses (recommendations : option Recommendations.t)
  (allGlassesData : list GlassesItem.t) (filters : Filters.t) : list GlassesItem.t :=
  let displayGlasses :=
    match recommendations with
    | Some r => Recommendations.allRecommendations r
    | None => allGlassesData
    end in
  List.filter (fun glasses => priceMatch filters glasses && styleMatch filters glasses)
    displayGlasses.

(** ** GlassesFinder: the zip code check of the form *)

(** [/^\d{5}$/.test(zipCode)] *)
Definition five_digits (zipCode : string) : bool :=
  (String.length zipCode =? 5)%nat && all_chars is_digit zipCode.

(** The [zipCode] part of [createValidationSchema()]: the error it sets
    for the text of the field, [None] when it sets none. *)
Definition zipCode_error (zipCode : string) : option string :=
  if String.eqb zipCode "" then Some "Please enter your ZIP code"%string
  else if negb (five_digits zipCode) then Some "Please enter a valid 5-digit ZIP code"%string
  else if negb (validateDCZipCode (JsString zipCode))
       then Some "Please enter a valid D.C. ZIP code"%string
  else None.

(** ** GlassesFinder (earlier version): the budget of the form *)

(** [budgetMatch] of [filteredGlasses]: the [switch] over
    [formData.budget], [true] when the field is empty. *)
Definition budgetMatch (budget : string) (numeric_price : Z) : bool :=
  if String.eqb budget "" then true
  else if String.eqb budget "under50" then numeric_price <? 50
  else if String.eqb budget "50-75" then (50 <=? numeric_price) && (numeric_price <=? 75)
  else if String.eqb budget "75-100" then (75 <=? numeric_price) && (numeric_price <=? 100)
  else if String.eqb budget "100-150" then (100 <=? numeric_price) && (numeric_price <=? 150)
  else if String.eqb budget "150-200" then (150 <=? numeric_price) && (numeric_price <=? 200)
  else if String.eqb budget "200plus" then 200 <=? numeric_price
  else true.

(** ** Notions the further properties are stated with *)

(** A character of an identifier: a lower-case letter, a digit or a dash. *)
Definition id_char (c : ascii) : bool :=
  let n := N_of_ascii c in
  (((97 <=? n) && (n <=? 122)) || ((48 <=? n) && (n <=? 57)) || (n =? 45))%N.

(** A character that stands for itself in a URL, or the percent sign of
    an escape. *)
Definition url_char (c : ascii) : bool := unreserved c || Ascii.eqb c "%".

(** The polynomial the loop of [hashString] wraps to 32 bits: each
    character adds its code to 31 times what came before. *)
Fixpoint polynomial (str : string) (acc : Z) : Z :=
  match str with
  | EmptyString => acc
  | String c rest => polynomial rest (31 * acc + charCode c)
  end.

(** The entry of a data set has the six required properties and no
    negative price. *)
Definition acceptable (item : RawItem.t) : Prop :=
  falsy_string (RawItem.site item) = false /\
  falsy_string (RawItem.name item) = false /\
  falsy_string (RawItem.features item) = false /\
  falsy_string (RawItem.frame_style item) = false /\
  falsy_string (RawItem.material item) = false /\
  exists price, RawItem.numeric_price item = Some price /\ 0 <= price.

(** The number of items with exactly this frame style. *)
Definition count_of_style (style : string) (glassesData : list GlassesItem.t) : nat :=
  length (List.filter (fun g => String.eqb (GlassesItem.frame_style g) style) glassesData).

(** The operation threw an error that [withRetry] retries after. *)
Definition retried {A : Type} (outcome : Completion A) : Prop :=
  exists e, outcome = Throw e /\ instanceof_ValidationError e = false.

(** How a promise settles with the outcome of one call. *)
Definition settle {A : Type} (outcome : Completion A) : Settled A :=
  match outcome with
  | Return a => Resolved a
  | Throw e => Rejected e
  end.

(** A URL of the image search: the address, a query that needs no
    further escaping, and a seed from 0 to 999. *)
Definition image_search_url (url : string) : Prop :=
  exists query seed,
    url = "https://source.unsplash.com/768x512/?" +:+ query +:+ "&" +:+ string_of_Z seed
    /\ all_chars url_char query = true
    /\ 0 <= seed < 1000.

(** Every URL the image service has cached is a URL of the image search. *)
Definition image_cache_ok (svc : GlassesImageService) : Prop :=
  forall key url, cache svc !! key = Some url -> image_search_url url.


(** [a] and [b] differ by a multiple of 2^32. *)
Definition wraps (a b : Z) : Prop := exists k, a = b + k * 2 ^ 32.

(** The count a table of counts holds for a style, 0 when it has none. *)
Definition held (style : string) (styleCounts : list (string * nat)) : nat :=
  default 0%nat (assoc style styleCounts).

(** The number of items [getPersonalizedRecommendations] recommends to
    the tier under [tierKey] of [TIER_CONFIG]. *)
Definition tier_options (tierKey : string) (glassesData : list GlassesItem.t) : option nat :=
  match assoc tierKey TIER_CONFIG with
  | Some config =>
      let budgetRange := TierConfig.budgetRange config in
      Some (length (suitableGlasses glassesData (budgetRange !! 0%nat) (budgetRange !! 1%nat)))
  | None => None
  end.

(** The number of items at exactly this price. *)
Definition count_priced (p : Z) (glassesData : list GlassesItem.t) : nat :=
  length (List.filter (fun g => GlassesItem.numeric_price g =? p) glassesData).

(** Neither of the two angle brackets. *)
Definition no_angle_bracket (c : ascii) : bool :=
  negb (Ascii.eqb c "<" || Ascii.eqb c ">")%char.

(** The four values of the price filter of the results screen. *)
Definition price_filters : list string := ["all"; "under50"; "50-100"; "over100"]%string.

(** A frozen array of the heap holds the recommendations for some range,
    or the first ten of them. *)
Definition frozen_arrays_ok (glassesData : list GlassesItem.t) (st : Heap.State) : Prop :=
  forall l xs,
    Heap.arrays st !! l = Some (Heap.mkArray xs true) ->
    exists budgetMin budgetMax,
      xs = suitableGlasses glassesData budgetMin budgetMax
      \/ xs = take 10 (suitableGlasses glassesData budgetMin budgetMax).

(** The six budgets of the form. *)
Definition budgets : list string :=
  ["under50"; "50-75"; "75-100"; "100-150"; "150-200"; "200plus"]%string.

(** The budgets that a price matches. *)
Definition matching_budgets (numeric_price : Z) : list string :=
  List.filter (fun budget => budgetMatch budget numeric_price) budgets.

(** * Proofs *)

(** ** Decimal texts and cache keys *)

Section Keys.

(** A digit sequence followed by a dash parses in one way. *)
Lemma uint_dash_split d : forall d' r r',
  NilEmpty.string_of_uint d +:+ String "-" r
  = NilEmpty.string_of_uint d' +:+ String "-" r' ->
  d = d' /\ r = r'.
Proof.
  induction d; intros d' r r' H; destruct d'; simpl in H;
    try discriminate H;
    try (injection H as H; apply IHd in H as [-> ->]; done).
  injection H as ->. done.
Qed.

Lemma to_int_sign z :
  (exists d, Z.to_int z = Decimal.Pos d /\ d <> Decimal.Nil)
  \/ (exists d, Z.to_int z = Decimal.Neg d /\ d <> Decimal.Nil).
Proof.
  destruct z; simpl.
  - left. eexists. split; [reflexivity | discriminate].
  - left. eexists. split; [reflexivity | apply Unsigned.to_uint_nonnil].
  - right. eexists. split; [reflexivity | apply Unsigned.to_uint_nonnil].
Qed.

Lemma uint_head_not_dash d r :
  d <> Decimal.Nil ->
  exists c rest, NilEmpty.string_of_uint d +:+ r = String c rest /\ c <> "-"%char.
Proof.
  destruct d; intros Hd; try congruence; simpl;
    eexists _, _; (split; [reflexivity | discriminate]).
Qed.

(** The text of an integer followed by a dash parses in one way. *)
Lemma string_of_Z_dash_split a b r r' :
  string_of_Z a +:+ String "-" r = string_of_Z b +:+ String "-" r' ->
  a = b /\ r = r'.
Proof.
  unfold string_of_Z. intros H.
  destruct (to_int_sign a) as [(da & Ea & Na) | (da & Ea & Na)];
  destruct (to_int_sign b) as [(db & Eb & Nb) | (db & Eb & Nb)];
  rewrite Ea, Eb in H; simpl in H.
  - apply uint_dash_split in H as [-> ->]. split; [|done].
    apply DecimalZ.to_int_inj. congruence.
  - destruct (uint_head_not_dash da (String "-" r) Na) as (c & rest & E & Hc).
    rewrite E in H. injection H as H1 _. congruence.
  - destruct (uint_head_not_dash db (String "-" r') Nb) as (c & rest & E & Hc).
    rewrite E in H. injection H as H1 _. congruence.
  - injection H as H. apply uint_dash_split in H as [-> ->]. split; [|done].
    apply DecimalZ.to_int_inj. congruence.
Qed.

Lemma string_of_Z_inj a b : string_of_Z a = string_of_Z b -> a = b.
Proof.
  unfold string_of_Z. intros H. apply DecimalZ.to_int_inj.
  assert (Some (Z.to_int a) = Some (Z.to_int b)) as E; [|congruence].
  rewrite <- !NilEmpty.isi. by rewrite H.
Qed.

(** Two calls of [assessEligibility] with two integers and a string share
    their cache key only when their arguments are the same. *)
Lemma eligibility_key_inj h i z h' i' z' :
  eligibility_key (JsInt h) (JsInt i) (JsString z)
  = eligibility_key (JsInt h') (JsInt i') (JsString z') ->
  h = h' /\ i = i' /\ z = z'.
Proof.
  unfold eligibility_key. simpl. intros H.
  injection H as H.
  apply string_of_Z_dash_split in H as [-> H].
  apply string_of_Z_dash_split in H as [-> ->]. done.
Qed.

(** The keys of the two cached methods never meet. *)
Lemma eligibility_key_not_recommendations h i z t r :
  eligibility_key h i z <> recommendations_key t r.
Proof. unfold eligibility_key, recommendations_key. simpl. discriminate. Qed.

Lemma tier_cases t :
  In t TIERS ->
  t = "medicaid_eligible"%string \/ t = "low_income_gap"%string
  \/ t = "moderate_income"%string \/ t = "any_income"%string.
Proof. simpl. intuition. Qed.

(** Two well-formed arguments of [getPersonalizedRecommendations] share
    their cache key only when they agree on tier and range. *)
Lemma recommendations_key_inj t a b t' a' b' :
  In t TIERS -> In t' TIERS ->
  recommendations_key t [a; b] = recommendations_key t' [a'; b'] ->
  t = t' /\ a = a' /\ b = b'.
Proof.
  intros Ht Ht'.
  apply tier_cases in Ht as [-> | [-> | [-> | ->]]];
  apply tier_cases in Ht' as [-> | [-> | [-> | ->]]];
  unfold recommendations_key; simpl; intros H;
  try discriminate H;
  injection H as H;
  apply string_of_Z_dash_split in H as [-> H];
  apply string_of_Z_inj in H as ->; done.
Qed.

End Keys.

(** ** Validation *)

Section Validation.

Lemma validateDCZipCode_true zipCode :
  validateDCZipCode zipCode = true <->
  exists s, zipCode = JsString s /\ trim s ∈ VALID_DC_ZIP_CODES.
Proof.
  unfold validateDCZipCode.
  destruct zipCode; split;
    try (intros H; discriminate H);
    try (intros (s' & E & _); discriminate E).
  - intros H. apply bool_decide_eq_true in H. eauto.
  - intros (s' & E & H). injection E as <-. by apply bool_decide_eq_true.
Qed.

(** Inputs pass [_validateInputs] exactly when they are an integer from 1
    to 15, a non-negative integer and a string that trims to a listed zip
    code. *)
Lemma valid_inputs_iff householdSize annualIncome zipCode :
  valid_inputs householdSize annualIncome zipCode <->
  exists h i z,
    householdSize = JsInt h /\ annualIncome = JsInt i /\ zipCode = JsString z /\
    1 <= h <= 15 /\ 0 <= i /\ trim z ∈ VALID_DC_ZIP_CODES.
Proof.
  unfold valid_inputs, validation_errors. split.
  - intros H.
    destruct (householdSize_refused householdSize) eqn:Eh;
    destruct (annualIncome_refused annualIncome) eqn:Ei;
    destruct (zipCode_refused zipCode) eqn:Ez;
    simpl in H; try discriminate H.
    unfold householdSize_refused in Eh. unfold annualIncome_refused in Ei.
    unfold zipCode_refused in Ez.
    destruct householdSize; simpl in Eh; try discriminate Eh.
    destruct annualIncome; simpl in Ei; try discriminate Ei.
    apply negb_false_iff in Ez. apply validateDCZipCode_true in Ez as (s & -> & Hs).
    exists z, z0, s.
    split; [reflexivity|]. split; [reflexivity|]. split; [reflexivity|].
    split; [lia|]. split; [lia | exact Hs].
  - intros (h & i & z & -> & -> & -> & Hh & Hi & Hz).
    assert (householdSize_refused (JsInt h) = false) as ->.
    { unfold householdSize_refused. simpl. lia. }
    assert (annualIncome_refused (JsInt i) = false) as ->.
    { unfold annualIncome_refused. simpl. lia. }
    assert (zipCode_refused (JsString z) = false) as ->.
    { unfold zipCode_refused. apply negb_false_iff. apply validateDCZipCode_true. eauto. }
    reflexivity.
Qed.

Lemma _validateInputs_Return householdSize annualIncome zipCode :
  valid_inputs householdSize annualIncome zipCode ->
  _validateInputs householdSize annualIncome zipCode = Return tt.
Proof. unfold valid_inputs, _validateInputs. by intros ->. Qed.

Lemma _validateInputs_Throw householdSize annualIncome zipCode :
  ~ valid_inputs householdSize annualIncome zipCode ->
  _validateInputs householdSize annualIncome zipCode
  = Throw (Error (join "; " (validation_errors householdSize annualIncome zipCode))).
Proof.
  unfold valid_inputs, _validateInputs. intros H.
  destruct (validation_errors householdSize annualIncome zipCode); [done | reflexivity].
Qed.

End Validation.

(** ** The three outcomes of [assessEligibility] *)

Section Assess.

Variables (now : string) (s : GlassesService).
Variables (householdSize annualIncome zipCode : JsValue).

Lemma assessEligibility_cached v :
  _cache s !! eligibility_key householdSize annualIncome zipCode = Some v ->
  assessEligibility now s householdSize annualIncome zipCode = (Return v, s).
Proof. unfold assessEligibility. by intros ->. Qed.

Lemma assessEligibility_computed :
  _cache s !! eligibility_key householdSize annualIncome zipCode = None ->
  valid_inputs householdSize annualIncome zipCode ->
  assessEligibility now s householdSize annualIncome zipCode
  = (Return (VEligibility (assessment s now householdSize annualIncome zipCode)),
     cache_set s (eligibility_key householdSize annualIncome zipCode)
       (VEligibility (assessment s now householdSize annualIncome zipCode))).
Proof.
  unfold assessEligibility. intros -> H.
  by rewrite (_validateInputs_Return _ _ _ H).
Qed.

Lemma assessEligibility_refused :
  _cache s !! eligibility_key householdSize annualIncome zipCode = None ->
  ~ valid_inputs householdSize annualIncome zipCode ->
  assessEligibility now s householdSize annualIncome zipCode
  = (Throw (Error (join "; " (validation_errors householdSize annualIncome zipCode))), s).
Proof.
  unfold assessEligibility. intros -> H.
  by rewrite (_validateInputs_Throw _ _ _ H).
Qed.

End Assess.

(** ** The three outcomes of [getPersonalizedRecommendations] *)

Section Recommend.

Variables (now : string) (s : GlassesService).

Lemma getPersonalizedRecommendations_refused e :
  match e with
  | None => True
  | Some e' => EligibilityArg.budgetRange e' = None
  end ->
  getPersonalizedRecommendations now s e
  = (Throw (Error "Invalid eligibility data provided"), s).
Proof.
  unfold getPersonalizedRecommendations. destruct e as [e'|]; [|done].
  by intros ->.
Qed.

Lemma getPersonalizedRecommendations_cached e budgetRange v :
  EligibilityArg.budgetRange e = Some budgetRange ->
  _cache s !! recommendations_key (EligibilityArg.tier e) budgetRange = Some v ->
  getPersonalizedRecommendations now s (Some e) = (Return v, s).
Proof. unfold getPersonalizedRecommendations. by intros -> ->. Qed.

Lemma getPersonalizedRecommendations_computed e budgetRange :
  EligibilityArg.budgetRange e = Some budgetRange ->
  _cache s !! recommendations_key (EligibilityArg.tier e) budgetRange = None ->
  let r := recommendation s now (EligibilityArg.tier e) (EligibilityArg.tierName e) budgetRange in
  getPersonalizedRecommendations now s (Some e)
  = (Return (VRecommendations r),
     cache_set s (recommendations_key (EligibilityArg.tier e) budgetRange)
       (VRecommendations r)).
Proof. unfold getPersonalizedRecommendations. by intros -> ->. Qed.

End Recommend.

(** ** What the cache holds in a service in use *)

Section CacheInvariants.

Lemma assessEligibility_frame now s householdSize annualIncome zipCode :
  let s' := snd (assessEligibility now s householdSize annualIncome zipCode) in
  _glassesData s' = _glassesData s /\ _dcResources s' = _dcResources s.
Proof.
  unfold assessEligibility.
  destruct (_cache s !! _); [done|].
  destruct (_validateInputs _ _ _); done.
Qed.

Lemma getPersonalizedRecommendations_frame now s e :
  let s' := snd (getPersonalizedRecommendations now s e) in
  _glassesData s' = _glassesData s /\ _dcResources s' = _dcResources s.
Proof.
  unfold getPersonalizedRecommendations.
  destruct e as [e|]; [|done].
  destruct (EligibilityArg.budgetRange e); [|done].
  destruct (_cache s !! _); done.
Qed.

Lemma assessEligibility_keeps_eligibility_cache now s householdSize annualIncome zipCode :
  eligibility_cache_ok s ->
  eligibility_cache_ok (snd (assessEligibility now s householdSize annualIncome zipCode)).
Proof.
  intros Hok.
  destruct (_cache s !! eligibility_key householdSize annualIncome zipCode) as [v|] eqn:Ec.
  { by rewrite (assessEligibility_cached _ _ _ _ _ _ Ec). }
  destruct (decide (valid_inputs householdSize annualIncome zipCode)) as [Hv | Hv].
  2: { by rewrite (assessEligibility_refused _ _ _ _ _ Ec Hv). }
  rewrite (assessEligibility_computed _ _ _ _ _ Ec Hv). simpl.
  intros h' i' z' v' Hv' Hlook. simpl in Hlook.
  destruct (decide (eligibility_key householdSize annualIncome zipCode
                    = eligibility_key h' i' z')) as [Ek | Ek].
  - rewrite Ek, lookup_insert_eq in Hlook. injection Hlook as <-.
    apply valid_inputs_iff in Hv as (h & i & z & -> & -> & -> & _).
    apply valid_inputs_iff in Hv' as (h2 & i2 & z2 & -> & -> & -> & _).
    apply eligibility_key_inj in Ek as (-> & -> & ->).
    by exists now.
  - rewrite lookup_insert_ne in Hlook by done.
    destruct (Hok _ _ _ _ Hv' Hlook) as [now' ->]. by exists now'.
Qed.

Lemma assessEligibility_keeps_recommendations_cache now s householdSize annualIncome zipCode :
  recommendations_cache_ok s ->
  recommendations_cache_ok (snd (assessEligibility now s householdSize annualIncome zipCode)).
Proof.
  intros Hok.
  destruct (_cache s !! eligibility_key householdSize annualIncome zipCode) as [v|] eqn:Ec.
  { by rewrite (assessEligibility_cached _ _ _ _ _ _ Ec). }
  destruct (decide (valid_inputs householdSize annualIncome zipCode)) as [Hv | Hv].
  2: { by rewrite (assessEligibility_refused _ _ _ _ _ Ec Hv). }
  rewrite (assessEligibility_computed _ _ _ _ _ Ec Hv). simpl.
  intros t a b v' Ht Hlook. simpl in Hlook.
  rewrite lookup_insert_ne in Hlook by apply eligibility_key_not_recommendations.
  destruct (Hok _ _ _ _ Ht Hlook) as (now' & tn & ->). by exists now', tn.
Qed.

Lemma getPersonalizedRecommendations_keeps_eligibility_cache now s e :
  eligibility_cache_ok s ->
  eligibility_cache_ok (snd (getPersonalizedRecommendations now s e)).
Proof.
  intros Hok. unfold getPersonalizedRecommendations.
  destruct e as [e|]; [|done].
  destruct (EligibilityArg.budgetRange e) as [range|]; [|done].
  destruct (_cache s !! _) eqn:Ec; [done|]. simpl.
  intros h i z v Hv Hlook. simpl in Hlook.
  rewrite lookup_insert_ne in Hlook.
  2: { intros E. symmetry in E. by apply eligibility_key_not_recommendations in E. }
  destruct (Hok _ _ _ _ Hv Hlook) as [now' ->]. by exists now'.
Qed.

Lemma getPersonalizedRecommendations_keeps_recommendations_cache now s e :
  refused_or well_formed e ->
  recommendations_cache_ok s ->
  recommendations_cache_ok (snd (getPersonalizedRecommendations now s e)).
Proof.
  intros He Hok.
  destruct e as [e|]; [|done].
  destruct (EligibilityArg.budgetRange e) as [range|] eqn:Er.
  2: { by rewrite getPersonalizedRecommendations_refused. }
  destruct He as [He | [Ht (a & b & Hab)]]; [congruence|].
  assert (range = [a; b]) as -> by congruence.
  destruct (_cache s !! recommendations_key (EligibilityArg.tier e) [a; b]) as [v|] eqn:Ec.
  { by rewrite (getPersonalizedRecommendations_cached _ _ _ _ _ Er Ec). }
  rewrite (getPersonalizedRecommendations_computed _ _ _ _ Er Ec). simpl.
  intros t a' b' v' Ht' Hlook. simpl in Hlook.
  destruct (decide (recommendations_key (EligibilityArg.tier e) [a; b]
                    = recommendations_key t [a'; b'])) as [Ek | Ek].
  - rewrite Ek, lookup_insert_eq in Hlook. injection Hlook as <-.
    apply recommendations_key_inj in Ek as (<- & <- & <-); [|done..].
    by exists now, (EligibilityArg.tierName e).
  - rewrite lookup_insert_ne in Hlook by done.
    destruct (Hok _ _ _ _ Ht' Hlook) as (now' & tn & ->). by exists now', tn.
Qed.

(** A service in use keeps its catalog and its resource table, and its
    cache holds the assessments of the inputs they are keyed by. *)
Lemma reachable_with_invariant P glassesData resources s :
  reachable_with P glassesData resources s ->
  _glassesData s = glassesData /\ _dcResources s = resources /\ eligibility_cache_ok s.
Proof.
  induction 1 as [| s now h i z _ (Hd & Hr & Hc) | s now e _ (Hd & Hr & Hc) He
                  | s _ (Hd & Hr & Hc)].
  - split; [done | split; [done|]].
    intros h i z v _ Hlook. simpl in Hlook. by rewrite lookup_empty in Hlook.
  - destruct (assessEligibility_frame now s h i z) as [-> ->].
    split; [done | split; [done|]].
    by apply assessEligibility_keeps_eligibility_cache.
  - destruct (getPersonalizedRecommendations_frame now s e) as [-> ->].
    split; [done | split; [done|]].
    by apply getPersonalizedRecommendations_keeps_eligibility_cache.
  - split; [done | split; [done|]].
    intros h i z v _ Hlook. simpl in Hlook. by rewrite lookup_empty in Hlook.
Qed.

(** Used as designed, its cache also holds the recommendations of the
    tiers and ranges they are keyed by. *)
Lemma used_as_designed_invariant glassesData resources s :
  used_as_designed glassesData resources s ->
  recommendations_cache_ok s.
Proof.
  induction 1 as [| s now h i z _ Hc | s now e _ Hc He | s _ Hc].
  - intros t a b v _ Hlook. simpl in Hlook. by rewrite lookup_empty in Hlook.
  - by apply assessEligibility_keeps_recommendations_cache.
  - by apply getPersonalizedRecommendations_keeps_recommendations_cache.
  - intros t a b v _ Hlook. simpl in Hlook. by rewrite lookup_empty in Hlook.
Qed.

End CacheInvariants.

(** ** Tiers *)

Section Tiers.

(** The table has a positive limit for every accepted household size. *)
Lemma limit_at_household h :
  1 <= h <= 15 ->
  exists medicaidLimit,
    limit_at (Z.min h 8) MEDICAID_INCOME_LIMITS = Some medicaidLimit /\ 0 < medicaidLimit.
Proof.
  intros Hh.
  assert (Z.min h 8 = 1 \/ Z.min h 8 = 2 \/ Z.min h 8 = 3 \/ Z.min h 8 = 4 \/
          Z.min h 8 = 5 \/ Z.min h 8 = 6 \/ Z.min h 8 = 7 \/ Z.min h 8 = 8) as Hm by lia.
  destruct Hm as [-> | [-> | [-> | [-> | [-> | [-> | [-> | ->]]]]]]];
    simpl; eexists; (split; [reflexivity | lia]).
Qed.

(** [_determineTier] as a cascade of comparisons. *)
Lemma _determineTier_cascade annualIncome householdSize medicaidLimit :
  limit_at (Z.min householdSize 8) MEDICAID_INCOME_LIMITS = Some medicaidLimit ->
  _determineTier annualIncome householdSize =
  TierResult.mk
    (if annualIncome <=? medicaidLimit * 1
     then TierConfig.mk (Times 1) [0; 50] "medicaid_eligible" "Medicaid Eligible"
     else if annualIncome <=? medicaidLimit * 2
     then TierConfig.mk (Times 2) [0; 100] "low_income_gap" "Low-Income Gap"
     else if annualIncome <=? medicaidLimit * 3
     then TierConfig.mk (Times 3) [50; 200] "moderate_income" "Moderate Income"
     else TIER_CONFIG_ANY_INCOME)
    (Some medicaidLimit).
Proof.
  unfold _determineTier. intros ->. cbn.
  destruct (annualIncome <=? medicaidLimit * 1); [done|].
  destruct (annualIncome <=? medicaidLimit * 2); [done|].
  destruct (annualIncome <=? medicaidLimit * 3); done.
Qed.

(** Listed zip codes carry no white space at their ends. *)
Lemma trim_listed z : z ∈ VALID_DC_ZIP_CODES -> trim z = z.
Proof.
  unfold VALID_DC_ZIP_CODES. rewrite elem_of_list_to_set.
  assert (Forall (fun z => trim z = z) DC_ZIP_CODES) as H.
  { unfold DC_ZIP_CODES. repeat constructor. }
  rewrite Forall_forall in H. apply H.
Qed.

Lemma valid_inputs_listed h i z :
  1 <= h <= 15 -> 0 <= i -> z ∈ VALID_DC_ZIP_CODES ->
  valid_inputs (JsInt h) (JsInt i) (JsString z).
Proof.
  intros Hh Hi Hz. apply valid_inputs_iff. exists h, i, z.
  rewrite (trim_listed z Hz).
  split; [reflexivity|]. split; [reflexivity|]. split; [reflexivity|].
  split; [exact Hh|]. split; [exact Hi | exact Hz].
Qed.

(** On valid inputs a service in use returns the assessment of these
    inputs, computed now or at the earlier call whose result it kept. *)
Lemma assessEligibility_valid glassesData resources s now householdSize annualIncome zipCode :
  reachable glassesData resources s ->
  valid_inputs householdSize annualIncome zipCode ->
  exists assessedAt s',
    assessEligibility now s householdSize annualIncome zipCode
    = (Return (VEligibility (assessment s assessedAt householdSize annualIncome zipCode)), s').
Proof.
  intros Hs Hv.
  apply reachable_with_invariant in Hs as (_ & _ & Hc).
  destruct (_cache s !! eligibility_key householdSize annualIncome zipCode) as [v|] eqn:Ec.
  - destruct (Hc _ _ _ _ Hv Ec) as [t ->].
    exists t, s. by apply assessEligibility_cached.
  - eexists now, _. by apply assessEligibility_computed.
Qed.

End Tiers.

Section TierClaims.



(** C4. Tier assignment is monotone in income: for a fixed valid
    household size and zip code and valid incomes [income1 <= income2],
    the two calls return assessments, and the tier for [income2] is not
    below the tier for [income1] in the order medicaid_eligible <
    low_income_gap < moderate_income < any_income. The two calls may be
    made in any two states of a service in use. *)
Theorem C4_tier_monotone_in_income
  (glassesData : list GlassesItem.t) (resources : DCResources.t)
  (s1 s2 : GlassesService) (now1 now2 : string)
  (householdSize income1 income2 : Z) (zipCode : string) :
  reachable glassesData resources s1 ->
  reachable glassesData resources s2 ->
  1 <= householdSize <= 15 ->
  zipCode ∈ VALID_DC_ZIP_CODES ->
  0 <= income1 ->
  income1 <= income2 ->
  exists e1 s1' e2 s2' rank1 rank2,
    assessEligibility now1 s1 (JsInt householdSize) (JsInt income1) (JsString zipCode)
    = (Return (VEligibility e1), s1') /\
    assessEligibility now2 s2 (JsInt householdSize) (JsInt income2) (JsString zipCode)
    = (Return (VEligibility e2), s2') /\
    tier_rank (Eligibility.tier e1) = Some rank1 /\
    tier_rank (Eligibility.tier e2) = Some rank2 /\
    (rank1 <= rank2)%nat.
Proof.
  intros Hs1 Hs2 Hh Hz Hi1 Hi12.
  destruct (limit_at_household householdSize Hh) as (L & HL & Hpos).
  destruct (assessEligibility_valid _ _ s1 now1 _ _ _ Hs1
              (valid_inputs_listed _ income1 _ Hh Hi1 Hz)) as (t1 & s1' & Hcall1).
  destruct (assessEligibility_valid _ _ s2 now2 _ _ _ Hs2
              (valid_inputs_listed _ income2 _ Hh ltac:(lia) Hz)) as (t2 & s2' & Hcall2).
  eexists _, s1', _, s2'.
  assert (forall s t income,
            Eligibility.tier (assessment s t (JsInt householdSize) (JsInt income) (JsString zipCode))
            = if income <=? L * 1 then "medicaid_eligible"%string
              else if income <=? L * 2 then "low_income_gap"%string
              else if income <=? L * 3 then "moderate_income"%string
              else "any_income"%string) as Htier.
  { intros s t income. unfold assessment. simpl integer_value.
    rewrite (_determineTier_cascade income householdSize L HL). simpl.
    repeat case_match; done. }
  exists (if income1 <=? L * 1 then 0%nat else if income1 <=? L * 2 then 1%nat
          else if income1 <=? L * 3 then 2%nat else 3%nat),
         (if income2 <=? L * 1 then 0%nat else if income2 <=? L * 2 then 1%nat
          else if income2 <=? L * 3 then 2%nat else 3%nat).
  split; [exact Hcall1|]. split; [exact Hcall2|].
  rewrite !Htier.
  split; [repeat case_match; done|]. split; [repeat case_match; done|].
  repeat case_match; lia.
Qed.

Lemma C4_witness :
  (reachable [] _initializeDCResources (mkService [] _initializeDCResources ∅)
   /\ 1 <= 4 <= 15 /\ "20001"%string ∈ VALID_DC_ZIP_CODES /\ 0 <= 43056 /\ 43056 <= 43057)
  /\ exists e1 s1' e2 s2' rank1 rank2,
       assessEligibility "t1" (mkService [] _initializeDCResources ∅)
         (JsInt 4) (JsInt 43056) (JsString "20001") = (Return (VEligibility e1), s1') /\
       assessEligibility "t2" (mkService [] _initializeDCResources ∅)
         (JsInt 4) (JsInt 43057) (JsString "20001") = (Return (VEligibility e2), s2') /\
       tier_rank (Eligibility.tier e1) = Some rank1 /\
       tier_rank (Eligibility.tier e2) = Some rank2 /\
       (rank1 <= rank2)%nat.
Proof.
  assert ("20001"%string ∈ VALID_DC_ZIP_CODES) as Hz.
  { apply (bool_decide_unpack _). vm_compute. exact I. }
  assert (reachable [] _initializeDCResources (mkService [] _initializeDCResources ∅)) as Hr.
  { apply reach_new. }
  split; [repeat split; first [done | lia] |].
  apply (C4_tier_monotone_in_income [] _initializeDCResources _ _ "t1" "t2" 4 43056 43057 "20001"%string
           Hr Hr ltac:(lia) Hz ltac:(lia) ltac:(lia)).
Defined.

End TierClaims.

(** ** Resources *)

(** C5. For every valid input, the resources of the assessment are the
    medicaid providers followed by the discount programs and the local
    stores when the tier is medicaid_eligible, and the discount programs
    and the local stores alone for every other tier. With the resource
    table of the source, a medicaid provider is among the resources if and
    only if the tier is medicaid_eligible. *)
Theorem C5_medicaid_providers_gated_by_tier
  (glassesData : list GlassesItem.t) (resources : DCResources.t)
  (s : GlassesService) (now : string) (householdSize annualIncome zipCode : JsValue) :
  reachable glassesData resources s ->
  valid_inputs householdSize annualIncome zipCode ->
  exists e s',
    assessEligibility now s householdSize annualIncome zipCode
    = (Return (VEligibility e), s') /\
    let shared :=
      DCResources.discount_programs resources ++ DCResources.local_stores resources in
    (Eligibility.tier e = "medicaid_eligible"%string ->
     Eligibility.resources e = DCResources.medicaid_providers resources ++ shared) /\
    (Eligibility.tier e <> "medicaid_eligible"%string ->
     Eligibility.resources e = shared) /\
    (resources = _initializeDCResources ->
     forall provider,
       In provider (DCResources.medicaid_providers resources) ->
       (In provider (Eligibility.resources e)
        <-> Eligibility.tier e = "medicaid_eligible"%string)).
Proof.
  intros Hs Hv.
  destruct (assessEligibility_valid _ _ s now _ _ _ Hs Hv) as (t & s' & Hcall).
  apply reachable_with_invariant in Hs as (_ & Hres & _).
  eexists _, s'. split; [exact Hcall|].
  unfold assessment. cbn [Eligibility.tier Eligibility.resources].
  set (tier := TierConfig.tier _).
  unfold _getRelevantResources. rewrite Hres.
  destruct (String.eqb tier "medicaid_eligible") eqn:E.
  - apply String.eqb_eq in E.
    split; [done|]. split; [done|].
    intros _ provider Hin. split; [done|].
    intros _. apply in_or_app. by left.
  - apply String.eqb_neq in E.
    split; [done|]. split; [done|].
    intros -> provider Hin. split; [|done].
    intros Hshared. exfalso. simpl in Hin, Hshared.
    destruct Hin as [<- | [<- | []]];
      repeat (destruct Hshared as [Hshared | Hshared]; [discriminate Hshared|]);
      destruct Hshared.
Qed.

Lemma C5_witness :
  (reachable [] _initializeDCResources (mkService [] _initializeDCResources ∅)
   /\ valid_inputs (JsInt 4) (JsInt 43057) (JsString "20001"))
  /\ exists e s',
       assessEligibility "t" (mkService [] _initializeDCResources ∅)
         (JsInt 4) (JsInt 43057) (JsString "20001")
       = (Return (VEligibility e), s') /\
       (Eligibility.tier e <> "medicaid_eligible"%string ->
        Eligibility.resources e
        = DCResources.discount_programs _initializeDCResources
          ++ DCResources.local_stores _initializeDCResources).
Proof.
  assert (reachable [] _initializeDCResources (mkService [] _initializeDCResources ∅)) as Hr.
  { apply reach_new. }
  assert (valid_inputs (JsInt 4) (JsInt 43057) (JsString "20001")) as Hv.
  { vm_compute. reflexivity. }
  split; [split; assumption|].
  destruct (C5_medicaid_providers_gated_by_tier [] _initializeDCResources
              _ "t" _ _ _ Hr Hv) as (e & s' & Hcall & _ & H2 & _).
  exists e, s'. split; [exact Hcall | exact H2].
Defined.

(** ** Refused inputs *)

Section Refused.

Lemma append_cons (x : ascii) (a b : string) : String x a +:+ b = String x (a +:+ b).
Proof. reflexivity. Qed.

Lemma append_assoc (a b c : string) : (a +:+ b) +:+ c = a +:+ b +:+ c.
Proof.
  induction a as [|x a IH]; [done|]. rewrite !append_cons. by f_equal.
Qed.

Lemma append_nil_r (a : string) : a +:+ "" = a.
Proof.
  induction a as [|x a IH]; [done|]. rewrite append_cons. by f_equal.
Qed.

Lemma occurs_in_refl (a : string) : occurs_in a a.
Proof. exists ""%string, ""%string. simpl. by rewrite append_nil_r. Qed.

Lemma occurs_in_append_l (m a b : string) : occurs_in m a -> occurs_in m (a +:+ b).
Proof.
  intros (x & y & ->). exists x, (y +:+ b). by rewrite !append_assoc.
Qed.

Lemma occurs_in_append_r (m a b : string) : occurs_in m b -> occurs_in m (a +:+ b).
Proof.
  intros (x & y & ->). exists (a +:+ x), y. by rewrite !append_assoc.
Qed.

(** Every element of an array occurs in its [join]. *)
Lemma occurs_in_join sep m l : In m l -> occurs_in m (join sep l).
Proof.
  induction l as [|x rest IH]; [done|].
  intros [<- | Hin]; simpl.
  - destruct rest; [apply occurs_in_refl|].
    apply occurs_in_append_l, occurs_in_refl.
  - destruct rest as [|y rest']; [done|].
    apply occurs_in_append_r, occurs_in_append_r, IH, Hin.
Qed.

Lemma householdSize_refused_iff v :
  householdSize_refused v = true <-> householdSize_violated v.
Proof.
  unfold householdSize_refused, householdSize_violated.
  destruct v; simpl; split; try done; try (intros _ h' E; discriminate E).
  - intros H h' E. injection E as <-. lia.
  - intros H. destruct (H z eq_refl); lia.
Qed.

Lemma annualIncome_refused_iff v :
  annualIncome_refused v = true <-> annualIncome_violated v.
Proof.
  unfold annualIncome_refused, annualIncome_violated.
  destruct v; simpl; split; try done; try (intros _ h' E; discriminate E).
  - intros H h' E. injection E as <-. lia.
  - intros H. specialize (H z eq_refl). lia.
Qed.

Lemma zipCode_refused_iff v :
  zipCode_refused v = true <-> zipCode_violated v.
Proof.
  unfold zipCode_refused, zipCode_violated, validateDCZipCode. rewrite negb_true_iff.
  destruct v; split; intros H;
    try reflexivity; try (intros z' E; discriminate E).
  - intros z' E. injection E as <-. by apply bool_decide_eq_false in H.
  - apply bool_decide_eq_false. by apply H.
Qed.

Lemma some_input_refused_iff householdSize annualIncome zipCode :
  some_input_refused householdSize annualIncome zipCode
  <-> ~ valid_inputs householdSize annualIncome zipCode.
Proof.
  unfold some_input_refused, valid_inputs, validation_errors.
  destruct (householdSize_refused householdSize);
  destruct (annualIncome_refused annualIncome);
  destruct (zipCode_refused zipCode); simpl; split; intros H;
    try discriminate; try (by left); try (by right; left); try (by right; right);
    try (intros E; discriminate E); try (by destruct H as [?|[?|?]]).
Qed.

(** A refused guard puts its message into the [errors] array. *)
Lemma validation_errors_complete householdSize annualIncome zipCode :
  let errors := validation_errors householdSize annualIncome zipCode in
  (householdSize_refused householdSize = true -> In HOUSEHOLD_SIZE_MESSAGE errors) /\
  (annualIncome_refused annualIncome = true -> In ANNUAL_INCOME_MESSAGE errors) /\
  (zipCode_refused zipCode = true -> In (zip_code_message zipCode) errors).
Proof.
  unfold validation_errors.
  destruct (householdSize_refused householdSize);
  destruct (annualIncome_refused annualIncome);
  destruct (zipCode_refused zipCode); simpl; intuition discriminate.
Qed.

(** The keys of the cache of a service in use. *)
Lemma reachable_with_keys P glassesData resources s :
  reachable_with P glassesData resources s -> cache_keys_ok s.
Proof.
  induction 1 as [| s now h i z _ Hk | s now e _ Hk He | s _ Hk].
  - intros k v Hlook. simpl in Hlook. by rewrite lookup_empty in Hlook.
  - destruct (_cache s !! eligibility_key h i z) as [v|] eqn:Ec.
    { by rewrite (assessEligibility_cached _ _ _ _ _ _ Ec). }
    destruct (decide (valid_inputs h i z)) as [Hv | Hv].
    2: { by rewrite (assessEligibility_refused _ _ _ _ _ Ec Hv). }
    rewrite (assessEligibility_computed _ _ _ _ _ Ec Hv). simpl.
    intros k v Hlook. simpl in Hlook.
    destruct (decide (eligibility_key h i z = k)) as [<- | Hne].
    + left. by exists h, i, z.
    + rewrite lookup_insert_ne in Hlook by done. by apply (Hk k v).
  - unfold getPersonalizedRecommendations.
    destruct e as [e|]; [|done].
    destruct (EligibilityArg.budgetRange e) as [range|]; [|done].
    destruct (_cache s !! _) eqn:Ec; [done|]. simpl.
    intros k v Hlook. simpl in Hlook.
    destruct (decide (recommendations_key (EligibilityArg.tier e) range = k)) as [<- | Hne].
    + right. by eexists _, _.
    + rewrite lookup_insert_ne in Hlook by done. by apply (Hk k v).
  - intros k v Hlook. simpl in Hlook. by rewrite lookup_empty in Hlook.
Qed.

(** In a service in use, the cache has no entry under the key of two
    integers and a string that do not pass validation. *)
Lemma refused_integers_not_cached P glassesData resources s h i z :
  reachable_with P glassesData resources s ->
  ~ valid_inputs (JsInt h) (JsInt i) (JsString z) ->
  _cache s !! eligibility_key (JsInt h) (JsInt i) (JsString z) = None.
Proof.
  intros Hs Hv. apply reachable_with_keys in Hs.
  destruct (_cache s !! _) as [v|] eqn:Ec; [|done]. exfalso.
  destruct (Hs _ _ Ec) as [(h' & i' & z' & Hv' & Ek) | (t & r & Ek)].
  - pose proof Hv' as Hv''.
    apply valid_inputs_iff in Hv' as (h2 & i2 & z2 & -> & -> & -> & _).
    apply eligibility_key_inj in Ek as (-> & -> & ->). exact (Hv Hv'').
  - by apply eligibility_key_not_recommendations in Ek.
Qed.

End Refused.

(** C3, as the code has it. When at least one of the three inputs
    violates its constraint and the cache has no entry under the key of
    the call, [assessEligibility] throws a plain [Error] (the service
    makes no [ValidationError]; [errorHandler.handleError] files it under
    UNKNOWN_ERROR), keeps its state, and the message of the error contains
    the message of every violated input, not just the first; the message
    for the zip code quotes the rejected value. The cache has no such
    entry in any state of a service in use when the inputs are two
    integers and a string. *)
Theorem C3_every_violated_input_reported
  (glassesData : list GlassesItem.t) (resources : DCResources.t)
  (s : GlassesService) (now : string) (householdSize annualIncome zipCode : JsValue) :
  householdSize_violated householdSize
  \/ annualIncome_violated annualIncome
  \/ zipCode_violated zipCode ->
  _cache s !! eligibility_key householdSize annualIncome zipCode = None
  \/ (reachable glassesData resources s /\
      exists h i z, householdSize = JsInt h /\ annualIncome = JsInt i /\ zipCode = JsString z) ->
  exists msg,
    assessEligibility now s householdSize annualIncome zipCode = (Throw (Error msg), s) /\
    instanceof_ValidationError (Error msg) = false /\
    ErrorInfo.code (handleError (Error msg)) = "UNKNOWN_ERROR"%string /\
    (householdSize_violated householdSize -> occurs_in HOUSEHOLD_SIZE_MESSAGE msg) /\
    (annualIncome_violated annualIncome -> occurs_in ANNUAL_INCOME_MESSAGE msg) /\
    (zipCode_violated zipCode ->
     occurs_in ("Invalid D.C. zip code: " +:+ ToString zipCode) msg).
Proof.
  intros Hbad Hmiss.
  assert (~ valid_inputs householdSize annualIncome zipCode) as Hv.
  { apply some_input_refused_iff. unfold some_input_refused.
    rewrite householdSize_refused_iff, annualIncome_refused_iff, zipCode_refused_iff.
    done. }
  assert (_cache s !! eligibility_key householdSize annualIncome zipCode = None) as Ec.
  { destruct Hmiss as [Ec | (Hs & h & i & z & -> & -> & ->)]; [done|].
    by eapply refused_integers_not_cached. }
  exists (join "; " (validation_errors householdSize annualIncome zipCode)).
  split; [by apply assessEligibility_refused|].
  split; [done|]. split; [by destruct (join _ _)|].
  destruct (validation_errors_complete householdSize annualIncome zipCode) as (Hh & Hi & Hz).
  split; [|split].
  - intros H. apply occurs_in_join, Hh. by apply householdSize_refused_iff.
  - intros H. apply occurs_in_join, Hi. by apply annualIncome_refused_iff.
  - intros H. apply zipCode_refused_iff in H.
    destruct (occurs_in_join "; " _ _ (Hz H)) as (x & y & ->).
    exists x, (". Must be a valid D.C. zip code (e.g., 20001, 20009, 20036)" +:+ y)%string.
    unfold zip_code_message. by rewrite !append_assoc.
Qed.

(** The call [assessEligibility(1, 100000, "99999")] on a new service. *)
Lemma C3_witness :
  ((householdSize_violated (JsInt 1) \/ annualIncome_violated (JsInt 100000)
    \/ zipCode_violated (JsString "99999"))
   /\ (_cache (mkService [] _initializeDCResources ∅)
         !! eligibility_key (JsInt 1) (JsInt 100000) (JsString "99999") = None
       \/ (reachable [] _initializeDCResources (mkService [] _initializeDCResources ∅) /\
           exists h i z, JsInt 1 = JsInt h /\ JsInt 100000 = JsInt i
                         /\ JsString "99999" = JsString z)))
  /\ exists msg,
       assessEligibility "t" (mkService [] _initializeDCResources ∅)
         (JsInt 1) (JsInt 100000) (JsString "99999")
       = (Throw (Error msg), mkService [] _initializeDCResources ∅) /\
       occurs_in "Invalid D.C. zip code: 99999" msg.
Proof.
  assert (zipCode_violated (JsString "99999")) as Hz.
  { apply zipCode_refused_iff. vm_compute. reflexivity. }
  assert (_cache (mkService [] _initializeDCResources ∅)
            !! eligibility_key (JsInt 1) (JsInt 100000) (JsString "99999") = None) as Hc.
  { vm_compute. reflexivity. }
  split; [split; [by right; right | by left] |].
  destruct (C3_every_violated_input_reported [] _initializeDCResources
              (mkService [] _initializeDCResources ∅) "t"
              (JsInt 1) (JsInt 100000) (JsString "99999")
              (or_intror (or_intror Hz)) (or_introl Hc))
    as (msg & Hcall & _ & _ & _ & _ & Hzip).
  exists msg. split; [exact Hcall | exact (Hzip Hz)].
Defined.

(** C3 as stated fails: the error [assessEligibility(1, 100000, "99999")]
    throws is no [ValidationError]. *)
Lemma C3_counterexample :
  ~ exists msg field s',
      assessEligibility "2024-01-01T00:00:00.000Z" (mkService [] _initializeDCResources ∅)
        (JsInt 1) (JsInt 100000) (JsString "99999")
      = (Throw (ValidationError msg field), s').
Proof.
  intros (msg & field & s' & H). vm_compute in H. discriminate H.
Qed.

(** ** Idempotence of [assessEligibility] *)





(** ** Recommendations *)

Section Sorting.

Local Abbreviation price := GlassesItem.numeric_price.

Lemma sort_insert_Permutation (x : GlassesItem.t) l :
  Permutation (sort_insert by_price x l) (x :: l).
Proof.
  induction l as [|y l IH]; simpl; [done|].
  destruct (0 <? by_price x y); [|done].
  rewrite IH. apply perm_swap.
Qed.

Lemma sort_Permutation (l : list GlassesItem.t) : Permutation (sort by_price l) l.
Proof.
  induction l as [|x l IH]; simpl; [done|].
  rewrite sort_insert_Permutation. by constructor.
Qed.

Lemma sort_insert_sorted x l :
  StronglySorted price_le l -> StronglySorted price_le (sort_insert by_price x l).
Proof.
  induction 1 as [|y l Hl IH Hy]; simpl.
  - repeat constructor.
  - destruct (0 <? by_price x y) eqn:E.
    + constructor; [done|].
      rewrite sort_insert_Permutation. constructor; [|done].
      unfold price_le, by_price in *. lia.
    + constructor; [by constructor|].
      constructor.
      * unfold price_le, by_price in *. lia.
      * eapply Forall_impl; [exact Hy|].
        unfold price_le, by_price in *. intros z Hz. simpl in Hz. lia.
Qed.

Lemma sort_sorted (l : list GlassesItem.t) : StronglySorted price_le (sort by_price l).
Proof.
  induction l as [|x l IH]; simpl; [constructor | by apply sort_insert_sorted].
Qed.

(** Items of one price keep their order through an insertion... *)
Lemma sort_insert_stable p x l :
  List.filter (fun g => price g =? p) (sort_insert by_price x l)
  = List.filter (fun g => price g =? p) (x :: l).
Proof.
  induction l as [|y l IH]; [done|].
  simpl sort_insert.
  destruct (0 <? by_price x y) eqn:E; [|done].
  simpl in IH |- *. rewrite IH.
  unfold by_price in E.
  destruct (price x =? p) eqn:Ex; destruct (price y =? p) eqn:Ey; try done.
  lia.
Qed.

(** ... and through the sort. *)
Lemma sort_stable p (l : list GlassesItem.t) :
  List.filter (fun g => price g =? p) (sort by_price l)
  = List.filter (fun g => price g =? p) l.
Proof.
  induction l as [|x l IH]; [done|].
  simpl sort. rewrite sort_insert_stable. simpl. by rewrite IH.
Qed.

(** A stable ascending sort has one possible result: sorted lists that
    agree on the items of every price are equal. *)
Lemma sorted_and_stable_unique (l1 : list GlassesItem.t) : forall l2,
  StronglySorted price_le l1 -> StronglySorted price_le l2 ->
  (forall p, List.filter (fun g => price g =? p) l1
             = List.filter (fun g => price g =? p) l2) ->
  l1 = l2.
Proof.
  induction l1 as [|x l1 IH]; intros l2 H1 H2 Hf.
  - destruct l2 as [|y l2]; [done|].
    specialize (Hf (price y)). simpl in Hf. rewrite Z.eqb_refl in Hf. done.
  - destruct l2 as [|y l2].
    { specialize (Hf (price x)). simpl in Hf. rewrite Z.eqb_refl in Hf. done. }
    apply StronglySorted_inv in H1 as [H1 Hx].
    apply StronglySorted_inv in H2 as [H2 Hy].
    assert (forall a l p, Forall (price_le a) l -> p < price a ->
                          List.filter (fun g => price g =? p) l = []) as Hnone.
    { intros a l p Hall Hlt. induction Hall as [|z l Hz _ IHl]; [done|].
      simpl. unfold price_le in Hz.
      destruct (price z =? p) eqn:Ez; [lia | done]. }
    assert (price x = price y) as Exy.
    { destruct (Z.lt_trichotomy (price x) (price y)) as [Hlt | [He | Hgt]]; [|done|].
      - specialize (Hf (price x)). simpl in Hf. rewrite Z.eqb_refl in Hf.
        rewrite (Hnone y l2 (price x) Hy Hlt) in Hf.
        destruct (price y =? price x) eqn:E; [lia | done].
      - specialize (Hf (price y)). simpl in Hf. rewrite Z.eqb_refl in Hf.
        rewrite (Hnone x l1 (price y) Hx Hgt) in Hf.
        destruct (price x =? price y) eqn:E; [lia | done]. }
    assert (x = y) as ->.
    { specialize (Hf (price x)). simpl in Hf.
      rewrite <- Exy, Z.eqb_refl in Hf. by injection Hf. }
    f_equal. apply IH; [done | done |].
    intros p. specialize (Hf p). simpl in Hf.
    destruct (price y =? p); [by injection Hf | done].
Qed.

End Sorting.

Section RecommendationClaims.

Local Abbreviation price := GlassesItem.numeric_price.

Lemma within_budget_in_range budgetMin budgetMax g :
  within_budget (Some budgetMin) (Some budgetMax) g = true <-> in_range budgetMin budgetMax g.
Proof. unfold within_budget, in_range. simpl. lia. Qed.

(** What [suitableGlasses] holds: the catalog items in the range,
    ascending by price, items of one price in catalog order. *)
Lemma suitableGlasses_spec glassesData budgetMin budgetMax :
  let result := suitableGlasses glassesData (Some budgetMin) (Some budgetMax) in
  (forall g, In g result <-> In g glassesData /\ in_range budgetMin budgetMax g) /\
  Permutation result
    (List.filter (within_budget (Some budgetMin) (Some budgetMax)) glassesData) /\
  StronglySorted price_le result /\
  (forall p, budgetMin <= p <= budgetMax ->
     List.filter (fun g => price g =? p) result
     = List.filter (fun g => price g =? p) glassesData).
Proof.
  unfold suitableGlasses. simpl.
  split; [|split; [|split]].
  - intros g. rewrite <- within_budget_in_range, <- filter_In.
    split; apply Permutation_in; [|symmetry]; apply sort_Permutation.
  - apply sort_Permutation.
  - apply sort_sorted.
  - intros p Hp. rewrite sort_stable.
    induction glassesData as [|g l IH]; [done|].
    simpl. destruct (within_budget _ _ g) eqn:Eg; simpl.
    + by rewrite IH.
    + rewrite IH. destruct (price g =? p) eqn:E; [|done].
      exfalso. apply not_true_iff_false in Eg. apply Eg.
      apply within_budget_in_range. unfold in_range. lia.
Qed.

(** Used as designed, the service answers an argument that has one of
    the four tiers and a range of two integers with the recommendation
    for this tier and range, computed now or kept from an earlier call. *)
Lemma getPersonalizedRecommendations_well_formed
  glassesData resources s now e budgetMin budgetMax :
  used_as_designed glassesData resources s ->
  In (EligibilityArg.tier e) TIERS ->
  EligibilityArg.budgetRange e = Some [budgetMin; budgetMax] ->
  exists generatedAt tierName s',
    getPersonalizedRecommendations now s (Some e)
    = (Return (VRecommendations
         (recommendation s generatedAt (EligibilityArg.tier e) tierName
            [budgetMin; budgetMax])), s').
Proof.
  intros Hs Ht Hr.
  apply used_as_designed_invariant in Hs.
  destruct (_cache s !! recommendations_key (EligibilityArg.tier e) [budgetMin; budgetMax])
    as [v|] eqn:Ec.
  - destruct (Hs _ _ _ _ Ht Ec) as (t & tn & ->).
    exists t, tn, s. by eapply getPersonalizedRecommendations_cached.
  - eexists now, _, _. by apply getPersonalizedRecommendations_computed.
Qed.

(** C2. For every catalog and every budget range [budgetMin, budgetMax],
    [getPersonalizedRecommendations] returns exactly the catalog items
    whose price lies in the range, both bounds included, in ascending
    order of price, items of equal price in their catalog order; its top
    list is the first ten of them. In particular, on a catalog whose
    prices are among 25, 35, 45, 65, 85, 95 and 145 and with the range
    [50, 100], it returns the items priced 65, 85 and 95 and no other. The
    service is in any state of a use as designed, the argument has one of
    the four tiers. The order of the two bounds plays no role: a range
    with [budgetMax < budgetMin] contains no price. *)
Theorem C2_recommendations_filtered_and_stably_sorted
  (glassesData : list GlassesItem.t) (resources : DCResources.t)
  (s : GlassesService) (now : string) (e : EligibilityArg.t) (budgetMin budgetMax : Z) :
  used_as_designed glassesData resources s ->
  In (EligibilityArg.tier e) TIERS ->
  EligibilityArg.budgetRange e = Some [budgetMin; budgetMax] ->
  exists r s',
    getPersonalizedRecommendations now s (Some e) = (Return (VRecommendations r), s') /\
    let result := Recommendations.allRecommendations r in
    (forall g, In g result <-> In g glassesData /\ in_range budgetMin budgetMax g) /\
    Permutation result
      (List.filter (within_budget (Some budgetMin) (Some budgetMax)) glassesData) /\
    StronglySorted price_le result /\
    (forall p, budgetMin <= p <= budgetMax ->
       List.filter (fun g => price g =? p) result
       = List.filter (fun g => price g =? p) glassesData) /\
    Recommendations.topRecommendations r = take 10 result /\
    Recommendations.totalOptions r = length result /\
    (budgetMin = 50 -> budgetMax = 100 ->
     Forall (fun g => In (price g) [25; 35; 45; 65; 85; 95; 145]) glassesData ->
     forall g, In g result <-> In g glassesData /\ In (price g) [65; 85; 95]).
Proof.
  intros Hs Ht Hr.
  destruct (getPersonalizedRecommendations_well_formed _ _ _ now _ _ _ Hs Ht Hr)
    as (t & tn & s' & Hcall).
  apply reachable_with_invariant in Hs as (Hd & _ & _).
  eexists _, s'. split; [exact Hcall|].
  unfold recommendation. cbn [Recommendations.allRecommendations
    Recommendations.topRecommendations Recommendations.totalOptions].
  change ([budgetMin; budgetMax] !! 0%nat) with (Some budgetMin).
  change ([budgetMin; budgetMax] !! 1%nat) with (Some budgetMax).
  rewrite Hd.
  destruct (suitableGlasses_spec glassesData budgetMin budgetMax) as (Hin & Hperm & Hsorted & Hstable).
  repeat (split; [done|]).
  intros -> -> Hprices g. rewrite Hin. unfold in_range.
  split; intros [Hg Hp]; (split; [done|]).
  - rewrite Forall_forall in Hprices. apply list_elem_of_In, Hprices in Hg.
    simpl in Hg |- *. lia.
  - simpl in Hp. lia.
Qed.

(** The range [50, 100] on the catalog of the earlier data set: Haskell
    at 65, Welty at 85, then Griffin and Percey at 95 in catalog order. *)
Lemma C2_witness :
  (used_as_designed (catalog_of earlier_rawData) _initializeDCResources
     (mkService (catalog_of earlier_rawData) _initializeDCResources ∅)
   /\ In "moderate_income"%string TIERS
   /\ EligibilityArg.budgetRange
        (EligibilityArg.mk "moderate_income" "Moderate Income" (Some [50; 100]))
      = Some [50; 100])
  /\ exists r s',
       getPersonalizedRecommendations "2024-01-01T00:00:00.000Z"
         (mkService (catalog_of earlier_rawData) _initializeDCResources ∅)
         (Some (EligibilityArg.mk "moderate_income" "Moderate Income" (Some [50; 100])))
       = (Return (VRecommendations r), s') /\
       StronglySorted price_le (Recommendations.allRecommendations r) /\
       map GlassesItem.name (Recommendations.allRecommendations r)
       = ["Haskell"; "Welty"; "Griffin"; "Percey"]%string /\
       map price (Recommendations.allRecommendations r) = [65; 85; 95; 95].
Proof.
  assert (used_as_designed (catalog_of earlier_rawData) _initializeDCResources
            (mkService (catalog_of earlier_rawData) _initializeDCResources ∅)) as Hr.
  { apply reach_new. }
  assert (In "moderate_income"%string TIERS) as Ht.
  { simpl. tauto. }
  split; [done|].
  destruct (C2_recommendations_filtered_and_stably_sorted _ _ _
              "2024-01-01T00:00:00.000Z"
              (EligibilityArg.mk "moderate_income" "Moderate Income" (Some [50; 100]))
              50 100 Hr Ht eq_refl)
    as (r & s' & Hcall & _ & _ & Hsorted & _).
  exists r, s'. split; [exact Hcall|]. split; [exact Hsorted|].
  vm_compute in Hcall. injection Hcall as <- _. split; reflexivity.
Defined.

(** C6, as the code has it. When the argument of
    [getPersonalizedRecommendations] is absent or has no [budgetRange],
    the call throws a plain [Error] with the message "Invalid eligibility
    data provided" (the service makes no [ServiceError]), returns no
    result and keeps its state, cache included. *)
Theorem C6_absent_budget_range_refused
  (s : GlassesService) (now : string) (e : option EligibilityArg.t) :
  e = None \/ (exists e', e = Some e' /\ EligibilityArg.budgetRange e' = None) ->
  getPersonalizedRecommendations now s e
  = (Throw (Error "Invalid eligibility data provided"), s)
  /\ instanceof_ServiceError (Error "Invalid eligibility data provided") = false
  /\ ErrorInfo.code (handleError (Error "Invalid eligibility data provided"))
     = "UNKNOWN_ERROR"%string.
Proof.
  intros H. split; [|done].
  apply getPersonalizedRecommendations_refused.
  by destruct H as [-> | (e' & -> & H)].
Qed.

Lemma C6_witness :
  (@None EligibilityArg.t = None
   \/ exists e', @None EligibilityArg.t = Some e' /\ EligibilityArg.budgetRange e' = None)
  /\ getPersonalizedRecommendations "2024-01-01T00:00:00.000Z"
       (mkService (catalog_of rawData) _initializeDCResources ∅) None
     = (Throw (Error "Invalid eligibility data provided"),
        mkService (catalog_of rawData) _initializeDCResources ∅).
Proof.
  split; [by left|].
  apply (C6_absent_budget_range_refused
           (mkService (catalog_of rawData) _initializeDCResources ∅)
           "2024-01-01T00:00:00.000Z" None (or_introl eq_refl)).
Defined.

(** C6 as stated fails twice. With the range [100, 50], whose minimum
    exceeds its maximum, [getPersonalizedRecommendations] throws nothing:
    it returns a recommendation of no item. With no argument it throws,
    but the error is no [ServiceError]. *)
Lemma C6_counterexample :
  (exists r s',
     getPersonalizedRecommendations "2024-01-01T00:00:00.000Z"
       (mkService (catalog_of rawData) _initializeDCResources ∅)
       (Some (EligibilityArg.mk "any_income" "Any Income" (Some [100; 50])))
     = (Return (VRecommendations r), s')
     /\ Recommendations.totalOptions r = 0%nat
     /\ Recommendations.allRecommendations r = [])
  /\ ~ (exists msg code s',
          getPersonalizedRecommendations "2024-01-01T00:00:00.000Z"
            (mkService (catalog_of rawData) _initializeDCResources ∅) None
          = (Throw (ServiceError msg code), s')).
Proof.
  split.
  - eexists _, _. vm_compute. repeat split.
  - intros (msg & code & s' & H). discriminate H.
Qed.

End RecommendationClaims.

(** ** Zip codes *)

Section Trim.

Lemma trimStart_whitespace w : all_whitespace w = true -> trimStart w = ""%string.
Proof.
  induction w as [|c w IH]; [done|]. simpl.
  intros [Hc Hw]%andb_prop. rewrite Hc. by apply IH.
Qed.

Lemma trimEnd_whitespace w : all_whitespace w = true -> trimEnd w = ""%string.
Proof.
  induction w as [|c w IH]; [done|]. simpl.
  intros [Hc Hw]%andb_prop. by rewrite (IH Hw), Hc.
Qed.

Lemma trimStart_append s after :
  trimStart (s +:+ after)
  = if all_whitespace s then trimStart after else trimStart s +:+ after.
Proof.
  induction s as [|c s IH]; [done|].
  rewrite append_cons. simpl. destruct (is_whitespace c); simpl; [exact IH | done].
Qed.

Lemma trimEnd_append_whitespace t w :
  all_whitespace w = true -> trimEnd (t +:+ w) = trimEnd t.
Proof.
  intros Hw. induction t as [|c t IH].
  - by apply trimEnd_whitespace.
  - rewrite append_cons. simpl. by rewrite IH.
Qed.

(** White space around a string does not change what [trim] returns. *)
Lemma trim_surrounded before s after :
  all_whitespace before = true -> all_whitespace after = true ->
  trim (before +:+ s +:+ after) = trim s.
Proof.
  intros Hb Ha. unfold trim.
  rewrite trimStart_append, Hb, trimStart_append.
  destruct (all_whitespace s) eqn:Es.
  - by rewrite (trimStart_whitespace after Ha), (trimStart_whitespace s Es).
  - by apply trimEnd_append_whitespace.
Qed.

(** [trimStart] removes a prefix of white space, [trimEnd] a suffix. *)
Lemma trimStart_prefix s :
  exists w, all_whitespace w = true /\ s = w +:+ trimStart s.
Proof.
  induction s as [|c s (w & Hw & E)]; [by exists ""%string|].
  simpl. destruct (is_whitespace c) eqn:Ec.
  - exists (String c w). simpl. rewrite Ec, Hw. split; [done|].
    rewrite append_cons. by f_equal.
  - by exists ""%string.
Qed.

Lemma trimEnd_suffix s :
  exists w, all_whitespace w = true /\ s = trimEnd s +:+ w.
Proof.
  induction s as [|c s (w & Hw & E)]; [by exists ""%string|].
  simpl. destruct (trimEnd s) as [|k kept] eqn:Ek.
  - destruct (is_whitespace c) eqn:Ec.
    + exists (String c w). simpl. rewrite Ec, Hw. split; [done|].
      change (String c s = String c w). f_equal. exact E.
    + exists w. split; [done|]. rewrite append_cons. by f_equal.
  - exists w. split; [done|]. rewrite append_cons. by f_equal.
Qed.

(** What [trim] returns neither starts nor ends with white space. *)
Lemma trimEnd_last s :
  trimEnd (trimEnd s) = trimEnd s.
Proof.
  induction s as [|c s IH]; [done|]. simpl.
  destruct (trimEnd s) as [|k kept] eqn:Ek.
  - destruct (is_whitespace c) eqn:Ec; [done|]. simpl. by rewrite Ec.
  - change (trimEnd (String c (String k kept)))
      with (match trimEnd (String k kept) with
            | EmptyString => if is_whitespace c then EmptyString else String c EmptyString
            | kept' => String c kept'
            end).
    by rewrite IH.
Qed.

Lemma trim_first s c rest : trim s = String c rest -> is_whitespace c = false.
Proof.
  unfold trim.
  assert (forall t,
            (t = ""%string \/ (exists c' t', t = String c' t' /\ is_whitespace c' = false)) ->
            forall c rest, trimEnd t = String c rest -> is_whitespace c = false) as H.
  { intros t [-> | (c' & t' & -> & Hc')] c0 rest0; simpl; [done|].
    destruct (trimEnd t').
    - rewrite Hc'. by intros [= <- _].
    - by intros [= <- _]. }
  apply H. clear.
  induction s as [|c s IH]; [by left|]. simpl.
  destruct (is_whitespace c) eqn:Ec; [done|]. right. by exists c, s.
Qed.

End Trim.

(** C10. [validateDCZipCode] is total and tolerant of white space: it
    returns false for every input that is not a string, and for a string
    it returns true if and only if the string without its leading and
    trailing white space is one of the 40 listed D.C. zip codes; so a
    listed code surrounded by white space is accepted. *)
Theorem C10_validateDCZipCode_total_and_trimmed :
  (forall zipCode, (forall s, zipCode <> JsString s) -> validateDCZipCode zipCode = false) /\
  (forall s, validateDCZipCode (JsString s) = true <-> In (trim s) DC_ZIP_CODES) /\
  length DC_ZIP_CODES = 40%nat /\
  NoDup DC_ZIP_CODES /\
  size VALID_DC_ZIP_CODES = 40%nat /\
  (forall before zip after,
     In zip DC_ZIP_CODES ->
     all_whitespace before = true -> all_whitespace after = true ->
     validateDCZipCode (JsString (before +:+ zip +:+ after)) = true) /\
  (forall s, exists before after,
     all_whitespace before = true /\ all_whitespace after = true /\
     s = before +:+ trim s +:+ after /\
     (forall c rest, trim s = String c rest -> is_whitespace c = false) /\
     trimEnd (trim s) = trim s).
Proof.
  assert (NoDup DC_ZIP_CODES) as Hnodup.
  { apply (bool_decide_unpack _). vm_compute. exact I. }
  assert (forall s, validateDCZipCode (JsString s) = true <-> In (trim s) DC_ZIP_CODES) as Hiff.
  { intros s. simpl. rewrite bool_decide_eq_true. unfold VALID_DC_ZIP_CODES.
    by rewrite elem_of_list_to_set, list_elem_of_In. }
  split; [|split; [|split; [|split; [|split; [|split]]]]].
  - intros [] H; try done. by destruct (H s).
  - exact Hiff.
  - reflexivity.
  - exact Hnodup.
  - unfold VALID_DC_ZIP_CODES. by rewrite size_list_to_set.
  - intros before zip after Hzip Hb Ha. apply Hiff.
    rewrite trim_surrounded by done.
    rewrite trim_listed; [done|].
    unfold VALID_DC_ZIP_CODES. by rewrite elem_of_list_to_set, list_elem_of_In.
  - intros s. unfold trim.
    destruct (trimStart_prefix s) as (before & Hb & Es).
    destruct (trimEnd_suffix (trimStart s)) as (after & Ha & Et).
    exists before, after. split; [done|]. split; [done|].
    split; [by rewrite <- Et|].
    split; [apply trim_first | apply trimEnd_last].
Qed.

(** A listed code between spaces; a number; a code that is not listed. *)
Lemma C10_witness :
  validateDCZipCode (JsString " 20001  ") = true
  /\ validateDCZipCode (JsInt 20001) = false
  /\ validateDCZipCode (JsString "99999") = false.
Proof.
  destruct C10_validateDCZipCode_total_and_trimmed as (Hnon & Hiff & _ & _ & _ & Hws & _).
  split; [|split].
  - apply (Hws " " "20001" "  ")%string; [simpl; tauto | reflexivity | reflexivity].
  - apply Hnon. discriminate.
  - destruct (validateDCZipCode (JsString "99999")) eqn:E; [|done].
    apply Hiff in E. vm_compute in E. intuition discriminate.
Defined.

(** ** Image resolver *)

Section Images.

Lemma hashString_nonneg str : 0 <= hashString str.
Proof. unfold hashString. lia. Qed.

(** A bucket of four queries always yields one of them. *)
Lemma pick_query_of_four a b c d hash :
  0 <= hash ->
  exists query, pick_query (Own [a; b; c; d]) hash = Some query /\ In query [a; b; c; d].
Proof.
  intros Hh. unfold pick_query.
  change (Z.of_nat (length [a; b; c; d])) with 4.
  assert (0 <= hash mod 4 < 4) as Hm by (apply Z.mod_pos_bound; lia).
  assert (hash mod 4 = 0 \/ hash mod 4 = 1 \/ hash mod 4 = 2 \/ hash mod 4 = 3)
    as [E | [E | [E | E]]] by lia; rewrite E;
    eexists; (split; [reflexivity|]); simpl; tauto.
Qed.

(** A cached URL stays in the cache through later calls. *)
Lemma generateImage_keeps svc glasses key url :
  cache svc !! key = Some url ->
  cache (snd (generateImage svc glasses)) !! key = Some url.
Proof.
  intros Hk. unfold generateImage.
  destruct (cache svc !! image_key glasses) eqn:Ec; [done|]. simpl.
  rewrite lookup_insert_ne; [done|]. intros <-. congruence.
Qed.

Lemma after_images_keeps items : forall svc key url,
  cache svc !! key = Some url ->
  cache (after_images svc items) !! key = Some url.
Proof.
  induction items as [|g items IH]; intros svc key url Hk; [done|].
  simpl. by apply IH, generateImage_keeps.
Qed.

(** After a call the cache holds the returned URL under the key of the
    item. *)
Lemma generateImage_cached svc glasses :
  cache (snd (generateImage svc glasses)) !! image_key glasses
  = Some (fst (generateImage svc glasses)).
Proof.
  unfold generateImage.
  destruct (cache svc !! image_key glasses) eqn:Ec; [done|]. simpl.
  by rewrite lookup_insert_eq.
Qed.

(** Whatever the cache of a service in use holds under a key is the URL
    built for an item it was asked to resolve, with that key. *)
Lemma in_use_on_cache P svc :
  in_use_on P svc ->
  forall key url,
    cache svc !! key = Some url ->
    exists g, P g /\ image_key g = key /\ url = build_image_url g.
Proof.
  induction 1 as [|svc glasses Hsvc IH Hp|svc Hsvc IH]; intros key url Hk.
  - simpl in Hk. by rewrite lookup_empty in Hk.
  - unfold generateImage in Hk.
    destruct (cache svc !! image_key glasses) eqn:Ec; [by apply IH|].
    simpl in Hk. destruct (decide (image_key glasses = key)) as [<- | Hne].
    + rewrite lookup_insert_eq in Hk. injection Hk as <-. by exists glasses.
    + rewrite lookup_insert_ne in Hk by done. by apply IH.
  - simpl in Hk. by rewrite lookup_empty in Hk.
Qed.

(** On items with distinct keys, the URL returned is the one built for
    the item, in every state of the service. *)
Lemma generateImage_in_use P svc glasses :
  distinct_keys P -> in_use_on P svc -> P glasses ->
  fst (generateImage svc glasses) = build_image_url glasses.
Proof.
  intros Hkeys Hsvc Hp. unfold generateImage.
  destruct (cache svc !! image_key glasses) as [cached|] eqn:Ec; [|done].
  destruct (in_use_on_cache P svc Hsvc _ _ Ec) as (g & Hg & Hkey & ->).
  simpl. by rewrite (Hkeys g glasses Hg Hp Hkey).
Qed.

End Images.

(** C8, as the code has it. On one image service, as long as
    [clearCache] is not called in between, a call with the same name,
    frame style and material as an earlier call yields the URL of the
    earlier call, whatever items were resolved in between. When no two
    items the service is asked to resolve share a cache key, the URL
    returned is [build_image_url], a function of the three properties and
    the static tables, in every state the service reaches through calls of
    [generateImage] and [clearCache]; so any two calls with identical
    properties yield the identical URL. Then the URL returned for a frame
    style that is not empty, is no key of the query table and names no
    member of [Object.prototype] takes its query from the default bucket,
    and the URL returned for an absent or empty frame style, resolved as
    "Classic", takes its query from the Classic bucket. *)
Theorem C8_image_url_stable_and_default_bucket
  (P : Glasses.t -> Prop) (svc : GlassesImageService) (glasses : Glasses.t) :
  distinct_keys P ->
  in_use_on P svc ->
  P glasses ->
  (forall any between,
     fst (generateImage (after_images (snd (generateImage any glasses)) between) glasses)
     = fst (generateImage any glasses)) /\
  fst (generateImage svc glasses) = build_image_url glasses /\
  (forall svc',
     in_use_on P svc' ->
     fst (generateImage svc' glasses) = fst (generateImage svc glasses)) /\
  (forall style,
     Glasses.frame_style glasses = Some style ->
     style <> ""%string ->
     assoc style queryMap = None ->
     ~ In style Object_prototype ->
     getGlassesSearchQueries style = Own queryMap_default /\
     url_from_bucket queryMap_default glasses (fst (generateImage svc glasses))) /\
  (Glasses.frame_style glasses = None \/ Glasses.frame_style glasses = Some ""%string ->
   url_from_bucket queryMap_Classic glasses (fst (generateImage svc glasses))).
Proof.
  intros Hkeys Hsvc Hp.
  pose proof (generateImage_in_use P svc glasses Hkeys Hsvc Hp) as Hurl.
  split; [|split; [|split; [|split]]].
  - intros any between.
    pose proof (generateImage_cached any glasses) as Hc.
    apply (after_images_keeps between) in Hc.
    unfold generateImage at 1. by rewrite Hc.
  - exact Hurl.
  - intros svc' Hsvc'.
    by rewrite Hurl, (generateImage_in_use P svc' glasses Hkeys Hsvc' Hp).
  - intros style Hs Hne Hown Hproto. rewrite Hurl.
    assert (getGlassesSearchQueries style = Own queryMap_default) as Hq.
    { unfold getGlassesSearchQueries, get_property. rewrite Hown.
      destruct (existsb (String.eqb style) Object_prototype) eqn:E; [|done].
      exfalso. apply Hproto. apply existsb_exists in E as (x & Hx & E).
      apply String.eqb_eq in E. by subst. }
    split; [done|].
    unfold build_image_url, url_from_bucket, image_hash.
    assert (string_or (Glasses.frame_style glasses) "Classic" = style) as ->.
    { rewrite Hs. simpl. destruct (String.eqb style "") eqn:E; [|done].
      by apply String.eqb_eq in E. }
    cbv zeta. rewrite Hq. unfold queryMap_default.
    destruct (pick_query_of_four "eyeglasses" "glasses frames" "spectacles" "optical glasses"
                _ (hashString_nonneg
                     (Glasses.name glasses +:+ "-" +:+ style +:+ "-" +:+ Glasses.material glasses)))
      as (query & -> & Hin).
    by exists query.
  - intros Hs. rewrite Hurl.
    unfold build_image_url, url_from_bucket, image_hash.
    assert (string_or (Glasses.frame_style glasses) "Classic" = "Classic"%string) as ->.
    { by destruct Hs as [-> | ->]. }
    cbv zeta.
    change (getGlassesSearchQueries "Classic")
      with (Own ["classic glasses"; "traditional eyeglasses"; "timeless frames";
                 "vintage glasses"]%string).
    destruct (pick_query_of_four "classic glasses" "traditional eyeglasses" "timeless frames"
                "vintage glasses"
                _ (hashString_nonneg
                     (Glasses.name glasses +:+ "-" +:+ "Classic" +:+ "-" +:+ Glasses.material glasses)))
      as (query & -> & Hin).
    by exists query.
Qed.

(** The items Felix and Hardy of the catalog have different keys. Felix
    is resolved, the cache is cleared, Hardy is resolved, and Felix is
    resolved again: the URL is the one of the first call. The frame style
    "square" of Felix is no key of the query table, whose keys are
    capitalised, so the URL has a query of the default bucket. *)
Lemma C8_witness :
  let felix := Glasses.mk "Felix" (Some "square") "Acetate" in
  let hardy := Glasses.mk "Hardy" (Some "rectangular") "Acetate" in
  let P := fun g => g = felix \/ g = hardy in
  let svc :=
    snd (generateImage
           (clearImageCache (snd (generateImage new_GlassesImageService felix))) hardy) in
  (distinct_keys P /\ in_use_on P svc /\ P felix)
  /\ fst (generateImage svc felix) = fst (generateImage new_GlassesImageService felix)
  /\ url_from_bucket queryMap_default felix (fst (generateImage svc felix)).
Proof.
  intros felix hardy P svc.
  assert (distinct_keys P) as Hkeys.
  { intros a b [-> | ->] [-> | ->] Hkey; first [reflexivity | discriminate Hkey]. }
  assert (in_use_on P svc) as Hsvc.
  { apply in_use_generateImage; [|by right].
    apply in_use_clearCache, in_use_generateImage; [apply in_use_new | by left]. }
  assert (P felix) as Hp by (by left).
  destruct (C8_image_url_stable_and_default_bucket P svc felix Hkeys Hsvc Hp)
    as (_ & _ & Hsame & Hdefault & _).
  split; [split; [exact Hkeys | split; [exact Hsvc | exact Hp]]|].
  split; [symmetry; apply Hsame, in_use_new|].
  apply (Hdefault "square"%string); [reflexivity | discriminate | reflexivity |].
  simpl. intros H.
  repeat (destruct H as [H | H]; [discriminate H|]). destruct H.
Defined.

(** C8 as stated fails, in both parts. The empty frame style is no key
    of the query table, and the resolver does not fall back to the default
    bucket for it: on a new service the query of the URL is "traditional
    eyeglasses", of the Classic bucket. And the URL is no function of the
    three properties: two items share the cache key x-Round-Round-m, and
    on one service the first of them gets a query of the default bucket,
    and after [clearCache] and a call on the other, a query of the Round
    bucket. *)
Lemma C8_counterexample :
  let glasses := Glasses.mk "Felix" (Some "") "Acetate" in
  let url := fst (generateImage new_GlassesImageService glasses) in
  let a := Glasses.mk "x" (Some "Round-Round") "m" in
  let b := Glasses.mk "x-Round" (Some "Round") "m" in
  let first := generateImage new_GlassesImageService a in
  let other := generateImage (clearImageCache (snd first)) b in
  let second := generateImage (snd other) a in
  assoc "" queryMap = None
  /\ url = "https://source.unsplash.com/768x512/?traditional%20eyeglasses&773"%string
  /\ ~ url_from_bucket queryMap_default glasses url
  /\ fst first = "https://source.unsplash.com/768x512/?spectacles&282"%string
  /\ fst second = "https://source.unsplash.com/768x512/?circular%20glasses&282"%string.
Proof.
  split; [reflexivity|]. split; [vm_compute; reflexivity|].
  split; [|split; vm_compute; reflexivity].
  intros (query & Hin & Hurl). vm_compute in Hurl.
  simpl in Hin. destruct Hin as [<- | [<- | [<- | [<- | []]]]];
    vm_compute in Hurl; discriminate Hurl.
Qed.

(** ** Catalog ownership *)

Section Ownership.

Variable glassesData : list GlassesItem.t.

Lemma alloc_fresh st a :
  Heap.arrays st !! fst (Heap.alloc st a) = None.
Proof.
  unfold Heap.alloc. simpl. apply not_elem_of_dom. apply is_fresh.
Qed.

Lemma alloc_intact st a :
  catalog_intact glassesData st ->
  catalog_intact glassesData (snd (Heap.alloc st a))
  /\ fst (Heap.alloc st a) <> Heap.glassesData_ref st
  /\ Heap.arrays (snd (Heap.alloc st a)) !! fst (Heap.alloc st a) = Some a.
Proof.
  intros [Hc Hh].
  assert (fst (Heap.alloc st a) <> Heap.glassesData_ref st) as Hne.
  { intros E. pose proof (alloc_fresh st a) as Hf. rewrite E in Hf. congruence. }
  unfold catalog_intact, Heap.alloc in *. simpl in *.
  split; [split; [|done] |split; [done|]].
  - by rewrite lookup_insert_ne.
  - by rewrite lookup_insert_eq.
Qed.

Lemma write_intact st l f :
  l <> Heap.glassesData_ref st ->
  catalog_intact glassesData st ->
  catalog_intact glassesData (Heap.write st l f).
Proof.
  intros Hne [Hc Hh]. unfold Heap.write.
  destruct (Heap.arrays st !! l) as [a|]; [|done].
  destruct (Heap.frozen a); [done|].
  split; [|done]. simpl. by rewrite lookup_insert_ne.
Qed.

Lemma hand_out_intact st l :
  l <> Heap.glassesData_ref st ->
  catalog_intact glassesData st ->
  catalog_intact glassesData (Heap.hand_out st l).
Proof.
  intros Hne [Hc Hh]. split; [done|]. simpl.
  intros [E%elem_of_singleton | H]%elem_of_union; [congruence | done].
Qed.

Lemma read_alloc st a :
  Heap.read (snd (Heap.alloc st a)) (fst (Heap.alloc st a)) = Heap.elements a.
Proof. unfold Heap.read, Heap.alloc. simpl. by rewrite lookup_insert_eq. Qed.

Lemma read_catalog st :
  catalog_intact glassesData st -> Heap.read st (Heap.glassesData_ref st) = glassesData.
Proof. intros [Hc _]. unfold Heap.read. by rewrite Hc. Qed.

(** A new array that is handed to the caller: the catalog stays intact
    and the caller holds a reference to the new array only. *)
Lemma alloc_hand_out st a :
  catalog_intact glassesData st ->
  let l := fst (Heap.alloc st a) in
  let st' := Heap.hand_out (snd (Heap.alloc st a)) l in
  catalog_intact glassesData st' /\ new_array st st' l /\ Heap.arrays st' !! l = Some a.
Proof.
  intros Hc. destruct (alloc_intact st a Hc) as (Hc1 & Hne & Hl).
  pose proof (alloc_fresh st a) as Hf.
  split; [|split].
  - by apply hand_out_intact.
  - unfold new_array. split; [done|]. split; [|done].
    simpl. apply elem_of_union_l. by apply elem_of_singleton.
  - done.
Qed.

(** [getAllGlasses] returns a new array with the elements of the catalog. *)
Lemma getAllGlasses_copy st l st' :
  catalog_intact glassesData st ->
  Heap.getAllGlasses st = (l, st') ->
  catalog_intact glassesData st' /\ new_array st st' l /\ Heap.read st' l = glassesData.
Proof.
  intros Hc. unfold Heap.getAllGlasses.
  set (a := Heap.mkArray _ false).
  destruct (alloc_hand_out st a Hc) as (Hc' & Hnew & Hl).
  destruct (Heap.alloc st a) as [l0 st0]. simpl in *.
  intros [= <- <-]. split; [done|]. split; [done|].
  unfold Heap.read at 1. simpl. rewrite Hl. unfold a. simpl. by apply read_catalog.
Qed.

(** [getGlassesByPriceRange] returns a new array with the catalog items
    of the range, or throws and changes nothing. *)
Lemma getGlassesByPriceRange_copy st minPrice maxPrice result st' :
  catalog_intact glassesData st ->
  Heap.getGlassesByPriceRange st minPrice maxPrice = (result, st') ->
  catalog_intact glassesData st' /\
  forall l,
    result = Return l ->
    new_array st st' l /\
    Heap.read st' l
    = List.filter (within_budget (Some minPrice) (Some maxPrice)) glassesData.
Proof.
  intros Hc. unfold Heap.getGlassesByPriceRange.
  destruct ((minPrice <? 0) || (maxPrice <? minPrice)).
  { intros [= <- <-]. by split. }
  set (a := Heap.mkArray _ false).
  destruct (alloc_hand_out st a Hc) as (Hc' & Hnew & Hl).
  destruct (Heap.alloc st a) as [l0 st0]. simpl in *.
  intros [= <- <-]. split; [done|]. intros l [= <-]. split; [done|].
  unfold Heap.read at 1. simpl. rewrite Hl. unfold a. simpl. by rewrite read_catalog.
Qed.

(** [getGlassesByFrameStyle] returns a new array: a copy of the catalog
    for "all", the items of the style otherwise; or throws and changes
    nothing. *)
Lemma getGlassesByFrameStyle_copy st frameStyle result st' :
  catalog_intact glassesData st ->
  Heap.getGlassesByFrameStyle st frameStyle = (result, st') ->
  catalog_intact glassesData st' /\
  forall l,
    result = Return l ->
    new_array st st' l /\
    exists style,
      frameStyle = JsString style /\
      Heap.read st' l
      = if String.eqb style "all" then glassesData
        else List.filter (same_frame_style style) glassesData.
Proof.
  intros Hc. unfold Heap.getGlassesByFrameStyle.
  destruct frameStyle as [| |style| |]; try (intros [= <- <-]; by split).
  destruct (String.eqb style "all") eqn:Eall.
  - destruct (Heap.getAllGlasses st) as [l0 st0] eqn:Eg.
    destruct (getAllGlasses_copy st l0 st0 Hc Eg) as (Hc' & Hnew & Hr).
    intros [= <- <-]. split; [done|]. intros l [= <-]. split; [done|].
    exists style. split; [done|]. by rewrite Eall.
  - set (a := Heap.mkArray _ false).
    destruct (alloc_hand_out st a Hc) as (Hc' & Hnew & Hl).
    destruct (Heap.alloc st a) as [l0 st0]. simpl in *.
    intros [= <- <-]. split; [done|]. intros l [= <-]. split; [done|].
    exists style. split; [done|]. rewrite Eall.
    unfold Heap.read at 1. simpl. rewrite Hl. unfold a. simpl. by rewrite read_catalog.
Qed.

Lemma alloc_lookup_ne st a l :
  l <> fst (Heap.alloc st a) ->
  Heap.arrays (snd (Heap.alloc st a)) !! l = Heap.arrays st !! l.
Proof. intros Hne. unfold Heap.alloc in *. simpl in *. by rewrite lookup_insert_ne. Qed.

Lemma alloc_none st a l :
  Heap.arrays (snd (Heap.alloc st a)) !! l = None -> Heap.arrays st !! l = None.
Proof.
  unfold Heap.alloc. simpl. intros H.
  destruct (decide (fresh (dom (Heap.arrays st)) = l)) as [<- | Hne].
  - by rewrite lookup_insert_eq in H.
  - by rewrite lookup_insert_ne in H.
Qed.

Lemma write_none st l f l' :
  Heap.arrays (Heap.write st l f) !! l' = None -> Heap.arrays st !! l' = None.
Proof.
  unfold Heap.write.
  destruct (Heap.arrays st !! l) as [a|] eqn:El; [|done].
  destruct (Heap.frozen a); [done|]. simpl. intros H.
  destruct (decide (l = l')) as [<- | Hne].
  - by rewrite lookup_insert_eq in H.
  - by rewrite lookup_insert_ne in H.
Qed.

Lemma write_lookup st l f xs :
  Heap.arrays st !! l = Some (Heap.mkArray xs false) ->
  Heap.arrays (Heap.write st l f) !! l = Some (Heap.mkArray (f xs) false).
Proof.
  intros El. unfold Heap.write. rewrite El. simpl. by rewrite lookup_insert_eq.
Qed.

(** The arrays of a recommendation: the catalog stays intact, the two
    arrays of the result are new and frozen, and they hold the suitable
    glasses and the first ten of them. *)
Lemma recommendation_arrays_copy st budgetMin budgetMax top all st' :
  catalog_intact glassesData st ->
  Heap.recommendation_arrays st budgetMin budgetMax = ((top, all), st') ->
  catalog_intact glassesData st' /\
  new_array st st' top /\ new_array st st' all /\
  Heap.arrays st' !! all
  = Some (Heap.mkArray (suitableGlasses glassesData budgetMin budgetMax) true) /\
  Heap.arrays st' !! top
  = Some (Heap.mkArray (take 10 (suitableGlasses glassesData budgetMin budgetMax)) true).
Proof.
  intros Hc. unfold Heap.recommendation_arrays.
  rewrite (read_catalog st Hc).
  set (a1 := Heap.mkArray _ false).
  destruct (alloc_intact st a1 Hc) as (Hc1 & Hne1 & Hl1).
  pose proof (alloc_none st a1) as Hnone1.
  destruct (Heap.alloc st a1) as [l1 st1] eqn:E1. simpl in Hc1, Hne1, Hl1, Hnone1.
  assert (Heap.glassesData_ref st1 = Heap.glassesData_ref st) as R1.
  { unfold Heap.alloc in E1. by injection E1 as _ <-. }
  pose proof (write_intact st1 l1 (sort by_price) ltac:(by rewrite R1) Hc1) as Hc2.
  pose proof (write_lookup st1 l1 (sort by_price) _ Hl1) as Hl2.
  pose proof (write_none st1 l1 (sort by_price)) as Hnone2.
  set (st2 := Heap.write st1 l1 (sort by_price)) in *.
  assert (Heap.glassesData_ref st2 = Heap.glassesData_ref st) as R2.
  { unfold st2, Heap.write. rewrite Hl1. simpl. done. }
  assert (Heap.read st2 l1 = suitableGlasses glassesData budgetMin budgetMax) as Hread2.
  { unfold Heap.read. by rewrite Hl2. }
  rewrite Hread2.
  set (a2 := Heap.mkArray (take 10 _) true).
  destruct (alloc_intact st2 a2 Hc2) as (Hc3 & Hne3 & Hl3).
  pose proof (alloc_none st2 a2) as Hnone3.
  pose proof (alloc_lookup_ne st2 a2 l1) as Hkeep3.
  pose proof (alloc_fresh st2 a2) as Hf3.
  destruct (Heap.alloc st2 a2) as [l3 st3] eqn:E3. simpl in Hc3, Hne3, Hl3, Hnone3, Hkeep3, Hf3.
  assert (Heap.glassesData_ref st3 = Heap.glassesData_ref st) as R3.
  { unfold Heap.alloc in E3. injection E3 as _ <-. exact R2. }
  assert (Heap.read st3 l1 = suitableGlasses glassesData budgetMin budgetMax) as Hread3.
  { unfold Heap.read. rewrite Hkeep3; [by rewrite Hl2 | congruence]. }
  rewrite Hread3.
  set (a4 := Heap.mkArray _ true).
  destruct (alloc_intact st3 a4 Hc3) as (Hc4 & Hne4 & Hl4).
  pose proof (alloc_none st3 a4) as Hnone4.
  pose proof (alloc_lookup_ne st3 a4 l3) as Hkeep4.
  pose proof (alloc_fresh st3 a4) as Hf4.
  destruct (Heap.alloc st3 a4) as [l4 st4] eqn:E4. simpl in Hc4, Hne4, Hl4, Hnone4, Hkeep4, Hf4.
  assert (Heap.glassesData_ref st4 = Heap.glassesData_ref st) as R4.
  { unfold Heap.alloc in E4. injection E4 as _ <-. exact R3. }
  intros [= <- <- <-].
  split; [|split; [|split; [|split]]].
  - apply hand_out_intact; [simpl; congruence|].
    apply hand_out_intact; [congruence | done].
  - unfold new_array. simpl. split; [by apply Hnone1, Hnone2|].
    split; [set_solver | congruence].
  - unfold new_array. simpl. split; [by apply Hnone1, Hnone2, Hnone3|].
    split; [set_solver | congruence].
  - simpl. exact Hl4.
  - simpl. rewrite Hkeep4; [exact Hl3 | congruence].
Qed.

(** A write of a caller leaves the catalog intact: the caller has no
    reference to its array. *)
Lemma caller_write_intact st l f :
  catalog_intact glassesData st ->
  catalog_intact glassesData (Heap.caller_write st l f).
Proof.
  intros Hc. unfold Heap.caller_write. case_bool_decide as Hl; [|done].
  apply write_intact; [|done]. intros ->. by destruct Hc.
Qed.

(** The catalog is intact in every state of the service. *)
Lemma reachable_catalog_intact st :
  Heap.reachable glassesData st -> catalog_intact glassesData st.
Proof.
  induction 1 as [| st _ IH | st lo hi _ IH | st style _ IH | st lo hi _ IH
                  | st _ IH | st _ IH | st l f _ IH].
  - split; [|set_solver]. unfold Heap.new_service. simpl. by rewrite lookup_singleton_eq.
  - destruct (Heap.getAllGlasses st) as [l st'] eqn:E.
    by destruct (getAllGlasses_copy st l st' IH E).
  - destruct (Heap.getGlassesByPriceRange st lo hi) as [r st'] eqn:E.
    by destruct (getGlassesByPriceRange_copy st lo hi r st' IH E).
  - destruct (Heap.getGlassesByFrameStyle st style) as [r st'] eqn:E.
    by destruct (getGlassesByFrameStyle_copy st style r st' IH E).
  - destruct (Heap.recommendation_arrays st lo hi) as [[top all] st'] eqn:E.
    by destruct (recommendation_arrays_copy st lo hi top all st' IH E).
  - done.
  - done.
  - by apply caller_write_intact.
Qed.

Lemma write_ref st l f :
  Heap.glassesData_ref (Heap.write st l f) = Heap.glassesData_ref st.
Proof.
  unfold Heap.write. destruct (Heap.arrays st !! l) as [a|]; [|done].
  by destruct (Heap.frozen a).
Qed.

(** [this._glassesData] is never assigned again. *)
Lemma reachable_ref st :
  Heap.reachable glassesData st ->
  Heap.glassesData_ref st = Heap.glassesData_ref (Heap.new_service glassesData).
Proof.
  induction 1 as [| st _ IH | st lo hi _ IH | st style _ IH | st lo hi _ IH
                  | st _ IH | st _ IH | st l f _ IH]; [done | rewrite <- IH ..].
  - reflexivity.
  - unfold Heap.getGlassesByPriceRange.
    by destruct ((lo <? 0) || (hi <? lo)).
  - unfold Heap.getGlassesByFrameStyle.
    destruct style as [| |style| |]; try done.
    by destruct (String.eqb style "all").
  - unfold Heap.recommendation_arrays. simpl.
    by rewrite write_ref.
  - reflexivity.
  - reflexivity.
  - unfold Heap.caller_write. case_bool_decide; [|done].
    apply write_ref.
Qed.

End Ownership.

(** C7. The catalog is made once, by the constructor, and stays as it
    was made. In every state of the service, through any calls of the
    operations and any writes of the callers to the arrays they were
    given: the array behind [this._glassesData] holds the catalog of the
    construction, [this._glassesData] is the reference of the
    construction, and no caller holds it. Each read accessor returns a
    reference to an array made by the call, with the elements the
    accessor promises; the two arrays of a recommendation are new and
    frozen. The operations that make no array of items return a service
    with the same catalog. *)
Theorem C7_catalog_never_mutated (glassesData : list GlassesItem.t) (st : Heap.State) :
  Heap.reachable glassesData st ->
  (Heap.read st (Heap.glassesData_ref st) = glassesData /\
   Heap.glassesData_ref st = Heap.glassesData_ref (Heap.new_service glassesData) /\
   Heap.glassesData_ref st ∉ Heap.handed_out st) /\
  (forall l st',
     Heap.getAllGlasses st = (l, st') ->
     new_array st st' l /\ Heap.read st' l = glassesData) /\
  (forall minPrice maxPrice l st',
     Heap.getGlassesByPriceRange st minPrice maxPrice = (Return l, st') ->
     new_array st st' l /\
     forall s, _glassesData s = glassesData ->
       getGlassesByPriceRange s minPrice maxPrice = Return (Heap.read st' l)) /\
  (forall frameStyle l st',
     Heap.getGlassesByFrameStyle st frameStyle = (Return l, st') ->
     new_array st st' l /\
     forall s, _glassesData s = glassesData ->
       getGlassesByFrameStyle s frameStyle = Return (Heap.read st' l)) /\
  (forall budgetMin budgetMax top all st',
     Heap.recommendation_arrays st budgetMin budgetMax = ((top, all), st') ->
     new_array st st' top /\ new_array st st' all /\
     Heap.arrays st' !! all
     = Some (Heap.mkArray (suitableGlasses glassesData budgetMin budgetMax) true) /\
     Heap.arrays st' !! top
     = Some (Heap.mkArray (take 10 (suitableGlasses glassesData budgetMin budgetMax)) true)) /\
  (forall l f,
     Heap.read (Heap.caller_write st l f) (Heap.glassesData_ref st) = glassesData) /\
  (forall s now householdSize annualIncome zipCode,
     _glassesData (snd (assessEligibility now s householdSize annualIncome zipCode))
     = _glassesData s) /\
  (forall s now e,
     _glassesData (snd (getPersonalizedRecommendations now s e)) = _glassesData s) /\
  (forall s, _glassesData (clearCache s) = _glassesData s).
Proof.
  intros Hreach.
  pose proof (reachable_catalog_intact glassesData st Hreach) as Hc.
  split; [|split; [|split; [|split; [|split; [|split; [|split; [|split]]]]]]].
  - split; [by apply read_catalog|]. split; [by apply reachable_ref | by destruct Hc].
  - intros l st' E. by destruct (getAllGlasses_copy glassesData st l st' Hc E) as (_ & ? & ?).
  - intros lo hi l st' E.
    destruct (getGlassesByPriceRange_copy glassesData st lo hi _ st' Hc E) as (_ & H).
    destruct (H l eq_refl) as [Hnew Hr]. split; [done|].
    intros s Hs. unfold getGlassesByPriceRange. rewrite Hs, Hr.
    unfold Heap.getGlassesByPriceRange in E.
    by destruct ((lo <? 0) || (hi <? lo)).
  - intros style l st' E.
    destruct (getGlassesByFrameStyle_copy glassesData st style _ st' Hc E) as (_ & H).
    destruct (H l eq_refl) as (Hnew & style' & -> & Hr). split; [done|].
    intros s Hs. unfold getGlassesByFrameStyle, getAllGlasses. rewrite Hs, Hr.
    by destruct (String.eqb style' "all").
  - intros lo hi top all st' E.
    by destruct (recommendation_arrays_copy glassesData st lo hi top all st' Hc E)
      as (_ & ? & ? & ? & ?).
  - intros l f.
    pose proof (caller_write_intact glassesData st l f Hc) as Hw.
    apply read_catalog in Hw.
    replace (Heap.glassesData_ref st) with (Heap.glassesData_ref (Heap.caller_write st l f));
      [done|].
    unfold Heap.caller_write. case_bool_decide; [apply write_ref | done].
  - intros s now h i z. by destruct (assessEligibility_frame now s h i z).
  - intros s now e. by destruct (getPersonalizedRecommendations_frame now s e).
  - done.
Qed.

(** The catalog of the source after [getAllGlasses()] and a caller
    emptying the array it got: the catalog still has its eight items. *)
Lemma C7_witness :
  let st := Heap.new_service (catalog_of rawData) in
  let copy := fst (Heap.getAllGlasses st) in
  let st' := Heap.caller_write (snd (Heap.getAllGlasses st)) copy (fun _ => []) in
  Heap.reachable (catalog_of rawData) st'
  /\ Heap.read st' copy = []
  /\ Heap.read st' (Heap.glassesData_ref st') = catalog_of rawData
  /\ length (catalog_of rawData) = 8%nat.
Proof.
  intros st copy st'.
  assert (Heap.reachable (catalog_of rawData) st') as Hr.
  { apply Heap.after_caller_write, Heap.after_getAllGlasses, Heap.after_new. }
  split; [exact Hr|].
  destruct (C7_catalog_never_mutated (catalog_of rawData) st' Hr) as ((Hcat & _ & _) & _).
  split; [|split; [exact Hcat | reflexivity]].
  vm_compute. reflexivity.
Defined.

(** ** Worked cases *)

Section WorkedCases.

Let now : string := "2024-01-01T00:00:00.000Z".
Let service : GlassesService := mkService (catalog_of rawData) _initializeDCResources ∅.

(** The constructor builds the catalog of eight items and an empty cache. *)
Example constructor_builds_catalog :
  new_GlassesService (fun _ => now) = Return service
  /\ length (_glassesData service) = 8%nat.
Proof. split; reflexivity. Qed.

(** An income at the limit of a household of four is medicaid_eligible;
    one dollar more is low_income_gap. *)
Example income_at_the_limit :
  exists e s',
    assessEligibility now service (JsInt 4) (JsInt 43056) (JsString "20001")
    = (Return (VEligibility e), s')
    /\ Eligibility.tier e = "medicaid_eligible"%string
    /\ Eligibility.budgetRange e = [0; 50]
    /\ Eligibility.medicaidLimit e = Some 43056
    /\ length (Eligibility.resources e) = 6%nat.
Proof. eexists _, _. vm_compute. repeat split. Qed.

Example income_above_the_limit :
  exists e s',
    assessEligibility now service (JsInt 4) (JsInt 43057) (JsString "20001")
    = (Return (VEligibility e), s')
    /\ Eligibility.tier e = "low_income_gap"%string
    /\ Eligibility.budgetRange e = [0; 100]
    /\ length (Eligibility.resources e) = 4%nat.
Proof. eexists _, _. vm_compute. repeat split. Qed.

(** Household sizes above eight use the limit of eight. *)
Example household_of_fifteen :
  TierResult.medicaidLimit (_determineTier 0 15) = Some 72754.
Proof. reflexivity. Qed.

(** All three inputs refused: one error with the three messages. *)
Example three_inputs_refused :
  fst (assessEligibility now service (JsInt 0) (JsInt (-1)) (JsString "99999"))
  = Throw (Error
      ("Household size must be between 1 and 15 people; "
       +:+ "Annual income must be a positive number; "
       +:+ "Invalid D.C. zip code: 99999. Must be a valid D.C. zip code (e.g., 20001, 20009, 20036)")).
Proof. vm_compute. reflexivity. Qed.

(** The cache is read before the inputs are validated, under a key made
    of their texts: after [assessEligibility(1, 0, "20001")], the call
    [assessEligibility("1", 0, "20001")], whose household size is a
    string, is answered from the cache, while a new service refuses it. *)
Example text_of_a_valid_input_served_from_cache :
  let s1 := snd (assessEligibility now service (JsInt 1) (JsInt 0) (JsString "20001")) in
  fst (assessEligibility now s1 (JsString "1") (JsInt 0) (JsString "20001"))
  = fst (assessEligibility now service (JsInt 1) (JsInt 0) (JsString "20001"))
  /\ fst (assessEligibility now service (JsString "1") (JsInt 0) (JsString "20001"))
     = Throw (Error "Household size must be between 1 and 15 people").
Proof. split; vm_compute; reflexivity. Qed.

(** The budget of the moderate_income tier on the catalog of the source:
    the three items at 95, in catalog order. *)
Example moderate_income_on_the_catalog :
  exists r s',
    getPersonalizedRecommendations now service
      (Some (EligibilityArg.mk "moderate_income" "Moderate Income" (Some [50; 200])))
    = (Return (VRecommendations r), s')
    /\ map GlassesItem.name (Recommendations.allRecommendations r)
       = ["Felix"; "Hardy"; "Percey"; "Chamberlain"; "Rafael"]%string
    /\ Recommendations.budgetRange r = "$50-$200"%string.
Proof. eexists _, _. vm_compute. repeat split. Qed.

(** A frame style that names a member of [Object.prototype] finds that
    member in the query table, not the default bucket: the query of the
    URL is the text of [undefined]. *)
Example inherited_member_is_no_bucket :
  getGlassesSearchQueries "constructor" = Inherited "constructor"
  /\ fst (generateImage new_GlassesImageService
            (Glasses.mk "Felix" (Some "constructor") "Acetate"))
     = "https://source.unsplash.com/768x512/?undefined&637"%string.
Proof. split; vm_compute; reflexivity. Qed.

(** Two items share a cache key when a dash moves between name and frame
    style; the second one resolved gets the URL of the first. *)
Example dash_moves_between_name_and_style :
  let a := Glasses.mk "x" (Some "Round-Round") "m" in
  let b := Glasses.mk "x-Round" (Some "Round") "m" in
  image_key a = image_key b
  /\ fst (generateImage new_GlassesImageService a)
     = "https://source.unsplash.com/768x512/?spectacles&282"%string
  /\ fst (generateImage (snd (generateImage new_GlassesImageService b)) a)
     = "https://source.unsplash.com/768x512/?circular%20glasses&282"%string.
Proof. repeat split; vm_compute; reflexivity. Qed.

(** [handleError] files an error of the service under UNKNOWN_ERROR and
    a [ValidationError] under VALIDATION_ERROR. *)
Example handleError_codes :
  ErrorInfo.code (handleError (Error "Invalid eligibility data provided"))
  = "UNKNOWN_ERROR"%string
  /\ ErrorInfo.code (handleError (ValidationError "x" None)) = "VALIDATION_ERROR"%string
  /\ ErrorInfo.code (handleError (ServiceError "x" None)) = "SERVICE_ERROR"%string.
Proof. repeat split. Qed.

End WorkedCases.


(** * Further properties *)

(** ** The hash of the image service *)

Section Hash.

Lemma ToInt32_wraps z : wraps (ToInt32 z) z.
Proof.
  unfold wraps, ToInt32. exists (- ((z + 2 ^ 31) / 2 ^ 32)).
  pose proof (Z.div_mod (z + 2 ^ 31) (2 ^ 32) ltac:(lia)). lia.
Qed.

Lemma wraps_ToInt32 a b : wraps a b -> ToInt32 a = ToInt32 b.
Proof.
  intros [k ->]. unfold ToInt32.
  replace (b + k * 2 ^ 32 + 2 ^ 31) with (b + 2 ^ 31 + k * 2 ^ 32) by lia.
  by rewrite Z.mod_add by lia.
Qed.

Lemma ToInt32_range z : - 2 ^ 31 <= ToInt32 z < 2 ^ 31.
Proof.
  unfold ToInt32. pose proof (Z.mod_pos_bound (z + 2 ^ 31) (2 ^ 32) ltac:(lia)). lia.
Qed.

Lemma ToInt32_small z : - 2 ^ 31 <= z < 2 ^ 31 -> ToInt32 z = z.
Proof.
  intros Hz. unfold ToInt32. rewrite Z.mod_small by lia. lia.
Qed.

(** One round of the loop: [((hash << 5) - hash) + char], wrapped by
    [hash & hash], is [31 * hash + char] wrapped to 32 bits. *)
Lemma hash_round hash char :
  and_self ((shift_left_5 hash - hash) + char) = ToInt32 (31 * hash + char).
Proof.
  unfold and_self, shift_left_5. rewrite Z.land_diag, Z.shiftl_mul_pow2 by lia.
  apply wraps_ToInt32.
  destruct (ToInt32_wraps (ToInt32 hash * 2 ^ 5)) as [k1 E1].
  destruct (ToInt32_wraps hash) as [k2 E2].
  exists (k1 + 32 * k2). lia.
Qed.

Lemma polynomial_wraps str : forall a b, wraps a b -> wraps (polynomial str a) (polynomial str b).
Proof.
  induction str as [|c str IH]; intros a b Hab; [done|].
  simpl. apply IH. destruct Hab as [k ->]. exists (31 * k). lia.
Qed.

Lemma hash_from_polynomial str : forall hash,
  ToInt32 hash = hash ->
  hash_from str hash = ToInt32 (polynomial str hash).
Proof.
  induction str as [|c str IH]; intros hash Hh; [done|].
  simpl. rewrite hash_round.
  rewrite IH.
  - apply wraps_ToInt32, polynomial_wraps, ToInt32_wraps.
  - apply ToInt32_small, ToInt32_range.
Qed.

Lemma hashString_bounds str : 0 <= hashString str <= 2 ^ 31.
Proof.
  unfold hashString. rewrite hash_from_polynomial by done.
  pose proof (ToInt32_range (polynomial str 0)). lia.
Qed.

End Hash.

(** X1. [hashString] is the absolute value of the polynomial hash with
    base 31 over the character codes, wrapped to a signed 32-bit integer:
    the shift and the bitwise AND of the loop compute [31 * hash + char]
    modulo 2^32. Its value lies between 0 and 2^31, both included. It is
    not injective: "Aa" and "BB" have the same hash. *)
Theorem X1_hashString_is_wrapped_polynomial (str : string) :
  hashString str = Z.abs (ToInt32 (polynomial str 0))
  /\ 0 <= hashString str <= 2 ^ 31
  /\ (forall hash char,
        and_self ((shift_left_5 hash - hash) + char) = ToInt32 (31 * hash + char))
  /\ hashString "Aa" = hashString "BB".
Proof.
  split; [|split; [|split]].
  - unfold hashString. by rewrite hash_from_polynomial.
  - apply hashString_bounds.
  - apply hash_round.
  - reflexivity.
Qed.

(** ** Escaped queries *)

Section Escapes.

Lemma all_chars_append p a b :
  all_chars p (a +:+ b) = all_chars p a && all_chars p b.
Proof.
  induction a as [|c a IH]; [done|].
  rewrite append_cons. simpl. rewrite IH. by rewrite andb_assoc.
Qed.

Lemma encode_char_url_chars c : all_chars url_char (encode_char c) = true.
Proof. destruct c as [[] [] [] [] [] [] [] []]; reflexivity. Qed.

Lemma encode_string_url_chars s : all_chars url_char (encode_string s) = true.
Proof.
  induction s as [|c s IH]; [done|].
  simpl. by rewrite all_chars_append, encode_char_url_chars, IH.
Qed.

Lemma encode_string_unreserved s :
  all_chars unreserved s = true -> encode_string s = s.
Proof.
  induction s as [|c s IH]; [done|]. simpl.
  intros [Hc Hs]%andb_prop. unfold encode_char. rewrite Hc.
  rewrite append_cons. by rewrite (IH Hs).
Qed.

Lemma all_chars_In p s c :
  all_chars p s = true -> In c (list_ascii_of_string s) -> p c = true.
Proof.
  induction s as [|x s IH]; [done|]. simpl.
  intros [Hx Hs]%andb_prop [<- | Hin]; [done | by apply IH].
Qed.

End Escapes.

Section ImageUrls.

Lemma build_image_url_shape glasses : image_search_url (build_image_url glasses).
Proof.
  unfold build_image_url, image_search_url. cbv zeta.
  eexists _, _. split; [reflexivity|]. split.
  - destruct (pick_query _ _) as [q|]; [apply encode_string_url_chars | reflexivity].
  - apply Z.mod_pos_bound. lia.
Qed.

Lemma generateImage_keeps_shape svc glasses :
  image_cache_ok svc -> image_cache_ok (snd (generateImage svc glasses)).
Proof.
  intros Hok. unfold generateImage.
  destruct (cache svc !! image_key glasses) eqn:Ec; [done|]. simpl.
  intros key url. simpl. destruct (decide (image_key glasses = key)) as [<- | Hne].
  - rewrite lookup_insert_eq. intros [= <-]. apply build_image_url_shape.
  - rewrite lookup_insert_ne by done. apply Hok.
Qed.

Lemma after_images_shape items : forall svc,
  image_cache_ok svc -> image_cache_ok (after_images svc items).
Proof.
  induction items as [|g items IH]; intros svc Hok; [done|].
  simpl. by apply IH, generateImage_keeps_shape.
Qed.

End ImageUrls.

(** X2. Whatever items an image service has resolved since it was made,
    the URL [generateImage] yields, computed or taken from the cache, is
    the address of the image search followed by a query and a seed: the
    query holds only characters that stand for themselves in a URL and
    percent signs of escapes (no space, ampersand, question mark, hash
    sign, slash or equals sign), and the seed is a number from 0 to 999. *)
Theorem X2_image_url_well_formed (resolved : list Glasses.t) (glasses : Glasses.t) :
  exists query seed,
    fst (generateImage (after_images new_GlassesImageService resolved) glasses)
    = "https://source.unsplash.com/768x512/?" +:+ query +:+ "&" +:+ string_of_Z seed
    /\ 0 <= seed < 1000
    /\ all_chars url_char query = true
    /\ (forall c,
          In c (list_ascii_of_string query) ->
          ~ In c [" "; "&"; "?"; "#"; "/"; "="; "+"; "<"; ">"]%char).
Proof.
  assert (image_cache_ok (after_images new_GlassesImageService resolved)) as Hok.
  { apply after_images_shape. intros key url Hk. simpl in Hk.
    by rewrite lookup_empty in Hk. }
  apply (generateImage_keeps_shape _ glasses) in Hok.
  destruct (Hok _ _ (generateImage_cached _ glasses)) as (query & seed & E & Hall & Hseed).
  exists query, seed. split; [exact E|]. split; [exact Hseed|]. split; [exact Hall|].
  intros c Hin Hbad.
  pose proof (all_chars_In _ _ _ Hall Hin) as Hc.
  simpl in Hbad.
  repeat (destruct Hbad as [<- | Hbad]; [discriminate Hc|]). destruct Hbad.
Qed.

(** ** Photo searches *)

Section Photos.

Lemma rem_nonneg a b : 0 <= a -> 0 < b -> Z.rem a b = a mod b.
Proof. intros Ha Hb. apply Z.rem_mod_nonneg; lia. Qed.

(** For the hash [hashString] gives, which is not negative, the query
    picked by [getUnsplashGlassesPhoto] is the one [generateImage] picks. *)
Lemma query_at_pick_query queries hash :
  0 <= hash -> query_at queries hash = pick_query queries hash.
Proof.
  intros Hh. destruct queries as [l|n]; [|done].
  unfold query_at, pick_query, remainder.
  destruct l as [|q l]; [done|].
  set (len := Z.of_nat (length (q :: l))).
  assert (0 < len) as Hlen by (unfold len; simpl; lia).
  destruct (len =? 0) eqn:E; [lia|].
  rewrite rem_nonneg by lia.
  pose proof (Z.mod_pos_bound hash len Hlen).
  destruct (hash mod len <? 0) eqn:E2; [lia | done].
Qed.

(** No query of the query table names a member of [Object.prototype]. *)
Lemma queries_own :
  forallb
    (fun bucket =>
       forallb (fun query => negb (existsb (String.eqb query) Object_prototype)) bucket)
    (queryMap_default :: map snd queryMap) = true.
Proof. vm_compute. reflexivity. Qed.

Lemma assoc_In {A : Type} key (obj : list (string * A)) v :
  assoc key obj = Some v -> In (key, v) obj.
Proof.
  induction obj as [|[k x] obj IH]; [done|]. simpl.
  destruct (String.eqb k key) eqn:E.
  - intros [= <-]. apply String.eqb_eq in E. left. by subst.
  - intros H. right. by apply IH.
Qed.

Lemma photo_id_in_range query hash :
  0 <= hash ->
  match query with Some q => ~ In q Object_prototype | None => True end ->
  exists photoId,
    pexels_photo_id query hash = Some photoId /\ 1000000 <= photoId < 1650000.
Proof.
  intros Hh Hq. unfold pexels_photo_id.
  set (key := match query with Some q => q | None => "undefined"%string end).
  assert (~ In key Object_prototype) as Hkey.
  { unfold key. destruct query as [q|]; [done|].
    simpl. intros H. repeat (destruct H as [H | H]; [discriminate H|]). destruct H. }
  unfold get_property.
  destruct (assoc key photoIdRanges) as [[start range]|] eqn:Ea.
  - apply assoc_In in Ea. simpl in Ea.
    repeat (destruct Ea as [[= _ <- <-] | Ea];
            [unfold remainder; simpl; eexists; split; [reflexivity|];
             pose proof (Z.rem_bound_pos hash 50000 Hh ltac:(lia)); lia|]).
    destruct Ea.
  - destruct (existsb (String.eqb key) Object_prototype) eqn:E.
    + exfalso. apply Hkey. apply existsb_exists in E as (x & Hx & E).
      apply String.eqb_eq in E. by subst.
    + unfold remainder. simpl. eexists. split; [reflexivity|].
      pose proof (Z.rem_bound_pos hash 50000 Hh ltac:(lia)). lia.
Qed.

Lemma existsb_eqb_In key l :
  existsb (String.eqb key) l = false -> ~ In key l.
Proof.
  intros E Hin.
  assert (existsb (String.eqb key) l = true) as E'; [|congruence].
  apply existsb_exists. exists key. split; [done | apply String.eqb_refl].
Qed.

Lemma picked_query_own frameStyle hash :
  match pick_query (getGlassesSearchQueries frameStyle) hash with
  | Some q => ~ In q Object_prototype
  | None => True
  end.
Proof.
  assert (forall bucket, In bucket (queryMap_default :: map snd queryMap) ->
          match pick_query (Own bucket) hash with
          | Some q => ~ In q Object_prototype
          | None => True
          end) as Hall.
  { intros bucket Hin. pose proof queries_own as Hb.
    rewrite forallb_forall in Hb. specialize (Hb _ Hin).
    rewrite forallb_forall in Hb.
    unfold pick_query. destruct bucket as [|q0 bucket]; [done|].
    destruct ((q0 :: bucket) !! _) as [q|] eqn:El; [|done].
    apply list_elem_of_lookup_2, list_elem_of_In in El. specialize (Hb _ El).
    apply existsb_eqb_In. by destruct (existsb _ _). }
  unfold getGlassesSearchQueries, get_property.
  destruct (assoc frameStyle queryMap) as [bucket|] eqn:Ea.
  - apply Hall. right. apply assoc_In in Ea.
    change bucket with (snd (frameStyle, bucket)). by apply in_map.
  - destruct (existsb (String.eqb frameStyle) Object_prototype); [done|].
    apply Hall. by left.
Qed.

End Photos.

(** X3. The photo ids stay in the ranges the photo tables give: for a
    hash that is not negative and a query that names no member of
    [Object.prototype], the Pexels photo id lies from 1,000,000 to
    1,649,999, whether the query has a range of its own or falls under the
    default range; the image id of [createPicsumPlaceholder] lies from 200
    to 999. *)
Theorem X3_photo_ids_in_range (query : option string) (hash : Z) (name style : string) :
  0 <= hash ->
  match query with Some q => ~ In q Object_prototype | None => True end ->
  (exists photoId,
     pexels_photo_id query hash = Some photoId /\ 1000000 <= photoId < 1650000)
  /\ 200 <= picsum_image_id name style <= 999.
Proof.
  intros Hh Hq. split; [by apply photo_id_in_range|].
  unfold picsum_image_id. cbv zeta.
  pose proof (hashString_bounds (name +:+ "-" +:+ style)) as [H0 _].
  pose proof (Z.rem_bound_pos _ 800 H0 ltac:(lia)). lia.
Qed.

Lemma X3_witness :
  (0 <= 472526773 /\ ~ In "traditional eyeglasses"%string Object_prototype)
  /\ (exists photoId,
        pexels_photo_id (Some "traditional eyeglasses"%string) 472526773 = Some photoId
        /\ 1000000 <= photoId < 1650000)
  /\ 200 <= picsum_image_id "Felix" "square" <= 999.
Proof.
  assert (~ In "traditional eyeglasses"%string Object_prototype) as Hq.
  { simpl. intros H. repeat (destruct H as [H | H]; [discriminate H|]). destruct H. }
  split; [split; [lia | exact Hq]|].
  apply (X3_photo_ids_in_range (Some "traditional eyeglasses"%string) 472526773
           "Felix" "square" ltac:(lia) Hq).
Defined.

(** X4. [searchGlassesPhotos] on a frame style that is not empty: when
    the hash of the item is even it yields the very URL [generateImage]
    builds for the item; when the hash is odd it yields a Pexels URL whose
    photo id lies from 1,000,000 to 1,649,999. *)
Theorem X4_searchGlassesPhotos_by_parity (frameStyle name material : string) :
  frameStyle <> ""%string ->
  let glasses := Glasses.mk name (Some frameStyle) material in
  (Z.even (image_hash glasses) = true ->
   searchGlassesPhotos frameStyle name material = build_image_url glasses)
  /\ (Z.even (image_hash glasses) = false ->
      exists photoId,
        1000000 <= photoId < 1650000 /\
        searchGlassesPhotos frameStyle name material
        = "https://images.pexels.com/photos/" +:+ string_of_Z photoId
          +:+ "/pexels-photo-" +:+ string_of_Z photoId
          +:+ ".jpeg?auto=compress&cs=tinysrgb&w=768&h=512&fit=crop").
Proof.
  intros Hne glasses.
  assert (string_or (Some frameStyle) "Classic" = frameStyle) as Hstyle.
  { simpl. destruct (String.eqb frameStyle "") eqn:E; [|done].
    by apply String.eqb_eq in E. }
  unfold image_hash, glasses. cbn [Glasses.name Glasses.frame_style Glasses.material].
  rewrite Hstyle.
  set (hash := hashString (name +:+ "-" +:+ frameStyle +:+ "-" +:+ material)).
  pose proof (hashString_bounds (name +:+ "-" +:+ frameStyle +:+ "-" +:+ material)) as [H0 _].
  fold hash in H0.
  assert (Z.rem hash 2 = hash mod 2) as Hrem by (apply rem_nonneg; lia).
  unfold searchGlassesPhotos. cbv zeta. fold hash. rewrite Hrem.
  split; intros Heven.
  - rewrite Zmod_even, Heven. simpl.
    unfold getUnsplashGlassesPhoto, build_image_url. cbv zeta.
    cbn [Glasses.name Glasses.frame_style Glasses.material].
    rewrite Hstyle. fold hash.
    by rewrite query_at_pick_query, rem_nonneg by lia.
  - rewrite Zmod_even, Heven. simpl.
    unfold getPexelsGlassesPhoto. cbv zeta.
    destruct (photo_id_in_range (query_at (getGlassesSearchQueries frameStyle) hash) hash H0)
      as (photoId & -> & Hid).
    + rewrite query_at_pick_query by done. apply picked_query_own.
    + by exists photoId.
Qed.

Lemma X4_witness :
  "Square"%string <> ""%string
  /\ searchGlassesPhotos "Square" "Felix" "Acetate"
     = build_image_url (Glasses.mk "Felix" (Some "Square") "Acetate").
Proof.
  split; [discriminate|].
  apply (proj1 (X4_searchGlassesPhotos_by_parity "Square" "Felix" "Acetate"
                  ltac:(discriminate))).
  vm_compute. reflexivity.
Defined.

(** ** The catalog and its items *)

Section Identifiers.

Lemma normalize_char_id_char c : id_char (normalize_char c) = true.
Proof. destruct c as [[] [] [] [] [] [] [] []]; reflexivity. Qed.

Lemma normalize_char_idempotent c : normalize_char (normalize_char c) = normalize_char c.
Proof. destruct c as [[] [] [] [] [] [] [] []]; reflexivity. Qed.

Lemma normalize_id_chars str : all_chars id_char (normalize str) = true.
Proof.
  induction str as [|c str IH]; [done|].
  simpl. by rewrite normalize_char_id_char, IH.
Qed.

Lemma normalize_idempotent str : normalize (normalize str) = normalize str.
Proof.
  induction str as [|c str IH]; [done|].
  simpl. by rewrite normalize_char_idempotent, IH.
Qed.

Lemma normalize_append a b : normalize (a +:+ b) = normalize a +:+ normalize b.
Proof.
  induction a as [|c a IH]; [done|].
  rewrite append_cons. simpl. by rewrite IH, append_cons.
Qed.

Lemma append_length a b : String.length (a +:+ b) = (String.length a + String.length b)%nat.
Proof.
  induction a as [|c a IH]; [done|].
  rewrite append_cons. simpl. by rewrite IH.
Qed.

End Identifiers.

(** X5. The identifier [_generateId] makes of a site and a name holds
    lower-case letters, digits and dashes only. It is not unique to the
    pair: the normalized texts get the same identifier, and so does the
    pair with a part moved across the dash. *)
Theorem X5__generateId_shape_and_collisions (site name : string) :
  all_chars id_char (_generateId site name) = true
  /\ _generateId (normalize site) (normalize name) = _generateId site name
  /\ (forall part,
        _generateId (site +:+ "-" +:+ part) name
        = _generateId site (part +:+ "-" +:+ name)).
Proof.
  unfold _generateId. split; [|split].
  - rewrite !all_chars_append, !normalize_id_chars. reflexivity.
  - by rewrite !normalize_idempotent.
  - intros part. rewrite !normalize_append.
    change (normalize "-") with "-"%string.
    by rewrite !append_assoc.
Qed.

Section Items.

Lemma missing_none (required : list (string * bool)) :
  (0 <? length (map fst (List.filter snd required)))%nat = false <->
  Forall (fun field => snd field = false) required.
Proof.
  induction required as [|[field flag] required IH].
  - split; [constructor | done].
  - simpl. destruct flag; simpl.
    + split; [done | by inversion 1].
    + rewrite IH. split; [by constructor | by inversion 1].
Qed.

Lemma falsy_string_false x :
  falsy_string x = false -> exists s, x = Some s /\ s <> ""%string.
Proof.
  destruct x as [s|]; [|done]. simpl. intros E. exists s. split; [done|].
  intros ->. done.
Qed.

Lemma string_or_not_empty a b : b <> ""%string -> string_or a b <> ""%string.
Proof.
  intros Hb. destruct a as [s|]; [|done]. simpl.
  destruct (String.eqb s "") eqn:E; [done|].
  intros ->. done.
Qed.

(** [_createGlassesItem] on an entry: the item it builds of an
    acceptable entry, or the refusal of any other. *)
Lemma _createGlassesItem_cases now item :
  (acceptable item
   /\ exists site name numeric_price features frame_style material,
        RawItem.site item = Some site
        /\ RawItem.name item = Some name
        /\ RawItem.numeric_price item = Some numeric_price
        /\ RawItem.features item = Some features
        /\ RawItem.frame_style item = Some frame_style
        /\ RawItem.material item = Some material
        /\ 0 <= numeric_price
        /\ _createGlassesItem now item
           = Return (GlassesItem.mk site name numeric_price features
                       (string_or (RawItem.url item) "#") frame_style material
                       (_generateId site name)
                       (string_or (RawItem.price item) ("$" +:+ string_of_Z numeric_price))
                       (match RawItem.image_url item with
                        | Some u =>
                            if String.eqb u "" then _getDefaultImage frame_style else Own u
                        | None => _getDefaultImage frame_style
                        end)
                       now))
  \/ (~ acceptable item /\ exists text, _createGlassesItem now item = Throw (Error text)).
Proof.
  unfold _createGlassesItem. cbv zeta.
  match goal with |- context [(0 <? length (map fst (List.filter snd ?r)))%nat] =>
    pose proof (missing_none r) as Hm;
    destruct (0 <? length (map fst (List.filter snd r)))%nat end.
  - right. split; [|by eexists].
    intros (H1 & H2 & H3 & H4 & H5 & p & H6 & _).
    assert (false = true) as Hc; [|done]. symmetry. apply Hm.
    repeat constructor; simpl; try done.
    rewrite H6. by apply bool_decide_eq_false_2.
  - destruct Hm as [Hm _]. specialize (Hm eq_refl).
    repeat match goal with H : Forall _ (_ :: _) |- _ => inversion H; clear H; subst end.
    simpl in *.
    repeat match goal with
           | H : falsy_string ?x = false |- _ =>
               destruct (falsy_string_false x H) as (? & ? & ?); revert H
           end.
    intros.
    match goal with H : bool_decide _ = false |- _ => apply bool_decide_eq_false_1 in H end.
    destruct (RawItem.numeric_price item) as [p|] eqn:Ep; [|done].
    simpl. destruct (p <? 0) eqn:Eneg.
    + right. split; [|by eexists].
      intros (_ & _ & _ & _ & _ & p' & Hp' & Hp).
      rewrite Ep in Hp'. injection Hp' as <-. lia.
    + left. split.
      { unfold acceptable. repeat (split; [assumption|]).
        exists p. split; [exact Ep | lia]. }
      repeat match goal with H : ?l = Some _ |- context [?l] => rewrite H end.
      eexists _, _, p, _, _, _. repeat (split; [reflexivity|]). split; [lia | reflexivity].
Qed.

(** Whether [_createGlassesItem] returns, and the price of the item. *)
Lemma _createGlassesItem_acceptable now item :
  match _createGlassesItem now item with
  | Return g =>
      acceptable item
      /\ RawItem.numeric_price item = Some (GlassesItem.numeric_price g)
  | Throw e => ~ acceptable item
  end.
Proof.
  destruct (_createGlassesItem_cases now item)
    as [(Hacc & site & name & p & features & style & material & _ & _ & Hp & _ & _ & _ & _ & ->)
       | (Hnot & text & ->)]; [|done].
  by split.
Qed.

Lemma create_all_cases clock data : forall i,
  match create_all clock i data with
  | Return items =>
      Forall acceptable data
      /\ length items = length data
      /\ (forall k item, data !! k = Some item ->
            exists g, items !! k = Some g
                      /\ _createGlassesItem (clock (i + k)%nat) item = Return g)
  | Throw e =>
      exists k item,
        data !! k = Some item
        /\ _createGlassesItem (clock (i + k)%nat) item = Throw e
        /\ Forall acceptable (take k data)
  end.
Proof.
  induction data as [|item data IH]; intros i.
  - simpl. split; [constructor | split; [done | by intros k item; rewrite lookup_nil]].
  - simpl. pose proof (_createGlassesItem_acceptable (clock i) item) as Hitem.
    destruct (_createGlassesItem (clock i) item) as [g|e] eqn:Eg.
    + specialize (IH (S i)). destruct (create_all clock (S i) data) as [items|e].
      * destruct IH as (Hall & Hlen & Hk). destruct Hitem as [Hacc _].
        split; [by constructor|]. split; [simpl; by rewrite Hlen|].
        intros [|k] item' Hl; simpl in Hl.
        -- injection Hl as <-. exists g. by rewrite Nat.add_0_r.
        -- destruct (Hk k item' Hl) as (g' & Hg' & Hc). exists g'.
           split; [done|]. by rewrite <- Nat.add_succ_comm.
      * destruct IH as (k & item' & Hl & Hc & Hbefore).
        exists (S k), item'. split; [done|].
        split; [by rewrite <- Nat.add_succ_comm|].
        simpl. constructor; [by destruct Hitem | done].
    + exists 0%nat, item. split; [done|]. rewrite Nat.add_0_r.
      split; [done | constructor].
Qed.

End Items.

(** X6. [_createGlassesItem] returns an item exactly for an entry that
    has the six required properties and no negative price. The item keeps
    the six properties, gets the identifier of its site and name, a link
    and a price text that are not empty, and the reading of the clock. Any
    other entry is refused with a plain [Error]. *)
Theorem X6__createGlassesItem_accepts_exactly_acceptable (now : string) (item : RawItem.t) :
  match _createGlassesItem now item with
  | Return g =>
      acceptable item
      /\ RawItem.site item = Some (GlassesItem.site g)
      /\ RawItem.name item = Some (GlassesItem.name g)
      /\ RawItem.numeric_price item = Some (GlassesItem.numeric_price g)
      /\ RawItem.features item = Some (GlassesItem.features g)
      /\ RawItem.frame_style item = Some (GlassesItem.frame_style g)
      /\ RawItem.material item = Some (GlassesItem.material g)
      /\ GlassesItem.id g = _generateId (GlassesItem.site g) (GlassesItem.name g)
      /\ GlassesItem.url g <> ""%string
      /\ GlassesItem.price g <> ""%string
      /\ GlassesItem.created_at g = now
  | Throw e => ~ acceptable item /\ exists text, e = Error text
  end.
Proof.
  destruct (_createGlassesItem_cases now item)
    as [(Hacc & site & name & p & features & style & material
         & Hsite & Hname & Hp & Hfeatures & Hstyle & Hmaterial & Hpos & ->)
       | (Hnot & text & ->)].
  - cbn [GlassesItem.site GlassesItem.name GlassesItem.numeric_price GlassesItem.features
         GlassesItem.frame_style GlassesItem.material GlassesItem.id GlassesItem.url
         GlassesItem.price GlassesItem.created_at].
    split; [exact Hacc|].
    split; [exact Hsite|]. split; [exact Hname|]. split; [exact Hp|].
    split; [exact Hfeatures|]. split; [exact Hstyle|]. split; [exact Hmaterial|].
    split; [reflexivity|].
    split; [apply string_or_not_empty; discriminate|].
    split; [|reflexivity].
    apply string_or_not_empty. unfold String.append; fold String.append. discriminate.
  - split; [exact Hnot | by exists text].
Qed.

(** X7. Building a catalog is all or nothing. [create_all] returns only
    when every entry of the data set is acceptable, and then the catalog
    has one item per entry, in the order of the data set, each made at its
    own reading of the clock. Otherwise it throws what
    [_createGlassesItem] throws for the first entry that is not
    acceptable, and the constructor of the service throws the same. *)
Theorem X7_catalog_built_all_or_nothing (clock : nat -> string) (data : list RawItem.t) :
  match create_all clock 0 data with
  | Return items =>
      Forall acceptable data
      /\ length items = length data
      /\ (forall k item, data !! k = Some item ->
            exists g, items !! k = Some g
                      /\ _createGlassesItem (clock k) item = Return g)
  | Throw e =>
      exists k item,
        data !! k = Some item
        /\ ~ acceptable item
        /\ Forall acceptable (take k data)
        /\ _createGlassesItem (clock k) item = Throw e
  end
  /\ exists glassesData,
       new_GlassesService clock = Return (mkService glassesData _initializeDCResources ∅)
       /\ length glassesData = length rawData
       /\ Forall (fun g => 0 <= GlassesItem.numeric_price g) glassesData.
Proof.
  split.
  - pose proof (create_all_cases clock data 0%nat) as H.
    destruct (create_all clock 0 data) as [items|e]; [done|].
    destruct H as (k & item & Hl & Hc & Hbefore). exists k, item.
    simpl in Hc. split; [done|]. split; [|done].
    pose proof (_createGlassesItem_acceptable (clock k) item) as Hi.
    by rewrite Hc in Hi.
  - unfold new_GlassesService, _initializeGlassesData.
    pose proof (create_all_cases clock rawData 0%nat) as H.
    destruct (create_all clock 0 rawData) as [items|e].
    + destruct H as (Hall & Hlen & Hk). exists items.
      split; [done|]. split; [done|].
      apply Forall_lookup. intros k g Hg.
      assert (k < length rawData)%nat as Hlt.
      { rewrite <- Hlen. by eapply lookup_lt_Some. }
      destruct (lookup_lt_is_Some_2 rawData k Hlt) as [item Hitem].
      destruct (Hk k item Hitem) as (g' & Hg' & Hc).
      rewrite Hg in Hg'. injection Hg' as <-.
      pose proof (_createGlassesItem_acceptable (clock (0 + k)%nat) item) as Hi.
      rewrite Hc in Hi. destruct Hi as ((_ & _ & _ & _ & _ & p & Hp & Hpos) & Hn).
      rewrite Hn in Hp. injection Hp as <-. lia.
    + exfalso. destruct H as (k & item & Hl & Hc & _).
      pose proof (_createGlassesItem_acceptable (clock (0 + k)%nat) item) as Hi.
      rewrite Hc in Hi. apply Hi.
      apply list_elem_of_lookup_2, list_elem_of_In in Hl. simpl in Hl.
      repeat (destruct Hl as [<- | Hl];
              [repeat (split; [reflexivity|]); eexists; split; [reflexivity | lia]|]).
      destruct Hl.
Qed.

(** ** Searches and statistics of the catalog *)

Section Searches.

Lemma filter_sublist {A : Type} (f : A -> bool) (l : list A) :
  sublist (List.filter f l) l.
Proof.
  induction l as [|x l IH]; [constructor|].
  simpl. destruct (f x); by constructor.
Qed.

Lemma filter_filter_sublist {A : Type} (f g : A -> bool) (l : list A) :
  (forall x, f x = true -> g x = true) ->
  sublist (List.filter f l) (List.filter g l).
Proof.
  intros Hfg. induction l as [|x l IH]; [constructor|].
  simpl. destruct (f x) eqn:Ef.
  - rewrite (Hfg x Ef). by constructor.
  - destruct (g x); [by constructor | done].
Qed.

Lemma getGlassesByPriceRange_Return s minPrice maxPrice :
  0 <= minPrice <= maxPrice ->
  getGlassesByPriceRange s minPrice maxPrice
  = Return (List.filter (within_budget (Some minPrice) (Some maxPrice)) (_glassesData s)).
Proof.
  intros H. unfold getGlassesByPriceRange.
  destruct (minPrice <? 0) eqn:E1; [lia|].
  destruct (maxPrice <? minPrice) eqn:E2; [lia|]. done.
Qed.

End Searches.

(** X8. A search by price range and the recommendations agree. For a
    range with [0 <= budgetMin <= budgetMax], [getGlassesByPriceRange]
    returns the items of the catalog priced within the range, in the order
    of the catalog; and in any state of a service used as designed, the
    recommendations for a tier with that range, computed or taken from the
    cache, are this very list sorted by price, with its length as the
    number of options. *)
Theorem X8_price_range_search_agrees_with_recommendations
  (glassesData : list GlassesItem.t) (resources : DCResources.t)
  (s : GlassesService) (now : string) (e : EligibilityArg.t) (budgetMin budgetMax : Z) :
  used_as_designed glassesData resources s ->
  In (EligibilityArg.tier e) TIERS ->
  EligibilityArg.budgetRange e = Some [budgetMin; budgetMax] ->
  0 <= budgetMin <= budgetMax ->
  exists found r s',
    getGlassesByPriceRange s budgetMin budgetMax = Return found
    /\ sublist found (getAllGlasses s)
    /\ (forall g, In g found <-> In g glassesData /\ in_range budgetMin budgetMax g)
    /\ getPersonalizedRecommendations now s (Some e) = (Return (VRecommendations r), s')
    /\ Recommendations.allRecommendations r = sort by_price found
    /\ Recommendations.totalOptions r = length found.
Proof.
  intros Hs Htier Hrange Hb.
  destruct (getPersonalizedRecommendations_well_formed
              glassesData resources s now e budgetMin budgetMax Hs Htier Hrange)
    as (generatedAt & tierName & s' & Hr).
  destruct (reachable_with_invariant _ _ _ _ Hs) as (Hdata & _ & _).
  eexists _, _, s'. split; [by apply getGlassesByPriceRange_Return|].
  split; [apply filter_sublist|].
  split.
  { intros g. rewrite filter_In, within_budget_in_range, Hdata. done. }
  split; [exact Hr|].
  split; [reflexivity|].
  simpl. unfold suitableGlasses.
  apply Permutation_length, sort_Permutation.
Qed.

Lemma X8_witness :
  let s := mkService (catalog_of rawData) _initializeDCResources ∅ in
  let e := EligibilityArg.mk "medicaid_eligible" "Medicaid Eligible" (Some [0; 50]) in
  exists found r s',
    getGlassesByPriceRange s 0 50 = Return found
    /\ sublist found (getAllGlasses s)
    /\ (forall g, In g found <-> In g (catalog_of rawData) /\ in_range 0 50 g)
    /\ getPersonalizedRecommendations "2024-01-01T00:00:00.000Z" s (Some e)
       = (Return (VRecommendations r), s')
    /\ Recommendations.allRecommendations r = sort by_price found
    /\ Recommendations.totalOptions r = length found.
Proof.
  intros s e.
  apply (X8_price_range_search_agrees_with_recommendations
           (catalog_of rawData) _initializeDCResources s "2024-01-01T00:00:00.000Z" e 0 50).
  - apply reach_new.
  - left. reflexivity.
  - reflexivity.
  - lia.
Defined.

(** X9. A search by frame style ignores the case of letters, except for
    the word "all". For a style other than "all", [getGlassesByFrameStyle]
    returns the items whose style equals it up to case, in the order of
    the catalog, and returns the same for every other spelling that is not
    "all" itself. A spelling of "all" in other letters is an ordinary
    style: it finds the items of that style, not the whole catalog. *)
Theorem X9_frame_style_search_ignores_case (s : GlassesService) (style : string) :
  style <> "all"%string ->
  exists found,
    getGlassesByFrameStyle s (JsString style) = Return found
    /\ sublist found (getAllGlasses s)
    /\ (forall g, In g found <->
          In g (getAllGlasses s)
          /\ toLowerCase (GlassesItem.frame_style g) = toLowerCase style)
    /\ (forall style', style' <> "all"%string ->
          toLowerCase style' = toLowerCase style ->
          getGlassesByFrameStyle s (JsString style') = Return found)
    /\ (toLowerCase style = "all"%string ->
        Forall (fun g => toLowerCase (GlassesItem.frame_style g) <> "all"%string)
          (getAllGlasses s) ->
        found = []).
Proof.
  intros Hstyle.
  assert (forall style', style' <> "all"%string ->
          getGlassesByFrameStyle s (JsString style')
          = Return (List.filter (same_frame_style style') (_glassesData s))) as Hget.
  { intros style' Hne. unfold getGlassesByFrameStyle.
    destruct (String.eqb style' "all") eqn:E; [|done].
    by apply String.eqb_eq in E. }
  eexists. split; [by apply Hget|].
  split; [apply filter_sublist|].
  split.
  { intros g. rewrite filter_In. unfold same_frame_style, getAllGlasses.
    by rewrite String.eqb_eq. }
  split.
  { intros style' Hne Hlower. rewrite Hget by done. f_equal.
    apply filter_ext. intros g. unfold same_frame_style. by rewrite Hlower. }
  intros Hall Hnone.
  rewrite Forall_forall in Hnone.
  destruct (List.filter _ _) as [|g found] eqn:Ef; [done|].
  assert (In g (List.filter (same_frame_style style) (_glassesData s))) as Hin
    by (rewrite Ef; by left).
  apply filter_In in Hin as [Hin Hsame].
  unfold same_frame_style in Hsame. apply String.eqb_eq in Hsame.
  exfalso. apply (Hnone g); [by apply list_elem_of_In|]. by rewrite Hsame.
Qed.

Lemma X9_witness :
  "ALL"%string <> "all"%string
  /\ getGlassesByFrameStyle (mkService (catalog_of rawData) _initializeDCResources ∅)
       (JsString "ALL") = Return []
  /\ getGlassesByFrameStyle (mkService (catalog_of rawData) _initializeDCResources ∅)
       (JsString "all") = Return (catalog_of rawData).
Proof.
  split; [discriminate|].
  split; [|reflexivity].
  destruct (X9_frame_style_search_ignores_case
              (mkService (catalog_of rawData) _initializeDCResources ∅) "ALL"
              ltac:(discriminate))
    as (found & Hfound & _ & _ & _ & Hnone).
  rewrite Hfound. f_equal. apply Hnone; [reflexivity|].
  repeat constructor; discriminate.
Defined.

Section StyleCounts.

Lemma assoc_count_style style style' styleCounts :
  assoc style' (count_style style styleCounts)
  = if String.eqb style style'
    then Some (S (held style' styleCounts))
    else assoc style' styleCounts.
Proof.
  unfold held. induction styleCounts as [|[k n] rest IH]; simpl.
  - by destruct (String.eqb style style').
  - destruct (String.eqb k style) eqn:Ek; simpl.
    + apply String.eqb_eq in Ek. subst k.
      by destruct (String.eqb style style').
    + destruct (String.eqb k style') eqn:Ek'.
      * apply String.eqb_eq in Ek'. subst k.
        by rewrite String.eqb_sym, Ek.
      * exact IH.
Qed.

Lemma held_count_style style style' styleCounts :
  held style' (count_style style styleCounts)
  = ((if String.eqb style style' then 1 else 0) + held style' styleCounts)%nat.
Proof.
  unfold held at 1. rewrite assoc_count_style.
  by destruct (String.eqb style style').
Qed.

Lemma keys_count_style style styleCounts :
  NoDup (map fst styleCounts) -> NoDup (map fst (count_style style styleCounts))
  /\ (forall k, In k (map fst (count_style style styleCounts)) <->
                k = style \/ In k (map fst styleCounts)).
Proof.
  induction styleCounts as [|[k n] rest IH]; simpl; intros Hnd.
  - split; [repeat constructor; by intros ?%elem_of_nil | intros k; simpl; intuition].
  - apply NoDup_cons in Hnd as [Hk Hnd]. destruct (IH Hnd) as [IH1 IH2].
    destruct (String.eqb k style) eqn:Ek; simpl.
    + apply String.eqb_eq in Ek. subst k.
      split; [by apply NoDup_cons | intros k; intuition].
    + apply String.eqb_neq in Ek. split.
      * apply NoDup_cons. split; [|done].
        rewrite list_elem_of_In, IH2. rewrite list_elem_of_In in Hk. intuition.
      * intros k'. rewrite IH2. intuition.
Qed.

Lemma sum_count_style style styleCounts :
  list_sum (map snd (count_style style styleCounts))
  = S (list_sum (map snd styleCounts)).
Proof.
  induction styleCounts as [|[k n] rest IH]; simpl; [done|].
  destruct (String.eqb k style); simpl; [done|]. rewrite IH. lia.
Qed.

Lemma positive_count_style style styleCounts :
  Forall (fun entry => (0 < snd entry)%nat) styleCounts ->
  Forall (fun entry => (0 < snd entry)%nat) (count_style style styleCounts).
Proof.
  induction 1 as [|[k n] rest Hn Hrest IH]; simpl.
  - repeat constructor.
  - destruct (String.eqb k style); constructor; simpl in *; [lia | done | done | done].
Qed.

Lemma count_of_style_cons style g glassesData :
  count_of_style style (g :: glassesData)
  = ((if String.eqb (GlassesItem.frame_style g) style then 1 else 0)
     + count_of_style style glassesData)%nat.
Proof.
  unfold count_of_style. simpl.
  by destruct (String.eqb (GlassesItem.frame_style g) style).
Qed.

Lemma statistics_from glassesData : forall styleCounts,
  NoDup (map fst styleCounts) ->
  Forall (fun entry => (0 < snd entry)%nat) styleCounts ->
  let result :=
    fold_left (fun styleCounts glasses =>
                 count_style (GlassesItem.frame_style glasses) styleCounts)
      glassesData styleCounts in
  NoDup (map fst result)
  /\ Forall (fun entry => (0 < snd entry)%nat) result
  /\ list_sum (map snd result)
     = (list_sum (map snd styleCounts) + length glassesData)%nat
  /\ (forall style,
        held style result = (held style styleCounts + count_of_style style glassesData)%nat)
  /\ (forall k, In k (map fst result) <->
        In k (map fst styleCounts) \/ In k (map GlassesItem.frame_style glassesData)).
Proof.
  induction glassesData as [|g glassesData IH]; intros styleCounts Hnd Hpos; simpl.
  - split; [done|]. split; [done|]. split; [lia|].
    split; [intros style; unfold count_of_style; simpl; lia | intuition].
  - destruct (keys_count_style (GlassesItem.frame_style g) styleCounts Hnd) as [Hnd' Hkeys].
    pose proof (positive_count_style (GlassesItem.frame_style g) styleCounts Hpos) as Hpos'.
    destruct (IH _ Hnd' Hpos') as (H1 & H2 & H3 & H4 & H5).
    split; [done|]. split; [done|].
    split; [rewrite H3, sum_count_style; lia|].
    split.
    + intros style. rewrite H4, count_of_style_cons.
      rewrite held_count_style. lia.
    + intros k. rewrite H5, Hkeys. intuition.
Qed.

Lemma assoc_held style (styleCounts : list (string * nat)) :
  In style (map fst styleCounts) ->
  assoc style styleCounts = Some (held style styleCounts).
Proof.
  unfold held. induction styleCounts as [|[k n] rest IH]; simpl; [done|].
  destruct (String.eqb k style) eqn:Ek; [done|].
  apply String.eqb_neq in Ek. intros [? | Hin]; [done | by apply IH].
Qed.

Lemma assoc_None {A : Type} key (obj : list (string * A)) :
  ~ In key (map fst obj) -> assoc key obj = None.
Proof.
  induction obj as [|[k x] rest IH]; simpl; [done|].
  destruct (String.eqb k key) eqn:Ek.
  - apply String.eqb_eq in Ek. intuition.
  - intros H. apply IH. intuition.
Qed.

Lemma count_le_found style glassesData :
  (count_of_style style glassesData
   <= length (List.filter (same_frame_style style) glassesData))%nat.
Proof.
  unfold count_of_style.
  apply sublist_length, filter_filter_sublist.
  intros g Hg. apply String.eqb_eq in Hg. unfold same_frame_style.
  rewrite Hg. apply String.eqb_refl.
Qed.

Lemma count_le_length style (glassesData : list GlassesItem.t) :
  (count_of_style style glassesData <= length glassesData)%nat.
Proof. unfold count_of_style. apply sublist_length, filter_sublist. Qed.

End StyleCounts.

(** X10. On a catalog none of whose frame styles names a member of
    [Object.prototype], [getFrameStyleStatistics] lists each style of the
    catalog once, with the number of items of exactly that style; the
    counts add up to the size of the catalog; a style that no item has is
    not listed; and a search by a listed style finds at least as many
    items as the count says. *)
Theorem X10_frame_style_statistics_count_the_catalog (s : GlassesService) :
  Forall (fun g => ~ In (GlassesItem.frame_style g) Object_prototype) (getAllGlasses s) ->
  let statistics := getFrameStyleStatistics s in
  NoDup (map fst statistics)
  /\ list_sum (map snd statistics) = length (getAllGlasses s)
  /\ (forall style,
        match assoc style statistics with
        | Some count =>
            count = count_of_style style (getAllGlasses s) /\ (0 < count)%nat
            /\ exists found,
                 getGlassesByFrameStyle s (JsString style) = Return found
                 /\ (count <= length found)%nat
        | None => count_of_style style (getAllGlasses s) = 0%nat
        end).
Proof.
  intros _ statistics. unfold getAllGlasses.
  destruct (statistics_from (_glassesData s) [] ltac:(constructor) ltac:(constructor))
    as (Hnd & Hpos & Hsum & Hheld & Hkeys).
  fold (frame_style_statistics (_glassesData s)) in *.
  fold (getFrameStyleStatistics s) in *. fold statistics in Hnd, Hpos, Hsum, Hheld, Hkeys.
  split; [done|]. split; [done|].
  intros style. specialize (Hheld style). unfold held in Hheld at 2. simpl in Hheld.
  destruct (assoc style statistics) as [count|] eqn:Ea.
  - unfold held in Hheld. rewrite Ea in Hheld. simpl in Hheld.
    split; [done|].
    split.
    { apply assoc_In in Ea. rewrite Forall_forall in Hpos.
      apply (Hpos (style, count)). by apply list_elem_of_In. }
    unfold getGlassesByFrameStyle.
    destruct (String.eqb style "all").
    + eexists. split; [reflexivity|]. rewrite Hheld. apply count_le_length.
    + eexists. split; [reflexivity|]. rewrite Hheld. apply count_le_found.
  - unfold held in Hheld. rewrite Ea in Hheld. simpl in Hheld. done.
Qed.

Lemma X10_witness :
  let s := mkService (catalog_of rawData) _initializeDCResources ∅ in
  Forall (fun g => ~ In (GlassesItem.frame_style g) Object_prototype) (getAllGlasses s)
  /\ NoDup (map fst (getFrameStyleStatistics s))
  /\ list_sum (map snd (getFrameStyleStatistics s)) = length (getAllGlasses s).
Proof.
  intros s.
  assert (Forall (fun g => ~ In (GlassesItem.frame_style g) Object_prototype)
            (getAllGlasses s)) as Hown.
  { repeat constructor; simpl; intros H;
      repeat (destruct H as [H | H]; [discriminate H|]); destruct H. }
  split; [exact Hown|].
  destruct (X10_frame_style_statistics_count_the_catalog s Hown) as (Hnd & Hsum & _).
  split; [exact Hnd | exact Hsum].
Defined.

Section PriceStatistics.

Lemma minimum_spec rest : forall first,
  In (minimum first rest) (first :: rest)
  /\ (forall p, In p (first :: rest) -> minimum first rest <= p).
Proof.
  unfold minimum. induction rest as [|x rest IH]; intros first; simpl.
  - split; [by left | intros p [<- | []]; lia].
  - destruct (IH (Z.min first x)) as [Hin Hle]. split.
    + destruct Hin as [Hin | Hin]; [|by right; right].
      rewrite <- Hin. destruct (Z.min_spec first x) as [[_ ->] | [_ ->]]; [by left | by right; left].
    + intros p [E | [E | Hp]].
      * specialize (Hle (Z.min first x) ltac:(by left)). lia.
      * specialize (Hle (Z.min first x) ltac:(by left)). lia.
      * apply Hle. by right.
Qed.

Lemma maximum_spec rest : forall first,
  In (maximum first rest) (first :: rest)
  /\ (forall p, In p (first :: rest) -> p <= maximum first rest).
Proof.
  unfold maximum. induction rest as [|x rest IH]; intros first; simpl.
  - split; [by left | intros p [<- | []]; lia].
  - destruct (IH (Z.max first x)) as [Hin Hle]. split.
    + destruct Hin as [Hin | Hin]; [|by right; right].
      rewrite <- Hin. destruct (Z.max_spec first x) as [[_ ->] | [_ ->]]; [by right; left | by left].
    + intros p [E | [E | Hp]].
      * specialize (Hle (Z.max first x) ltac:(by left)). lia.
      * specialize (Hle (Z.max first x) ltac:(by left)). lia.
      * apply Hle. by right.
Qed.

Lemma filter_map_length {A B : Type} (f : B -> bool) (g : A -> B) (l : list A) :
  length (List.filter f (map g l)) = length (List.filter (fun x => f (g x)) l).
Proof.
  induction l as [|x l IH]; [done|]. simpl.
  destruct (f (g x)); simpl; by rewrite IH.
Qed.

Lemma filter_split_length {A : Type} (f g h : A -> bool) (l : list A) :
  (forall x, In x l -> h x = f x || g x) ->
  (forall x, In x l -> f x && g x = false) ->
  length (List.filter h l)
  = (length (List.filter f l) + length (List.filter g l))%nat.
Proof.
  induction l as [|x l IH]; intros Hh Hfg; [done|].
  assert (length (List.filter h l)
          = (length (List.filter f l) + length (List.filter g l))%nat) as IH'.
  { apply IH; intros y Hy; [apply Hh | apply Hfg]; by right. }
  pose proof (Hfg x (or_introl eq_refl)) as Hx.
  simpl. rewrite (Hh x) by (by left).
  destruct (f x), (g x); simpl in *; try done; rewrite IH'; lia.
Qed.

Lemma suitableGlasses_length glassesData budgetMin budgetMax :
  length (suitableGlasses glassesData budgetMin budgetMax)
  = length (List.filter (within_budget budgetMin budgetMax) glassesData).
Proof. unfold suitableGlasses. apply Permutation_length, sort_Permutation. Qed.

Lemma price_statistics_cons g0 glassesData :
  price_statistics (g0 :: glassesData)
  = let prices := map GlassesItem.numeric_price (g0 :: glassesData) in
    let total := fold_left Z.add prices 0 in
    let count := Z.of_nat (length prices) in
    PriceStatistics.mk
      (minimum (GlassesItem.numeric_price g0) (map GlassesItem.numeric_price glassesData))
      (maximum (GlassesItem.numeric_price g0) (map GlassesItem.numeric_price glassesData))
      ((200 * total + count) / (2 * count))
      (length (g0 :: glassesData))
      (length (List.filter (fun p => p <=? 50) prices))
      (length (List.filter (fun p => p <=? 100) prices))
      (length (List.filter (fun p => (50 <? p) && (p <=? 200)) prices)).
Proof. reflexivity. Qed.

Lemma tier_options_ranges glassesData :
  tier_options "MEDICAID_ELIGIBLE" glassesData
  = Some (length (suitableGlasses glassesData (Some 0) (Some 50)))
  /\ tier_options "LOW_INCOME_GAP" glassesData
     = Some (length (suitableGlasses glassesData (Some 0) (Some 100)))
  /\ tier_options "MODERATE_INCOME" glassesData
     = Some (length (suitableGlasses glassesData (Some 50) (Some 200))).
Proof. split; [|split]; reflexivity. Qed.

End PriceStatistics.

(** X11. The figures of [getPriceStatistics]. Every price of the
    catalog lies between [minPrice] and [maxPrice], and on a catalog that
    is not empty both are prices of items. On a catalog without negative
    prices, [medicaidEligibleOptions] and [lowIncomeOptions] are the
    numbers of items recommended to the Medicaid tier and to the low-income
    tier; [moderateIncomeOptions] falls short of the number recommended to
    the moderate tier by the items priced at exactly 50, which that tier
    is offered and the figure leaves out. *)
Theorem X11_price_statistics_and_tier_options (s : GlassesService) :
  Forall (fun g => 0 <= GlassesItem.numeric_price g) (getAllGlasses s) ->
  let statistics := getPriceStatistics s in
  (forall g, In g (getAllGlasses s) ->
     PriceStatistics.minPrice statistics <= GlassesItem.numeric_price g
     <= PriceStatistics.maxPrice statistics)
  /\ (getAllGlasses s = []
      \/ exists cheapest dearest,
           In cheapest (getAllGlasses s) /\ In dearest (getAllGlasses s)
           /\ GlassesItem.numeric_price cheapest = PriceStatistics.minPrice statistics
           /\ GlassesItem.numeric_price dearest = PriceStatistics.maxPrice statistics)
  /\ PriceStatistics.totalGlasses statistics = length (getAllGlasses s)
  /\ tier_options "MEDICAID_ELIGIBLE" (getAllGlasses s)
     = Some (PriceStatistics.medicaidEligibleOptions statistics)
  /\ tier_options "LOW_INCOME_GAP" (getAllGlasses s)
     = Some (PriceStatistics.lowIncomeOptions statistics)
  /\ tier_options "MODERATE_INCOME" (getAllGlasses s)
     = Some (PriceStatistics.moderateIncomeOptions statistics
             + count_priced 50 (getAllGlasses s))%nat.
Proof.
  unfold getAllGlasses, getPriceStatistics. intros Hpos. cbv zeta.
  rewrite Forall_forall in Hpos.
  destruct (_glassesData s) as [|g0 glassesData].
  - simpl. split; [done|]. split; [by left|]. done.
  - rewrite price_statistics_cons.
    set (first := GlassesItem.numeric_price g0).
    set (rest := map GlassesItem.numeric_price glassesData).
    assert (map GlassesItem.numeric_price (g0 :: glassesData) = first :: rest)
      as Eprices by reflexivity.
    cbn [PriceStatistics.minPrice PriceStatistics.maxPrice
      PriceStatistics.totalGlasses PriceStatistics.medicaidEligibleOptions
      PriceStatistics.lowIncomeOptions PriceStatistics.moderateIncomeOptions].
    destruct (minimum_spec rest first) as [Hmin_in Hmin].
    destruct (maximum_spec rest first) as [Hmax_in Hmax].
    rewrite <- Eprices in Hmin_in, Hmin, Hmax_in, Hmax.
    split.
    { intros g Hg. split; [apply Hmin | apply Hmax]; by apply in_map. }
    split.
    { right. apply in_map_iff in Hmin_in as (cheapest & Hc & Hcin).
      apply in_map_iff in Hmax_in as (dearest & Hd & Hdin).
      by exists cheapest, dearest. }
    split; [done|].
    destruct (tier_options_ranges (g0 :: glassesData)) as (-> & -> & ->).
    rewrite !suitableGlasses_length, !filter_map_length.
    split; [|split].
    + do 2 f_equal. apply filter_ext_in. intros g Hg.
      specialize (Hpos g ltac:(by apply list_elem_of_In)). simpl in Hpos.
      unfold within_budget. simpl. lia.
    + do 2 f_equal. apply filter_ext_in. intros g Hg.
      specialize (Hpos g ltac:(by apply list_elem_of_In)). simpl in Hpos.
      unfold within_budget. simpl. lia.
    + f_equal. unfold count_priced. apply filter_split_length.
      * intros g _. unfold within_budget. simpl. lia.
      * intros g _. lia.
Qed.

Lemma X11_witness :
  let s := mkService (catalog_of rawData) _initializeDCResources ∅ in
  Forall (fun g => 0 <= GlassesItem.numeric_price g) (getAllGlasses s)
  /\ tier_options "MODERATE_INCOME" (getAllGlasses s)
     = Some (PriceStatistics.moderateIncomeOptions (getPriceStatistics s)
             + count_priced 50 (getAllGlasses s))%nat.
Proof.
  intros s.
  assert (Forall (fun g => 0 <= GlassesItem.numeric_price g) (getAllGlasses s)) as Hpos.
  { repeat constructor; simpl; lia. }
  split; [exact Hpos|].
  apply (X11_price_statistics_and_tier_options s Hpos).
Defined.

(** ** The form: assessment, then recommendations *)

Section Form.

Lemma reachable_with_weaken (P Q : EligibilityArg.t -> Prop) glassesData resources s :
  (forall e, P e -> Q e) ->
  reachable_with P glassesData resources s ->
  reachable_with Q glassesData resources s.
Proof.
  intros HPQ. induction 1 as [|s now h i z Hs IH|s now e Hs IH He|s Hs IH].
  - apply reach_new.
  - by apply reach_assessEligibility.
  - apply reach_getPersonalizedRecommendations; [done|].
    destruct e as [e|]; [|done]. destruct He as [He | He]; [by left | right; by apply HPQ].
  - by apply reach_clearCache.
Qed.

(** The tier and the range of an assessment of valid inputs. *)
Lemma assessment_well_formed s now householdSize annualIncome zipCode :
  valid_inputs householdSize annualIncome zipCode ->
  let e := assessment s now householdSize annualIncome zipCode in
  In (Eligibility.tier e) TIERS
  /\ exists budgetMin budgetMax,
       Eligibility.budgetRange e = [budgetMin; budgetMax]
       /\ 0 <= budgetMin <= budgetMax
       /\ In (Eligibility.tier e, [budgetMin; budgetMax])
            (map (fun entry => (TierConfig.tier (snd entry),
                                TierConfig.budgetRange (snd entry))) TIER_CONFIG).
Proof.
  intros (h & i & z & -> & -> & -> & Hh & Hi & Hz)%valid_inputs_iff. cbv zeta.
  destruct (limit_at_household h Hh) as (medicaidLimit & Hlimit & _).
  unfold assessment. cbn [Eligibility.tier Eligibility.budgetRange integer_value].
  rewrite (_determineTier_cascade i h medicaidLimit Hlimit).
  cbn [TierResult.config].
  destruct (i <=? medicaidLimit * 1);
    [|destruct (i <=? medicaidLimit * 2); [|destruct (i <=? medicaidLimit * 3)]];
    cbn [TierConfig.tier TierConfig.budgetRange TIER_CONFIG_ANY_INCOME].
  - split; [by left|]. exists 0, 50. split; [done|]. split; [lia|]. by left.
  - split; [by right; left|]. exists 0, 100. split; [done|]. split; [lia|]. by right; left.
  - split; [by right; right; left|]. exists 50, 200. split; [done|]. split; [lia|].
    by right; right; left.
  - split; [by right; right; right; left|]. exists 0, 500. split; [done|]. split; [lia|].
    by right; right; right; left.
Qed.

End Form.

(** X12. The submission of the form goes through: on a service used as
    designed, [assessEligibility] on valid inputs returns an assessment,
    [getPersonalizedRecommendations] on that assessment returns
    recommendations for the same tier, and these are the items of the
    catalog within the budget range of the tier, as [TIER_CONFIG] has it,
    sorted by price, with the first ten of them on top. *)
Theorem X12_form_submission_yields_recommendations
  (glassesData : list GlassesItem.t) (resources : DCResources.t) (s : GlassesService)
  (now later : string) (householdSize annualIncome zipCode : JsValue) :
  used_as_designed glassesData resources s ->
  valid_inputs householdSize annualIncome zipCode ->
  exists eligibility s1 recs s2 budgetMin budgetMax,
    assessEligibility now s householdSize annualIncome zipCode
    = (Return (VEligibility eligibility), s1)
    /\ getPersonalizedRecommendations later s1 (Some (arg_of_eligibility eligibility))
       = (Return (VRecommendations recs), s2)
    /\ used_as_designed glassesData resources s2
    /\ Recommendations.tier recs = Eligibility.tier eligibility
    /\ In (Eligibility.tier eligibility, [budgetMin; budgetMax])
         (map (fun entry => (TierConfig.tier (snd entry),
                             TierConfig.budgetRange (snd entry))) TIER_CONFIG)
    /\ Recommendations.allRecommendations recs
       = suitableGlasses glassesData (Some budgetMin) (Some budgetMax)
    /\ Recommendations.topRecommendations recs
       = take 10 (Recommendations.allRecommendations recs)
    /\ Recommendations.totalOptions recs
       = length (Recommendations.allRecommendations recs).
Proof.
  intros Hs Hvalid.
  assert (reachable glassesData resources s) as Hreach.
  { by apply (reachable_with_weaken well_formed). }
  destruct (assessEligibility_valid glassesData resources s now
              householdSize annualIncome zipCode Hreach Hvalid)
    as (assessedAt & s1 & Hassess).
  set (eligibility := assessment s assessedAt householdSize annualIncome zipCode) in *.
  assert (used_as_designed glassesData resources s1) as Hs1.
  { replace s1 with (snd (assessEligibility now s householdSize annualIncome zipCode))
      by (by rewrite Hassess).
    by apply reach_assessEligibility. }
  destruct (assessment_well_formed s assessedAt householdSize annualIncome zipCode Hvalid)
    as (Htier & budgetMin & budgetMax & Hrange & Hb & Hconfig).
  fold eligibility in Htier, Hrange, Hconfig.
  assert (EligibilityArg.budgetRange (arg_of_eligibility eligibility)
          = Some [budgetMin; budgetMax]) as Harg.
  { unfold arg_of_eligibility. cbn [EligibilityArg.budgetRange]. by rewrite Hrange. }
  destruct (getPersonalizedRecommendations_well_formed
              glassesData resources s1 later (arg_of_eligibility eligibility)
              budgetMin budgetMax Hs1 Htier Harg)
    as (generatedAt & tierName & s2 & Hrecs).
  destruct (reachable_with_invariant _ _ _ _ Hs1) as (Hdata & _ & _).
  eexists eligibility, s1, _, s2, budgetMin, budgetMax.
  split; [exact Hassess|]. split; [exact Hrecs|].
  split.
  { replace s2 with
      (snd (getPersonalizedRecommendations later s1 (Some (arg_of_eligibility eligibility))))
      by (by rewrite Hrecs).
    apply reach_getPersonalizedRecommendations; [done|].
    right. split; [done|]. by exists budgetMin, budgetMax. }
  split; [reflexivity|]. split; [exact Hconfig|].
  simpl. rewrite Hdata. done.
Qed.

Lemma X12_witness :
  let s := mkService (catalog_of rawData) _initializeDCResources ∅ in
  (used_as_designed (catalog_of rawData) _initializeDCResources s
   /\ valid_inputs (JsInt 4) (JsInt 30000) (JsString "20001"))
  /\ exists eligibility s1 recs s2,
       assessEligibility "2024-01-01T00:00:00.000Z" s (JsInt 4) (JsInt 30000) (JsString "20001")
       = (Return (VEligibility eligibility), s1)
       /\ getPersonalizedRecommendations "2024-01-01T00:00:01.000Z" s1
            (Some (arg_of_eligibility eligibility))
          = (Return (VRecommendations recs), s2)
       /\ Recommendations.tier recs = Eligibility.tier eligibility.
Proof.
  intros s.
  assert (used_as_designed (catalog_of rawData) _initializeDCResources s) as Hs
    by apply reach_new.
  assert (valid_inputs (JsInt 4) (JsInt 30000) (JsString "20001")) as Hvalid.
  { apply valid_inputs_listed; [lia | lia |]. apply (bool_decide_unpack _). vm_compute. exact I. }
  split; [split; [exact Hs | exact Hvalid]|].
  destruct (X12_form_submission_yields_recommendations
              (catalog_of rawData) _initializeDCResources s
              "2024-01-01T00:00:00.000Z" "2024-01-01T00:00:01.000Z"
              (JsInt 4) (JsInt 30000) (JsString "20001") Hs Hvalid)
    as (eligibility & s1 & recs & s2 & _ & _ & H1 & H2 & _ & H3 & _).
  exists eligibility, s1, recs, s2.
  split; [exact H1|]. split; [exact H2 | exact H3].
Defined.

(** ** The cache of the service *)

Section CacheSize.






End CacheSize.


(** ** Retries *)

Section Retries.

Context {A : Type}.

Lemma retry_from_spec (operation : nat -> Completion A) maxRetries delay :
  forall remaining attempt lastError waited,
    (attempt + remaining = maxRetries + 1)%nat -> (1 <= remaining)%nat ->
    exists k,
      (attempt <= k <= maxRetries)%nat
      /\ (forall j, (attempt <= j < k)%nat -> retried (operation j))
      /\ (k = maxRetries \/ ~ retried (operation k))
      /\ retry_from operation maxRetries delay attempt remaining lastError waited
         = Retry.mk (settle (operation k)) k
             (waited ++ map (fun j => delay * Z.of_nat j) (seq attempt (k - attempt))).
Proof.
  induction remaining as [|remaining IH]; intros attempt lastError waited Hsum Hpos; [lia|].
  simpl. destruct (operation attempt) as [a|error] eqn:Eop.
  - exists attempt. split; [lia|]. split; [intros j; lia|].
    split; [right; intros (e' & He' & _); congruence|].
    rewrite Eop, Nat.sub_diag. simpl. by rewrite app_nil_r.
  - destruct (instanceof_ValidationError error) eqn:Ev.
    + exists attempt. split; [lia|]. split; [intros j; lia|].
      split; [right; intros (e' & He' & Hve); congruence|].
      rewrite Eop, Nat.sub_diag. simpl. by rewrite app_nil_r.
    + destruct (attempt =? maxRetries)%nat eqn:Elast.
      * apply Nat.eqb_eq in Elast. exists attempt.
        split; [lia|]. split; [intros j; lia|]. split; [by left|].
        rewrite Eop, Nat.sub_diag. simpl. by rewrite app_nil_r.
      * apply Nat.eqb_neq in Elast.
        destruct (IH (S attempt) (Some error) (waited ++ [delay * Z.of_nat attempt]))
          as (k & Hk & Hbefore & Hstop & Hrun); [lia | lia |].
        exists k. split; [lia|]. split.
        { intros j Hj. destruct (decide (j = attempt)) as [-> | Hne].
          - by exists error.
          - apply Hbefore. lia. }
        split; [done|]. rewrite Hrun. f_equal.
        replace (k - attempt)%nat with (S (k - S attempt)) by lia.
        simpl. by rewrite <- app_assoc.
Qed.

End Retries.

(** X14. What [withRetry] does. With no retries allowed it calls
    nothing and rejects with [undefined]. Otherwise it stops at the first
    call that returns or throws a [ValidationError], or at call number
    [maxRetries], whichever comes first: the promise settles as that call
    did, every call before threw another kind of error, and before call
    [j + 1] it waited [delay * j] milliseconds. *)
Theorem X14_withRetry_stops_at_first_settled_call {A : Type}
  (operation : nat -> Completion A) (maxRetries : nat) (delay : Z) :
  match maxRetries with
  | O => withRetry operation maxRetries delay = Retry.mk RejectedUndefined 0 []
  | S _ =>
      exists k,
        (1 <= k <= maxRetries)%nat
        /\ (forall j, (1 <= j < k)%nat -> retried (operation j))
        /\ (k = maxRetries \/ ~ retried (operation k))
        /\ withRetry operation maxRetries delay
           = Retry.mk (settle (operation k)) k
               (map (fun j => delay * Z.of_nat j) (seq 1 (k - 1)))
  end.
Proof.
  destruct maxRetries as [|n]; [reflexivity|].
  unfold withRetry.
  destruct (retry_from_spec operation (S n) delay (S n) 1 None []) as (k & H); [lia | lia |].
  by exists k.
Qed.

(** ** Sanitizers *)

Section Sanitizers.

Lemma substring_all_chars p m : forall s,
  all_chars p s = true -> all_chars p (substring 0 m s) = true.
Proof.
  induction m as [|m IH]; intros [|c s]; simpl; try done.
  intros [Hc Hs]%andb_prop. by rewrite Hc, IH.
Qed.

Lemma substring_length m : forall s,
  (String.length (substring 0 m s) <= m)%nat
  /\ (String.length (substring 0 m s) <= String.length s)%nat.
Proof.
  induction m as [|m IH]; intros [|c s]; simpl; try lia.
  destruct (IH s). lia.
Qed.

Lemma substring_short m : forall s,
  (String.length s <= m)%nat -> substring 0 m s = s.
Proof.
  induction m as [|m IH]; intros [|c s]; simpl; try done; try lia.
  intros H. rewrite IH; [done | lia].
Qed.

Lemma remove_angle_brackets_clean s :
  all_chars no_angle_bracket (remove_angle_brackets s) = true.
Proof.
  induction s as [|c s IH]; [done|]. simpl.
  destruct (Ascii.eqb c "<" || Ascii.eqb c ">")%char eqn:E; [done|].
  simpl. unfold no_angle_bracket at 1. by rewrite E.
Qed.

Lemma remove_angle_brackets_length s :
  (String.length (remove_angle_brackets s) <= String.length s)%nat.
Proof.
  induction s as [|c s IH]; [done|]. simpl.
  destruct (Ascii.eqb c "<" || Ascii.eqb c ">")%char; simpl; lia.
Qed.

Lemma remove_angle_brackets_none s :
  all_chars no_angle_bracket s = true -> remove_angle_brackets s = s.
Proof.
  induction s as [|c s IH]; [done|]. simpl.
  intros [Hc Hs]%andb_prop. unfold no_angle_bracket in Hc.
  destruct (Ascii.eqb c "<" || Ascii.eqb c ">")%char; [done|]. by rewrite IH.
Qed.

Lemma trim_length s : (String.length (trim s) <= String.length s)%nat.
Proof.
  unfold trim.
  destruct (trimStart_prefix s) as (w & _ & Hs).
  destruct (trimEnd_suffix (trimStart s)) as (w' & _ & Ht).
  rewrite Hs at 2. rewrite Ht at 2. rewrite !append_length. lia.
Qed.

Lemma whitespace_no_digit c : is_whitespace c = true -> is_digit c = false.
Proof.
  destruct c as [[] [] [] [] [] [] [] []]; vm_compute; intros H;
    first [discriminate H | reflexivity].
Qed.

Lemma keep_digits_whitespace w : all_whitespace w = true -> keep_digits w = ""%string.
Proof.
  induction w as [|c w IH]; [done|]. simpl.
  intros [Hc Hw]%andb_prop. by rewrite (whitespace_no_digit c Hc), IH.
Qed.

Lemma keep_digits_append a b : keep_digits (a +:+ b) = keep_digits a +:+ keep_digits b.
Proof.
  induction a as [|c a IH]; [done|].
  rewrite append_cons. simpl. destruct (is_digit c); [by rewrite IH, append_cons | done].
Qed.

Lemma keep_digits_trim s : keep_digits (trim s) = keep_digits s.
Proof.
  unfold trim.
  destruct (trimStart_prefix s) as (w & Hw & Hs).
  destruct (trimEnd_suffix (trimStart s)) as (w' & Hw' & Ht).
  rewrite Hs at 2. rewrite Ht at 2.
  rewrite !keep_digits_append, (keep_digits_whitespace w Hw), (keep_digits_whitespace w' Hw').
  simpl. by rewrite append_nil_r.
Qed.

Lemma keep_digits_digits s : all_chars is_digit (keep_digits s) = true.
Proof.
  induction s as [|c s IH]; [done|]. simpl.
  destruct (is_digit c) eqn:E; [|done]. simpl. by rewrite E.
Qed.

Lemma keep_digits_all s : all_chars is_digit s = true -> keep_digits s = s.
Proof.
  induction s as [|c s IH]; [done|]. simpl.
  intros [-> Hs]%andb_prop. by rewrite IH.
Qed.

Lemma zip_codes_kept :
  forallb (fun z => String.eqb (substring 0 5 (keep_digits z)) z) DC_ZIP_CODES = true.
Proof. vm_compute. reflexivity. Qed.

End Sanitizers.

(** X15. [sanitizeString] yields a text without angle brackets, of at
    most 1000 characters and no longer than its input; it yields the empty
    text for whatever is not a string; and it leaves a trimmed text without
    angle brackets and of at most 1000 characters as it is. Its result is
    not always trimmed: white space that followed a removed bracket stays
    at the front, so sanitizing twice can differ from sanitizing once. *)
Theorem X15_sanitizeString_removes_brackets_and_bounds_length (input : JsValue) :
  let clean := sanitizeString input in
  all_chars no_angle_bracket clean = true
  /\ (String.length clean <= 1000)%nat
  /\ match input with
     | JsString s =>
         (String.length clean <= String.length s)%nat
         /\ (trim s = s -> all_chars no_angle_bracket s = true ->
             (String.length s <= 1000)%nat -> clean = s)
     | _ => clean = ""%string
     end
  /\ sanitizeString (JsString "< b") = " b"%string
  /\ sanitizeString (JsString (sanitizeString (JsString "< b"))) = "b"%string.
Proof.
  cbv zeta. split; [|split; [|split; [|split]]].
  - destruct input; try done. simpl.
    apply substring_all_chars, remove_angle_brackets_clean.
  - destruct input; simpl; try lia. apply substring_length.
  - destruct input as [| |s| |]; try done. simpl. split.
    + pose proof (proj2 (substring_length 1000 (remove_angle_brackets (trim s)))).
      pose proof (remove_angle_brackets_length (trim s)).
      pose proof (trim_length s). lia.
    + intros -> Hclean Hlen.
      rewrite remove_angle_brackets_none by done. by apply substring_short.
  - reflexivity.
  - reflexivity.
Qed.

(** X16. [sanitizeZipCode] yields at most five characters, all digits,
    and the empty text for whatever is not a string; sanitizing its result
    again changes nothing. A zip code that [validateDCZipCode] accepts
    comes out as its trimmed text, which [validateDCZipCode] accepts
    again. *)
Theorem X16_sanitizeZipCode_keeps_accepted_codes (input : JsValue) :
  let zip := sanitizeZipCode input in
  all_chars is_digit zip = true
  /\ (String.length zip <= 5)%nat
  /\ sanitizeZipCode (JsString zip) = zip
  /\ match input with
     | JsString s =>
         validateDCZipCode input = true ->
         zip = trim s /\ validateDCZipCode (JsString zip) = true
     | _ => zip = ""%string
     end.
Proof.
  cbv zeta.
  assert (all_chars is_digit (sanitizeZipCode input) = true) as Hdigits.
  { destruct input; try done. simpl. apply substring_all_chars, keep_digits_digits. }
  assert (String.length (sanitizeZipCode input) <= 5)%nat as Hlen.
  { destruct input; simpl; try lia. apply substring_length. }
  split; [done|]. split; [done|]. split.
  - simpl. rewrite keep_digits_all by done. by apply substring_short.
  - destruct input as [| |s| |]; try reflexivity.
    intros Hvalid.
    pose proof Hvalid as (s' & [= <-] & Hin)%validateDCZipCode_true.
    assert (sanitizeZipCode (JsString s) = trim s) as Hzip.
    { simpl. rewrite <- keep_digits_trim.
      pose proof zip_codes_kept as Hall. rewrite forallb_forall in Hall.
      apply String.eqb_eq, Hall.
      apply elem_of_list_to_set in Hin. by apply list_elem_of_In. }
    split; [done|]. rewrite Hzip.
    apply validateDCZipCode_true. exists (trim s). split; [done|].
    by rewrite (trim_listed (trim s) Hin).
Qed.

Lemma X16_witness :
  validateDCZipCode (JsString "  20001 ") = true
  /\ sanitizeZipCode (JsString "  20001 ") = "20001"%string.
Proof.
  assert (validateDCZipCode (JsString "  20001 ") = true) as Hvalid by reflexivity.
  split; [exact Hvalid|].
  destruct (X16_sanitizeZipCode_keeps_accepted_codes (JsString "  20001 "))
    as (_ & _ & _ & H).
  destruct (H Hvalid) as [Hzip _]. exact Hzip.
Defined.

(** ** The filters of the results screen *)

Section Filtering.

Lemma filter_StronglySorted {A : Type} (R : A -> A -> Prop) (f : A -> bool) (l : list A) :
  StronglySorted R l -> StronglySorted R (List.filter f l).
Proof.
  induction 1 as [|x l Hl IH Hx]; [constructor|]. simpl.
  destruct (f x); [|done]. constructor; [done|].
  rewrite Forall_forall in Hx |- *. intros y Hy. apply Hx.
  apply list_elem_of_In in Hy. apply filter_In in Hy as [Hy _]. by apply list_elem_of_In.
Qed.

Lemma priceMatch_brackets style glasses :
  let at_price p := priceMatch (Filters.mk p style) glasses in
  at_price "all"%string = true
  /\ (at_price "under50"%string, at_price "50-100"%string, at_price "over100"%string)
     ∈ [(true, false, false); (false, true, false); (false, false, true)].
Proof.
  cbv zeta. unfold priceMatch. simpl.
  destruct (GlassesItem.numeric_price glasses <? 50) eqn:E1;
    destruct (50 <=? GlassesItem.numeric_price glasses) eqn:E2;
    destruct (GlassesItem.numeric_price glasses <=? 100) eqn:E3;
    destruct (100 <? GlassesItem.numeric_price glasses) eqn:E4;
    try lia; simpl; split; try done; set_solver.
Qed.

End Filtering.

(** X17. What the results screen shows. With recommendations of the
    service on display, the filtered list is a part of them in their
    order, so it is sorted by price and within the budget range; without
    recommendations it is a part of the catalog. The three price brackets
    split what the filter "all" shows, any other value of the price filter
    shows nothing, and with both filters at "all" the whole list is
    shown. *)
Theorem X17_filteredGlasses_keeps_order_and_splits_by_price
  (s : GlassesService) (now tier tierName : string) (budgetMin budgetMax : Z)
  (allGlassesData : list GlassesItem.t) (filters : Filters.t)
  (recommendations : option Recommendations.t) :
  let recs := recommendation s now tier tierName [budgetMin; budgetMax] in
  let shown := filteredGlasses (Some recs) allGlassesData filters in
  let at_price priceRange :=
    filteredGlasses recommendations allGlassesData
      (Filters.mk priceRange (Filters.frameStyle filters)) in
  sublist shown (Recommendations.allRecommendations recs)
  /\ StronglySorted price_le shown
  /\ Forall (in_range budgetMin budgetMax) shown
  /\ sublist (filteredGlasses None allGlassesData filters) allGlassesData
  /\ length (at_price "all"%string)
     = (length (at_price "under50"%string) + length (at_price "50-100"%string)
        + length (at_price "over100"%string))%nat
  /\ (forall priceRange, ~ In priceRange price_filters -> at_price priceRange = [])
  /\ filteredGlasses recommendations allGlassesData (Filters.mk "all" "all")
     = match recommendations with
       | Some r => Recommendations.allRecommendations r
       | None => allGlassesData
       end.
Proof.
  cbv zeta. unfold filteredGlasses.
  cbn [Recommendations.allRecommendations recommendation].
  set (suitable := suitableGlasses (_glassesData s) ([budgetMin; budgetMax] !! 0%nat)
                     ([budgetMin; budgetMax] !! 1%nat)).
  set (display := match recommendations with
                  | Some r => Recommendations.allRecommendations r
                  | None => allGlassesData
                  end).
  split; [apply filter_sublist|].
  split; [apply filter_StronglySorted, sort_sorted|].
  split.
  { apply Forall_forall. intros g Hg. apply list_elem_of_In, filter_In in Hg as [Hg _].
    by apply (suitableGlasses_spec (_glassesData s) budgetMin budgetMax) in Hg as [_ Hg]. }
  split; [apply filter_sublist|].
  split.
  { induction display as [|g display IH]; [done|]. cbn [List.filter].
    destruct (priceMatch_brackets (Filters.frameStyle filters) g) as [Hall Hcases].
    cbv zeta in Hall, Hcases. rewrite Hall.
    unfold styleMatch in *. cbn [Filters.frameStyle] in *.
    destruct (String.eqb (Filters.frameStyle filters) "all"
              || String.eqb (toLowerCase (GlassesItem.frame_style g))
                   (toLowerCase (Filters.frameStyle filters))).
    - rewrite !andb_true_r.
      repeat (apply elem_of_cons in Hcases as [[= -> -> ->] | Hcases];
              [cbn [length]; rewrite IH; lia|]).
      by apply elem_of_nil in Hcases.
    - rewrite !andb_false_r. exact IH. }
  split.
  { intros priceRange Hnot.
    assert (forall g, priceMatch (Filters.mk priceRange (Filters.frameStyle filters)) g = false)
      as Hnone.
    { intros g. unfold priceMatch. cbn [Filters.priceRange].
      assert (forall known, In known price_filters -> String.eqb priceRange known = false) as Hne.
      { intros known Hin. apply String.eqb_neq. by intros ->. }
      rewrite (Hne "all"%string), (Hne "under50"%string),
        (Hne "50-100"%string), (Hne "over100"%string); simpl; tauto. }
    induction display as [|g display IH]; [done|]. cbn [List.filter]. by rewrite Hnone. }
  induction display as [|g display IH]; [done|]. cbn [List.filter].
  assert (priceMatch (Filters.mk "all" "all") g && styleMatch (Filters.mk "all" "all") g = true)
    as -> by reflexivity.
  by rewrite IH.
Qed.

(** ** Frozen arrays *)

Section Frozen.

Lemma write_lookup_ne st l f l' :
  l' <> l -> Heap.arrays (Heap.write st l f) !! l' = Heap.arrays st !! l'.
Proof.
  intros Hne. unfold Heap.write.
  destruct (Heap.arrays st !! l) as [a|]; [|done].
  destruct (Heap.frozen a); [done|]. simpl. by apply lookup_insert_ne.
Qed.

(** A write leaves every frozen array as it is, and freezes none. *)
Lemma write_frozen st l f l' xs :
  Heap.arrays (Heap.write st l f) !! l' = Some (Heap.mkArray xs true)
  <-> Heap.arrays st !! l' = Some (Heap.mkArray xs true).
Proof.
  destruct (decide (l' = l)) as [-> | Hne]; [|by rewrite write_lookup_ne].
  unfold Heap.write. destruct (Heap.arrays st !! l) as [[ys []]|] eqn:El.
  - simpl. by rewrite El.
  - simpl. rewrite lookup_insert_eq. split; intros [=].
  - by rewrite El.
Qed.

Lemma alloc_frozen st a l xs :
  Heap.arrays (snd (Heap.alloc st a)) !! l = Some (Heap.mkArray xs true) ->
  (l = fst (Heap.alloc st a) /\ a = Heap.mkArray xs true)
  \/ Heap.arrays st !! l = Some (Heap.mkArray xs true).
Proof.
  destruct (decide (l = fst (Heap.alloc st a))) as [-> | Hne].
  - unfold Heap.alloc. simpl. rewrite lookup_insert_eq. intros [= ->]. by left.
  - rewrite alloc_lookup_ne by done. by right.
Qed.

Lemma alloc_unfrozen_ok glassesData st xs :
  frozen_arrays_ok glassesData st ->
  frozen_arrays_ok glassesData
    (Heap.hand_out (snd (Heap.alloc st (Heap.mkArray xs false)))
       (fst (Heap.alloc st (Heap.mkArray xs false)))).
Proof.
  intros Hok l ys Hl. simpl in Hl.
  apply alloc_frozen in Hl as [[_ [=]] | Hl]. by apply (Hok l).
Qed.

Lemma frozen_arrays_reachable glassesData st :
  Heap.reachable glassesData st -> frozen_arrays_ok glassesData st.
Proof.
  intros Hreach.
  induction Hreach as [|st Hr IH|st minPrice maxPrice Hr IH|st frameStyle Hr IH
                       |st budgetMin budgetMax Hr IH|st Hr IH|st Hr IH|st l f Hr IH].
  - intros l xs Hl. unfold Heap.new_service in Hl. simpl in Hl.
    apply lookup_singleton_Some in Hl as [_ [=]].
  - unfold Heap.getAllGlasses. by apply alloc_unfrozen_ok.
  - unfold Heap.getGlassesByPriceRange.
    destruct ((minPrice <? 0) || (maxPrice <? minPrice)); [done|].
    by apply alloc_unfrozen_ok.
  - unfold Heap.getGlassesByFrameStyle. destruct frameStyle as [| |style| |]; try done.
    destruct (String.eqb style "all").
    + unfold Heap.getAllGlasses. by apply alloc_unfrozen_ok.
    + by apply alloc_unfrozen_ok.
  - pose proof (reachable_catalog_intact glassesData st Hr) as Hintact.
    destruct (Heap.recommendation_arrays st budgetMin budgetMax) as [[top all] st'] eqn:Er.
    destruct (recommendation_arrays_copy glassesData st budgetMin budgetMax top all st'
                Hintact Er) as (_ & _ & _ & Hall & Htop).
    intros l xs Hl. simpl in Hl.
    destruct (decide (l = all)) as [-> | Hnall].
    { rewrite Hall in Hl. injection Hl as <-. exists budgetMin, budgetMax. by left. }
    destruct (decide (l = top)) as [-> | Hntop].
    { rewrite Htop in Hl. injection Hl as <-. exists budgetMin, budgetMax. by right. }
    apply (IH l xs).
    revert Er Hl Hnall Hntop. unfold Heap.recommendation_arrays.
    set (a1 := Heap.mkArray _ false).
    destruct (Heap.alloc st a1) as [suitable st1] eqn:E1.
    set (st2 := Heap.write st1 suitable (sort by_price)).
    set (a3 := Heap.mkArray (take 10 _) true).
    destruct (Heap.alloc st2 a3) as [top' st3] eqn:E3.
    set (a4 := Heap.mkArray (Heap.read st3 suitable) true).
    destruct (Heap.alloc st3 a4) as [all' st4] eqn:E4.
    intros [= <- <- <-] Hl Hnall Hntop. simpl in Hl.
    replace st4 with (snd (Heap.alloc st3 a4)) in Hl by (by rewrite E4).
    apply alloc_frozen in Hl as [[Hl _] | Hl]; [by rewrite E4 in Hl|].
    replace st3 with (snd (Heap.alloc st2 a3)) in Hl by (by rewrite E3).
    apply alloc_frozen in Hl as [[Hl _] | Hl]; [by rewrite E3 in Hl|].
    apply write_frozen in Hl.
    replace st1 with (snd (Heap.alloc st a1)) in Hl by (by rewrite E1).
    apply alloc_frozen in Hl as [[_ [=]] | Hl]. done.
  - done.
  - done.
  - intros l' xs Hl. apply (IH l' xs). unfold Heap.caller_write in Hl.
    destruct (bool_decide (l ∈ Heap.handed_out st)); [|done].
    by apply write_frozen in Hl.
Qed.

Lemma take_StronglySorted {A : Type} (R : A -> A -> Prop) (l : list A) : forall n,
  StronglySorted R l -> StronglySorted R (take n l).
Proof.
  intros n Hsorted. revert n.
  induction Hsorted as [|x sorted Hs IH Hx]; intros [|n]; simpl; try constructor.
  - apply IH.
  - rewrite Forall_forall in Hx |- *. intros y Hy. apply Hx.
    by apply (subseteq_take n sorted).
Qed.

End Frozen.

(** X18. Frozen arrays hold recommendations and nothing else, whatever
    the callers do. In every state a service goes through, with any writes
    of the callers in between, each frozen array holds the items
    [getPersonalizedRecommendations] computed for some range, sorted by
    price, or the first ten of them; and a write of a caller through any
    reference leaves every frozen array as it is. *)
Theorem X18_frozen_arrays_hold_recommendations
  (glassesData : list GlassesItem.t) (st : Heap.State) :
  Heap.reachable glassesData st ->
  frozen_arrays_ok glassesData st
  /\ (forall l f l' xs,
        Heap.arrays st !! l' = Some (Heap.mkArray xs true) ->
        Heap.arrays (Heap.caller_write st l f) !! l' = Some (Heap.mkArray xs true))
  /\ (forall l xs,
        Heap.arrays st !! l = Some (Heap.mkArray xs true) ->
        StronglySorted price_le xs /\ l <> Heap.glassesData_ref st).
Proof.
  intros Hreach. pose proof (frozen_arrays_reachable glassesData st Hreach) as Hok.
  split; [exact Hok|]. split.
  - intros l f l' xs Hl. unfold Heap.caller_write.
    destruct (bool_decide (l ∈ Heap.handed_out st)); [|done].
    by apply write_frozen.
  - intros l xs Hl. split.
    + destruct (Hok l xs Hl) as (budgetMin & budgetMax & [-> | ->]).
      * apply sort_sorted.
      * apply take_StronglySorted, sort_sorted.
    + intros ->. destruct (reachable_catalog_intact glassesData st Hreach) as [Hcat _].
      rewrite Hcat in Hl. done.
Qed.

Lemma X18_witness :
  let glassesData := catalog_of rawData in
  let st := snd (Heap.recommendation_arrays (Heap.new_service glassesData) (Some 0) (Some 50)) in
  Heap.reachable glassesData st /\ frozen_arrays_ok glassesData st.
Proof.
  intros glassesData st.
  assert (Heap.reachable glassesData st) as Hreach.
  { apply Heap.after_recommendation_arrays, Heap.after_new. }
  split; [exact Hreach|].
  apply (X18_frozen_arrays_hold_recommendations glassesData st Hreach).
Defined.

(** ** Images of the items *)

Section Images.

Lemma _createGlassesItem_image now item g :
  _createGlassesItem now item = Return g ->
  GlassesItem.image_url g
  = match RawItem.image_url item with
    | Some u => if String.eqb u "" then _getDefaultImage (GlassesItem.frame_style g) else Own u
    | None => _getDefaultImage (GlassesItem.frame_style g)
    end.
Proof.
  unfold _createGlassesItem. cbv zeta.
  destruct (0 <? length _)%nat; [done|].
  destruct (default 0 (RawItem.numeric_price item) <? 0); [done|].
  by intros [= <-].
Qed.

Lemma frame_style_images_not_empty :
  forallb (fun entry => negb (String.eqb (snd entry) "")) FRAME_STYLE_IMAGES = true.
Proof. reflexivity. Qed.

Lemma _getDefaultImage_cases frameStyle :
  match _getDefaultImage frameStyle with
  | Own u =>
      u <> ""%string
      /\ (assoc frameStyle FRAME_STYLE_IMAGES = Some u
          \/ (assoc frameStyle FRAME_STYLE_IMAGES = None
              /\ assoc "classic"%string FRAME_STYLE_IMAGES = Some u))
  | Inherited n => n = frameStyle /\ In n Object_prototype
  end.
Proof.
  unfold _getDefaultImage, get_property at 1.
  destruct (assoc frameStyle FRAME_STYLE_IMAGES) as [u|] eqn:Ea.
  - pose proof frame_style_images_not_empty as Hne. rewrite forallb_forall in Hne.
    specialize (Hne _ (assoc_In _ _ _ Ea)). simpl in Hne.
    unfold property_or at 1. destruct (String.eqb u "") eqn:Eu; [done|].
    apply String.eqb_neq in Eu. split; [done | by left].
  - destruct (existsb (String.eqb frameStyle) Object_prototype) eqn:Ex.
    + simpl. split; [done|]. apply existsb_exists in Ex as (n & Hn & En).
      apply String.eqb_eq in En. by subst.
    + simpl. split; [done|]. right. split; reflexivity.
Qed.

End Images.

(** X19. An item never has an empty image. The image of an item that
    [_createGlassesItem] returns is the one of its entry when the entry
    has one; otherwise it is the image [FRAME_STYLE_IMAGES] has under the
    frame style, as the entry spells it, or the image under "classic" when
    the table has none; none of these is the empty text. Only for a frame
    style that names a member of [Object.prototype] it is that member, not
    a text. *)
Theorem X19_item_image_is_never_empty (now : string) (item : RawItem.t) (g : GlassesItem.t) :
  _createGlassesItem now item = Return g ->
  match GlassesItem.image_url g with
  | Own u =>
      u <> ""%string
      /\ (RawItem.image_url item = Some u
          \/ (falsy_string (RawItem.image_url item) = true
              /\ assoc (GlassesItem.frame_style g) FRAME_STYLE_IMAGES = Some u)
          \/ (falsy_string (RawItem.image_url item) = true
              /\ assoc (GlassesItem.frame_style g) FRAME_STYLE_IMAGES = None
              /\ assoc "classic"%string FRAME_STYLE_IMAGES = Some u))
  | Inherited n =>
      n = GlassesItem.frame_style g /\ In n Object_prototype
      /\ falsy_string (RawItem.image_url item) = true
  end.
Proof.
  intros Hg. rewrite (_createGlassesItem_image now item g Hg).
  pose proof (_getDefaultImage_cases (GlassesItem.frame_style g)) as Hd.
  destruct (RawItem.image_url item) as [u|].
  - simpl falsy_string. destruct (String.eqb u "") eqn:Eu.
    + destruct (_getDefaultImage _) as [d|n].
      * destruct Hd as [Hne [Hd | Hd]]; (split; [done|]); right; [left | right]; done.
      * destruct Hd. done.
    + apply String.eqb_neq in Eu. split; [done | by left].
  - simpl falsy_string. destruct (_getDefaultImage _) as [d|n].
    + destruct Hd as [Hne [Hd | Hd]]; (split; [done|]); right; [left | right]; done.
    + destruct Hd. done.
Qed.

Lemma X19_witness :
  let item := raw "Warby Parker" "Felix" 95 "Square acetate frame"
                "https://www.warbyparker.com/eyeglasses/felix/jet-black" "Square" "Acetate" in
  exists g,
    _createGlassesItem "2024-01-01T00:00:00.000Z" item = Return g
    /\ GlassesItem.image_url g
       = Own "https://via.placeholder.com/300x200/eeeeee/333333?text=Classic+Frame"%string.
Proof.
  intros item. eexists. split; [reflexivity|].
  match goal with |- GlassesItem.image_url ?g = _ =>
    pose proof (X19_item_image_is_never_empty "2024-01-01T00:00:00.000Z" item g eq_refl) as H
  end.
  destruct (GlassesItem.image_url _) as [u|n] eqn:Eu; [|discriminate Eu].
  destruct H as [_ [H | [[_ H] | (_ & _ & H)]]]; [discriminate H | discriminate H |].
  injection H as <-. reflexivity.
Defined.

(** ** The zip code of the form *)

Section FormZipCode.

Lemma digit_no_whitespace c : is_digit c = true -> is_whitespace c = false.
Proof.
  intros Hd. destruct (is_whitespace c) eqn:Ew; [|done].
  by rewrite (whitespace_no_digit c Ew) in Hd.
Qed.

Lemma trimEnd_digits s : all_chars is_digit s = true -> trimEnd s = s.
Proof.
  induction s as [|c s IH]; [done|]. simpl.
  intros [Hc Hs]%andb_prop. rewrite (IH Hs).
  destruct s; [|done]. by rewrite (digit_no_whitespace c Hc).
Qed.

Lemma trim_digits s : all_chars is_digit s = true -> trim s = s.
Proof.
  intros Hs. unfold trim.
  assert (trimStart s = s) as ->.
  { destruct s as [|c s]; [done|]. simpl in *.
    apply andb_prop in Hs as [Hc _]. by rewrite (digit_no_whitespace c Hc). }
  by apply trimEnd_digits.
Qed.

Lemma zip_codes_pass_the_form :
  forallb (fun z => five_digits z && negb (String.eqb z "")) DC_ZIP_CODES = true.
Proof. vm_compute. reflexivity. Qed.

Lemma listed_zip_code z :
  z ∈ VALID_DC_ZIP_CODES ->
  five_digits z = true /\ z <> ""%string /\ validateDCZipCode (JsString z) = true.
Proof.
  intros Hin. pose proof zip_codes_pass_the_form as Hall.
  rewrite forallb_forall in Hall.
  pose proof Hin as Hl. apply elem_of_list_to_set, list_elem_of_In in Hl.
  apply Hall, andb_prop in Hl as [H5 Hne].
  split; [done|]. split.
  - intros ->. done.
  - apply validateDCZipCode_true. exists z. split; [done|].
    by rewrite (trim_listed z Hin).
Qed.

Lemma sanitizeZipCode_listed z :
  z ∈ VALID_DC_ZIP_CODES -> sanitizeZipCode (JsString z) = z.
Proof.
  intros Hin. pose proof zip_codes_kept as Hall. rewrite forallb_forall in Hall.
  apply String.eqb_eq, Hall. apply elem_of_list_to_set in Hin. by apply list_elem_of_In.
Qed.

End FormZipCode.

(** X20. The form is stricter than the service about zip codes. The
    zip code check of the form sets no error exactly for the forty listed
    codes, and such a text passes [validateDCZipCode] and
    [sanitizeZipCode] unchanged. A listed code with white space in front,
    which [validateDCZipCode] accepts, is refused by the form as not being
    five digits. *)
Theorem X20_form_accepts_exactly_the_listed_zip_codes (zipCode : string) :
  (zipCode_error zipCode = None <-> zipCode ∈ VALID_DC_ZIP_CODES)
  /\ (zipCode_error zipCode = None ->
      validateDCZipCode (JsString zipCode) = true
      /\ sanitizeZipCode (JsString zipCode) = zipCode)
  /\ (forall space,
        zipCode ∈ VALID_DC_ZIP_CODES ->
        all_whitespace space = true -> space <> ""%string ->
        validateDCZipCode (JsString (space +:+ zipCode)) = true
        /\ zipCode_error (space +:+ zipCode)
           = Some "Please enter a valid 5-digit ZIP code"%string).
Proof.
  assert (zipCode_error zipCode = None -> zipCode ∈ VALID_DC_ZIP_CODES) as Hlisted.
  { unfold zipCode_error.
    destruct (String.eqb zipCode ""); [intros H; discriminate H|].
    destruct (five_digits zipCode) eqn:E5; [|intros H; discriminate H].
    cbn [negb].
    destruct (validateDCZipCode (JsString zipCode)) eqn:Ev; [|intros H; discriminate H].
    intros _.
    apply validateDCZipCode_true in Ev as (s & Hs & Hin). injection Hs as <-.
    apply andb_prop in E5 as [_ Hd]. rewrite (trim_digits zipCode Hd) in Hin. exact Hin. }
  assert (zipCode ∈ VALID_DC_ZIP_CODES -> zipCode_error zipCode = None) as Hnone.
  { intros Hin. destruct (listed_zip_code zipCode Hin) as (H5 & Hne & Hv).
    unfold zipCode_error. apply String.eqb_neq in Hne. rewrite Hne, H5, Hv. reflexivity. }
  split; [split; [exact Hlisted | exact Hnone]|]. split.
  - intros Hin%Hlisted. destruct (listed_zip_code zipCode Hin) as (H5 & Hne & Hv).
    split; [exact Hv|].
    by apply sanitizeZipCode_listed.
  - intros space Hin Hspace Hne.
    destruct (listed_zip_code zipCode Hin) as (H5 & _ & Hv). split.
    + apply validateDCZipCode_true. eexists. split; [reflexivity|].
      replace (space +:+ zipCode) with (space +:+ zipCode +:+ "") by (by rewrite append_nil_r).
      rewrite trim_surrounded by done. by rewrite (trim_listed zipCode Hin).
    + unfold zipCode_error.
      destruct space as [|c space]; [congruence|]. rewrite append_cons.
      cbn [String.eqb]. unfold five_digits.
      rewrite <- append_cons, append_length.
      apply andb_prop in H5 as [Hlen _]. apply Nat.eqb_eq in Hlen. rewrite Hlen.
      destruct (_ =? 5)%nat eqn:E; [apply Nat.eqb_eq in E; simpl in E; lia|].
      reflexivity.
Qed.

Lemma X20_witness :
  "20001"%string ∈ VALID_DC_ZIP_CODES
  /\ zipCode_error "20001" = None
  /\ validateDCZipCode (JsString " 20001") = true
  /\ zipCode_error " 20001" = Some "Please enter a valid 5-digit ZIP code"%string.
Proof.
  assert ("20001"%string ∈ VALID_DC_ZIP_CODES) as Hin.
  { apply (bool_decide_unpack _). vm_compute. exact I. }
  destruct (X20_form_accepts_exactly_the_listed_zip_codes "20001") as (Hiff & _ & Hspace).
  split; [exact Hin|]. split; [by apply Hiff|].
  apply (Hspace " "%string Hin); [reflexivity | discriminate].
Defined.

(** ** The budgets of the form *)

Section Budgets.

Lemma matching_budgets_unfold p :
  matching_budgets p
  = (if p <? 50 then ["under50"%string] else [])
    ++ (if (50 <=? p) && (p <=? 75) then ["50-75"%string] else [])
    ++ (if (75 <=? p) && (p <=? 100) then ["75-100"%string] else [])
    ++ (if (100 <=? p) && (p <=? 150) then ["100-150"%string] else [])
    ++ (if (150 <=? p) && (p <=? 200) then ["150-200"%string] else [])
    ++ (if 200 <=? p then ["200plus"%string] else []).
Proof.
  unfold matching_budgets, budgets. cbn [List.filter].
  change (budgetMatch "under50" p) with (p <? 50).
  change (budgetMatch "50-75" p) with ((50 <=? p) && (p <=? 75)).
  change (budgetMatch "75-100" p) with ((75 <=? p) && (p <=? 100)).
  change (budgetMatch "100-150" p) with ((100 <=? p) && (p <=? 150)).
  change (budgetMatch "150-200" p) with ((150 <=? p) && (p <=? 200)).
  change (budgetMatch "200plus" p) with (200 <=? p).
  destruct (p <? 50), ((50 <=? p) && (p <=? 75)), ((75 <=? p) && (p <=? 100)),
    ((100 <=? p) && (p <=? 150)), ((150 <=? p) && (p <=? 200)), (200 <=? p); reflexivity.
Qed.

End Budgets.

(** X21. The six budgets of the form cover every price and overlap at
    their ends: a price matches exactly one budget, except 75, 100, 150 and
    200, which match two. No budget, or a text that is none of the six,
    matches every price; and the budget from 50 to 75 together with the
    price filter "under50" matches no item at all. *)
Theorem X21_budgets_cover_prices_and_overlap_at_ends
  (numeric_price : Z) (budget style : string) (glasses : GlassesItem.t) :
  length (matching_budgets numeric_price)
  = (if bool_decide (numeric_price ∈ [75; 100; 150; 200]) then 2%nat else 1%nat)
  /\ (~ In budget budgets -> budgetMatch budget numeric_price = true)
  /\ priceMatch (Filters.mk "under50" style) glasses
     && budgetMatch "50-75" (GlassesItem.numeric_price glasses) = false.
Proof.
  split; [|split].
  - rewrite matching_budgets_unfold.
    case_bool_decide as Hin.
    + repeat (apply elem_of_cons in Hin as [-> | Hin]; [reflexivity|]).
      by apply elem_of_nil in Hin.
    + assert (numeric_price <> 75 /\ numeric_price <> 100
              /\ numeric_price <> 150 /\ numeric_price <> 200) as (H1 & H2 & H3 & H4).
      { repeat split; intros ->; apply Hin; set_solver. }
      destruct (numeric_price <? 50) eqn:E1;
        destruct (50 <=? numeric_price) eqn:E2;
        destruct (numeric_price <=? 75) eqn:E3;
        destruct (75 <=? numeric_price) eqn:E4;
        try (exfalso; lia);
        destruct (numeric_price <=? 100) eqn:E5;
        destruct (100 <=? numeric_price) eqn:E6;
        try (exfalso; lia);
        destruct (numeric_price <=? 150) eqn:E7;
        destruct (150 <=? numeric_price) eqn:E8;
        try (exfalso; lia);
        destruct (numeric_price <=? 200) eqn:E9;
        destruct (200 <=? numeric_price) eqn:E10;
        try (exfalso; lia); reflexivity.
  - intros Hnot. unfold budgetMatch.
    destruct (String.eqb budget ""); [reflexivity|].
    assert (forall known, In known budgets -> String.eqb budget known = false) as Hne.
    { intros known Hin. apply String.eqb_neq. by intros ->. }
    rewrite (Hne "under50"%string), (Hne "50-75"%string), (Hne "75-100"%string),
      (Hne "100-150"%string), (Hne "150-200"%string), (Hne "200plus"%string);
      simpl; tauto.
  - unfold priceMatch.
    change (budgetMatch "50-75" (GlassesItem.numeric_price glasses))
      with ((50 <=? GlassesItem.numeric_price glasses)
            && (GlassesItem.numeric_price glasses <=? 75)).
    cbn [Filters.priceRange].
    change (String.eqb "under50" "all") with false.
    change (String.eqb "under50" "under50") with true.
    change (String.eqb "under50" "50-100") with false.
    change (String.eqb "under50" "over100") with false.
    cbn [orb andb].
    destruct (GlassesItem.numeric_price glasses <? 50) eqn:E1;
      destruct (50 <=? GlassesItem.numeric_price glasses) eqn:E2;
      try (exfalso; lia); reflexivity.
Qed.
